(** * L. Spiro NES: the 6502 cycle engine, its port handlers and mapper 094

    A shallow embedding of
    - [Src/Cpu/LSNCpu6502.cpp]  (the two half-cycle entry points, the opcode
      fetch, the BRK/NMI/IRQ/RESET sequence, JAM, the unstable opcodes, DMA
      start),
    - [Src/Cpu/LSNCpu6502.h]    (the handlers of 0x4014 and 0x4016),
    - [Src/Mappers/LSNMapper094.cpp],
    together with the properties that the specification states about them.

    Integers are [Z]; every C++ narrowing conversion is written out with
    [u8], [u16] or [u64].  Member functions become functions on the record
    [CCpu6502]; function pointers become constructors of [PfTicks] and
    [PfCycle].  Whatever the translation unit only declares (the bus, the
    mapper behind [m_pmbMapper], the input poller, the cycle macros, the
    instruction table of LSNCycleFuncs.inl) is either a
    member of the classes [Collaborators], [Hooks] and [TickFuncs] or a
    definition whose comment says what it was modelled from. *)

From stdpp Require Import base list.
From Stdlib Require Import ZArith Lia Bool.

Local Open Scope Z_scope.

(** ** Fixed-width arithmetic *)

Definition u8 (z : Z) : Z := z mod 256.
Definition u16 (z : Z) : Z := z mod 65536.
Definition u64 (z : Z) : Z := z mod 2 ^ 64.

(** [m_ui8Xxx[0]] and [m_ui8Xxx[1]] of the unions that overlay a [uint16_t]
    with two bytes (little endian, as on the build's only target). *)
Definition lo8 (w : Z) : Z := Z.land w 255.
Definition hi8 (w : Z) : Z := Z.land (Z.shiftr w 8) 255.

(** [(x & mask) != 0] *)
Definition nonzero (z : Z) : bool := negb (z =? 0).

(** Modelled from the spec: the helper [SetBit<mask>( val, b )] of the
    utility header.  The flag semantics ("N from bit 7", "Z/N from low
    byte") are what its uses produce when it sets the bits of [mask] for a
    true [b] and clears them for a false one. *)
Definition SetBit (mask : Z) (val : Z) (b : bool) : Z :=
  if b then Z.lor val mask else Z.land val (Z.lnot mask).

(** The status-flag accessors [C()], [Z()], [I()], [D()], [X()], [M()],
    [V()], [N()].  Their values are those of [LSN_STATUS_FLAGS] in
    LSNCpu6502.h, the spec's "bit layout {C=0, Z=1, I=2, D=3, B=4, U=5,
    V=6, N=7}"; [X()] is the break bit and [M()] the reserved bit ([Php]:
    "with Break and Reserved set"; [Push_S_Phi2]: "with or without
    B/X"). *)
Module SF.
Definition C : Z := 1.
Definition Z_ : Z := 2.
Definition I : Z := 4.
Definition D : Z := 8.
Definition X : Z := 16.
Definition M : Z := 32.
Definition V : Z := 64.
Definition N : Z := 128.
End SF.

(** ** The bus *)

(** [for ( uint32_t I = lo; I < hi; ++I ) body] *)
Definition for_range {A : Type} (lo hi : Z) (body : Z -> A -> A) (a : A) : A :=
  foldl (fun acc I => body I acc) a (seqZ lo (hi - lo)).

Module Bus.

(** The accessors the translation units install: those of the bus itself,
    those of the CPU (LSNCpu6502.h), those of the mapper, and a stand-in
    for any other. *)
Inductive PfReadFunc : Set :=
| PfStdRead
| PfNoRead
| PfRead4016
| PfRead4017
| PfPgmBankRead_Fixed
| PfPgmBankRead_4000
| PfRead_Other (id : nat).

Inductive PfWriteFunc : Set :=
| PfStdWrite
| PfNoWrite
| PfWrite4014
| PfWrite4016
| PfSelectBank
| PfWrite_Other (id : nat).

(** Modelled from the spec: one slot of a bus (the classes CCpuBus and
    CPpuBus are not part of the translation units).  "65,536 read slots and
    65,536 write slots, each a (handler, context, 16-bit parameter)
    triple"; the context is the installing object and is left out. *)
Record Accessor (F : Set) : Set := MkAccessor {
  pfFunc : F;
  ui16Parm : Z
}.
Arguments MkAccessor {F} _ _.
Arguments pfFunc {F} _.
Arguments ui16Parm {F} _.

(** Modelled from the spec: the slots of a bus and its "per-address
    float-mask". *)
Record Slots : Type := MkSlots {
  Readers : Z -> Accessor PfReadFunc;
  Writers : Z -> Accessor PfWriteFunc;
  FloatMasks : Z -> Z
}.

Definition point_update {A : Type} (k : Z) (v : A) (f : Z -> A) : Z -> A :=
  fun a => if a =? k then v else f a.

(** Modelled from the spec: [set_read(addr, handler, ctx, param)] and
    [set_write(addr, handler, ctx, param)] "install for one address";
    [set_float_mask(addr, mask)] sets the mask of one address. *)
Definition SetReadFunc (addr : Z) (pf : PfReadFunc) (parm : Z) (b : Slots) : Slots :=
  MkSlots (point_update addr (MkAccessor pf parm) (Readers b)) (Writers b) (FloatMasks b).

Definition SetWriteFunc (addr : Z) (pf : PfWriteFunc) (parm : Z) (b : Slots) : Slots :=
  MkSlots (Readers b) (point_update addr (MkAccessor pf parm) (Writers b)) (FloatMasks b).

Definition SetFloatMask (addr mask : Z) (b : Slots) : Slots :=
  MkSlots (Readers b) (Writers b) (point_update addr mask (FloatMasks b)).

End Bus.

(** [CCpu6502::ApplyMemoryMap()], on the slots of the bus [m_pbBus] points
    to.  The four address constants are defined outside the translation
    unit. *)
Section MemoryMap.
Variables LSN_CPU_START LSN_CPU_FULL_SIZE LSN_INTERNAL_RAM LSN_MEM_FULL_SIZE : Z.

Definition ApplyMemoryMap (b : Bus.Slots) : Bus.Slots :=
  let b := for_range LSN_CPU_START (LSN_CPU_START + LSN_CPU_FULL_SIZE)
             (fun I b =>
                let parm := u16 ((I - LSN_CPU_START) mod LSN_INTERNAL_RAM + LSN_CPU_START) in
                let b := Bus.SetReadFunc (u16 I) Bus.PfStdRead parm b in
                Bus.SetWriteFunc (u16 I) Bus.PfStdWrite parm b) b in
  let b := for_range 0x4000 0x4015
             (fun I b =>
                let b := Bus.SetReadFunc (u16 I) Bus.PfNoRead (u16 I) b in
                Bus.SetWriteFunc (u16 I) Bus.PfNoWrite (u16 I) b) b in
  let b := for_range 0x4018 LSN_MEM_FULL_SIZE
             (fun I b =>
                let b := Bus.SetReadFunc (u16 I) Bus.PfNoRead (u16 I) b in
                Bus.SetWriteFunc (u16 I) Bus.PfNoWrite (u16 I) b) b in
  let b := Bus.SetReadFunc 0x4014 Bus.PfNoRead 0x4014 b in
  let b := Bus.SetWriteFunc 0x4014 Bus.PfWrite4014 0x4014 b in
  let b := Bus.SetReadFunc 0x4016 Bus.PfRead4016 0 b in
  let b := Bus.SetWriteFunc 0x4016 Bus.PfWrite4016 0 b in
  let b := Bus.SetReadFunc 0x4017 Bus.PfRead4017 0 b in
  Bus.SetFloatMask 0x4015 0x00 b.

End MemoryMap.

(** ** Function pointers *)

(** [enum LSN_VECTORS] *)
Inductive LSN_VECTORS : Set := LSN_V_NMI | LSN_V_RESET | LSN_V_IRQ_BRK.

Definition vector_address (v : LSN_VECTORS) : Z :=
  match v with
  | LSN_V_NMI => 0xFFFA
  | LSN_V_RESET => 0xFFFC
  | LSN_V_IRQ_BRK => 0xFFFE
  end.

(** The DMA states that index [Tick_Dma]; the translation unit names only
    [LSN_DS_IDLE]. *)
Inductive LSN_DMA_STATES : Set := LSN_DS_IDLE | LSN_DS_STATE (n : nat).

(** [PfTicks]: the functions [m_pfTickFunc] can point to. *)
Inductive PfTicks : Set :=
| Tick_NextInstructionStd
| Tick_InstructionCycleStd
| Tick_Dma (_uState : LSN_DMA_STATES) (_bPhi2 : bool).

(** [PfCycle]: the micro-step functions an instruction's [pfHandler] array
    can hold.  The ones embedded below have a constructor of their own
    (template arguments become constructor arguments); every other cycle
    function of the file is [Cycle_Other]. *)
Inductive PfCycle : Set :=
| PfFetch_Opcode_IncPc_Phi2
| PfJam
| PfJam_Phi2
| PfSelectBrkVectors
| PfSetBrkFlags
| PfPush_S_Phi2 (_i8SOff : Z)
| PfPhp
| PfPlp_BeginInst
| PfCopyOperandToStatusWithoutB
| PfAne_IncPc_BeginInst
| PfLxa_IncPc_BeginInst
| PfSha_Phi2 (_bToAddr : bool)
| PfShs_Phi2 (_bToAddr : bool)
| PfShx_Phi2 (_bToAddr : bool)
| PfShy_Phi2 (_bToAddr : bool)
| Cycle_Other (id : nat).

(** ** The CPU object *)

(** The state of the objects the CPU only holds pointers to. *)
Class Collaborators : Type := {
  CCpuBus : Type;        (* what [m_pbBus] points to: the bus and the devices on it *)
  CMapperBase : Type;    (* what [m_pmbMapper] points to *)
  CInputPoller : Type;   (* what [m_pipPoller] points to *)
  CCycleInfo : Type      (* bookkeeping of the cycle-marker macros *)
}.

(** [m_rRegs] *)
Record LSN_REGISTERS : Set := MkRegs {
  ui8A : Z;
  ui8X : Z;
  ui8Y : Z;
  ui8S : Z;
  ui8Status : Z;
  ui16Pc : Z
}.

Section Cpu.
Context {ext : Collaborators}.

Record CCpu6502 : Type := MkCpu {
  m_pfTickFunc : PfTicks;
  m_pfTickFuncCopy : PfTicks;
  m_pfCurInstruction : list PfCycle;
  m_rRegs : LSN_REGISTERS;
  m_ui64CycleCount : Z;
  m_ui16OpCode : Z;
  m_ui16PcModify : Z;
  m_ui16Address : Z;
  m_ui16Pointer : Z;
  m_ui16DmaAddress : Z;
  m_vBrkVector : LSN_VECTORS;
  m_ui8FuncIndex : Z;
  m_ui8Operand : Z;
  m_bBoundaryCrossed : bool;
  m_bPushB : bool;
  m_bAllowWritingToPc : bool;
  m_bHandleNmi : bool;
  m_bHandleIrq : bool;
  m_bIsReset : bool;
  m_bDetectedNmi : bool;
  m_bLastNmiStatusLine : bool;
  m_bNmiStatusLine : bool;
  m_bIrqStatusLine : bool;
  m_bIrqSeenLowPhi2 : bool;
  m_bIrqStatusPhi1Flag : bool;
  m_bDmaGo : bool;
  m_ui8Inputs : list Z;
  m_ui8InputsState : list Z;
  m_ui8InputsPoll : list Z;
  m_pipPoller : option CInputPoller;
  m_pbBus : CCpuBus;
  m_pmbMapper : CMapperBase;
  m_ciCycle : CCycleInfo
}.

(** Assignment to one member.  [cpu_eta] rebuilds an object from its
    members; [assign_member p] abstracts the member [p] out of it. *)
Definition cpu_eta (s : CCpu6502) : CCpu6502 :=
  MkCpu (m_pfTickFunc s) (m_pfTickFuncCopy s) (m_pfCurInstruction s) (m_rRegs s)
    (m_ui64CycleCount s) (m_ui16OpCode s) (m_ui16PcModify s) (m_ui16Address s)
    (m_ui16Pointer s) (m_ui16DmaAddress s) (m_vBrkVector s) (m_ui8FuncIndex s)
    (m_ui8Operand s) (m_bBoundaryCrossed s) (m_bPushB s) (m_bAllowWritingToPc s)
    (m_bHandleNmi s) (m_bHandleIrq s) (m_bIsReset s) (m_bDetectedNmi s)
    (m_bLastNmiStatusLine s) (m_bNmiStatusLine s) (m_bIrqStatusLine s)
    (m_bIrqSeenLowPhi2 s) (m_bIrqStatusPhi1Flag s) (m_bDmaGo s) (m_ui8Inputs s)
    (m_ui8InputsState s) (m_ui8InputsPoll s) (m_pipPoller s) (m_pbBus s)
    (m_pmbMapper s) (m_ciCycle s).

Definition regs_eta (r : LSN_REGISTERS) : LSN_REGISTERS :=
  MkRegs (ui8A r) (ui8X r) (ui8Y r) (ui8S r) (ui8Status r) (ui16Pc r).

Ltac assign_member eta proj :=
  let v := fresh "v" in
  let s := fresh "s" in
  intros v s;
  let e := eval cbv beta delta [eta] in (eta s) in
  lazymatch eval pattern (proj s) in e with
  | ?f _ => let t := eval cbv beta in (f v) in exact t
  end.

Definition set_ui8A : Z -> LSN_REGISTERS -> LSN_REGISTERS :=
  ltac:(assign_member regs_eta ui8A).
Definition set_ui8X : Z -> LSN_REGISTERS -> LSN_REGISTERS :=
  ltac:(assign_member regs_eta ui8X).
Definition set_ui8S : Z -> LSN_REGISTERS -> LSN_REGISTERS :=
  ltac:(assign_member regs_eta ui8S).
Definition set_ui8Status : Z -> LSN_REGISTERS -> LSN_REGISTERS :=
  ltac:(assign_member regs_eta ui8Status).
Definition set_ui16Pc : Z -> LSN_REGISTERS -> LSN_REGISTERS :=
  ltac:(assign_member regs_eta ui16Pc).

Definition set_m_pfTickFunc : PfTicks -> CCpu6502 -> CCpu6502 :=
  ltac:(assign_member cpu_eta m_pfTickFunc).
Definition set_m_pfCurInstruction : list PfCycle -> CCpu6502 -> CCpu6502 :=
  ltac:(assign_member cpu_eta m_pfCurInstruction).
Definition set_m_rRegs : LSN_REGISTERS -> CCpu6502 -> CCpu6502 :=
  ltac:(assign_member cpu_eta m_rRegs).
Definition set_m_ui64CycleCount : Z -> CCpu6502 -> CCpu6502 :=
  ltac:(assign_member cpu_eta m_ui64CycleCount).
Definition set_m_ui16OpCode : Z -> CCpu6502 -> CCpu6502 :=
  ltac:(assign_member cpu_eta m_ui16OpCode).
Definition set_m_ui16PcModify : Z -> CCpu6502 -> CCpu6502 :=
  ltac:(assign_member cpu_eta m_ui16PcModify).
Definition set_m_ui16DmaAddress : Z -> CCpu6502 -> CCpu6502 :=
  ltac:(assign_member cpu_eta m_ui16DmaAddress).
Definition set_m_vBrkVector : LSN_VECTORS -> CCpu6502 -> CCpu6502 :=
  ltac:(assign_member cpu_eta m_vBrkVector).
Definition set_m_ui8Operand : Z -> CCpu6502 -> CCpu6502 :=
  ltac:(assign_member cpu_eta m_ui8Operand).
Definition set_m_ui8FuncIndex : Z -> CCpu6502 -> CCpu6502 :=
  ltac:(assign_member cpu_eta m_ui8FuncIndex).
Definition set_m_bPushB : bool -> CCpu6502 -> CCpu6502 :=
  ltac:(assign_member cpu_eta m_bPushB).
Definition set_m_bAllowWritingToPc : bool -> CCpu6502 -> CCpu6502 :=
  ltac:(assign_member cpu_eta m_bAllowWritingToPc).
Definition set_m_bHandleNmi : bool -> CCpu6502 -> CCpu6502 :=
  ltac:(assign_member cpu_eta m_bHandleNmi).
Definition set_m_bHandleIrq : bool -> CCpu6502 -> CCpu6502 :=
  ltac:(assign_member cpu_eta m_bHandleIrq).
Definition set_m_bIsReset : bool -> CCpu6502 -> CCpu6502 :=
  ltac:(assign_member cpu_eta m_bIsReset).
Definition set_m_bDetectedNmi : bool -> CCpu6502 -> CCpu6502 :=
  ltac:(assign_member cpu_eta m_bDetectedNmi).
Definition set_m_bLastNmiStatusLine : bool -> CCpu6502 -> CCpu6502 :=
  ltac:(assign_member cpu_eta m_bLastNmiStatusLine).
Definition set_m_bNmiStatusLine : bool -> CCpu6502 -> CCpu6502 :=
  ltac:(assign_member cpu_eta m_bNmiStatusLine).
Definition set_m_bIrqStatusLine : bool -> CCpu6502 -> CCpu6502 :=
  ltac:(assign_member cpu_eta m_bIrqStatusLine).
Definition set_m_bIrqSeenLowPhi2 : bool -> CCpu6502 -> CCpu6502 :=
  ltac:(assign_member cpu_eta m_bIrqSeenLowPhi2).
Definition set_m_bIrqStatusPhi1Flag : bool -> CCpu6502 -> CCpu6502 :=
  ltac:(assign_member cpu_eta m_bIrqStatusPhi1Flag).
Definition set_m_bDmaGo : bool -> CCpu6502 -> CCpu6502 :=
  ltac:(assign_member cpu_eta m_bDmaGo).
Definition set_m_ui8Inputs : list Z -> CCpu6502 -> CCpu6502 :=
  ltac:(assign_member cpu_eta m_ui8Inputs).
Definition set_m_ui8InputsState : list Z -> CCpu6502 -> CCpu6502 :=
  ltac:(assign_member cpu_eta m_ui8InputsState).
Definition set_m_ui8InputsPoll : list Z -> CCpu6502 -> CCpu6502 :=
  ltac:(assign_member cpu_eta m_ui8InputsPoll).
Definition set_m_ciCycle : CCycleInfo -> CCpu6502 -> CCpu6502 :=
  ltac:(assign_member cpu_eta m_ciCycle).


(** What the translation unit calls but does not define.  Bus accesses and
    the mapper's tick act on the whole object: a handler receives [this]
    (see [Write4014], [Read4016]). *)
Class Hooks : Type := {
  (* the build switch [#ifdef LSN_CPU_VERIFY] *)
  LSN_CPU_VERIFY : bool;
  (* [m_pbBus->Read( addr )] and [m_pbBus->Write( addr, val )] *)
  bus_Read : Z -> CCpu6502 -> Z * CCpu6502;
  bus_Write : Z -> Z -> CCpu6502 -> CCpu6502;
  (* [m_pmbMapper->Tick()] *)
  Mapper_Tick : CCpu6502 -> CCpu6502;
  (* [m_pipPoller->PollPort( port )] *)
  PollPort : CInputPoller -> Z -> Z;
  (* [m_iInstructionSet[op].pfHandler], the table of LSNCycleFuncs.inl *)
  m_iInstructionSet : Z -> list PfCycle;
  (* [BeginInst()], [LSN_FINISH_INST( check )], [LSN_PUSH( val )] with the
     enclosing template's [_i8SOff] *)
  BeginInst : CCpu6502 -> CCpu6502;
  LSN_FINISH_INST : bool -> CCpu6502 -> CCpu6502;
  LSN_PUSH : Z -> Z -> CCpu6502 -> CCpu6502;
  (* what the markers [LSN_INSTR_START_PHI1( read )], [LSN_INSTR_END_PHI1]
     and [LSN_INSTR_END_PHI2] record *)
  phi1_start : bool -> CCycleInfo -> CCycleInfo;
  phi1_end : CCycleInfo -> CCycleInfo;
  phi2_end : CCycleInfo -> CCycleInfo;
  (* the cycle functions that have no constructor in [PfCycle] *)
  call_other : nat -> CCpu6502 -> CCpu6502
}.

Context {hooks : Hooks}.

(** ** The cycle macros *)

Definition i16 (z : Z) : Z :=
  let w := u16 z in if w <? 32768 then w else w - 65536.

(** The markers [LSN_INSTR_START_PHI1( read )], [LSN_INSTR_END_PHI1] and
    [LSN_INSTR_END_PHI2] open and close a half cycle; the translation unit
    uses them without defining them.  What they record is a parameter
    ([phi1_start], [phi1_end], [phi2_end]); they are taken to touch only
    that bookkeeping, [m_ciCycle]. *)
Definition LSN_INSTR_START_PHI1 (_bRead : bool) (s : CCpu6502) : CCpu6502 :=
  set_m_ciCycle (phi1_start _bRead (m_ciCycle s)) s.

Definition LSN_INSTR_END_PHI1 (s : CCpu6502) : CCpu6502 :=
  set_m_ciCycle (phi1_end (m_ciCycle s)) s.

Definition LSN_INSTR_END_PHI2 (s : CCpu6502) : CCpu6502 :=
  set_m_ciCycle (phi2_end (m_ciCycle s)) s.

(** Modelled from the spec: the macro LSN_INSTR_START_PHI2_READ( addr, dst ),
    used but not defined in the translation unit.  It is "the single bus
    read" of a phi2 step: the bus is read at the 16-bit address and the
    caller stores the byte into [dst]. *)
Definition LSN_INSTR_START_PHI2_READ (addr : Z) (s : CCpu6502) : Z * CCpu6502 :=
  let r := bus_Read (u16 addr) s in (u8 (fst r), snd r).

(** Modelled from the spec: the macro LSN_INSTR_START_PHI2_WRITE( addr, val ),
    used but not defined in the translation unit: "the single bus ...
    write" of a phi2 step. *)
Definition LSN_INSTR_START_PHI2_WRITE (addr val : Z) (s : CCpu6502) : CCpu6502 :=
  bus_Write (u16 addr) (u8 val) s.

(** Modelled from the spec: the macro LSN_NEXT_FUNCTION_BY, used but not
    defined in the translation unit.  "A micro-step ... performs at most
    one bus operation and then advances the index"; the index is the
    [uint8_t] micro-step index. *)
Definition LSN_NEXT_FUNCTION_BY (n : Z) (s : CCpu6502) : CCpu6502 :=
  set_m_ui8FuncIndex (u8 (m_ui8FuncIndex s + n)) s.

Definition LSN_NEXT_FUNCTION (s : CCpu6502) : CCpu6502 :=
  LSN_NEXT_FUNCTION_BY 1 s.

(** Modelled from the spec: the macro LSN_UPDATE_PC, used but not defined
    in the translation unit.  The increment a phi2 step scheduled in
    [m_ui16PcModify] is applied unless "PC write-back is suppressed", and
    the schedule is cleared; [Jam] and [Branch_Cycle1_Phi2] spell the same
    two statements out. *)
Definition LSN_UPDATE_PC (s : CCpu6502) : CCpu6502 :=
  let s :=
    if m_bAllowWritingToPc s
    then set_m_rRegs (set_ui16Pc (u16 (ui16Pc (m_rRegs s) + m_ui16PcModify s)) (m_rRegs s)) s
    else s in
  set_m_ui16PcModify 0 s.

(** ** The interrupt lines *)

(** [CCpu6502::Nmi()] *)
Definition Nmi (s : CCpu6502) : CCpu6502 := set_m_bNmiStatusLine true s.

(** [CCpu6502::ClearNmi()] *)
Definition ClearNmi (s : CCpu6502) : CCpu6502 := set_m_bNmiStatusLine false s.

(** [CCpu6502::Irq()] *)
Definition Irq (s : CCpu6502) : CCpu6502 := set_m_bIrqStatusLine true s.

(** [CCpu6502::ClearIrq()] *)
Definition ClearIrq (s : CCpu6502) : CCpu6502 := set_m_bIrqStatusLine false s.

(** [CCpu6502::GetIrqStatus()] *)
Definition GetIrqStatus (s : CCpu6502) : bool := m_bIrqStatusLine s.

(** ** DMA start *)

(** [CCpu6502::BeginDma( _ui8Val )] *)
Definition BeginDma (_ui8Val : Z) (s : CCpu6502) : CCpu6502 :=
  let s := set_m_pfTickFunc (Tick_Dma LSN_DS_IDLE false) s in
  let s := set_m_ui16DmaAddress (u16 (Z.shiftl _ui8Val 8)) s in
  set_m_bDmaGo false s.

(** ** The port handlers of LSNCpu6502.h *)

(** [arr[i]] of a [uint8_t arr[8]] member. *)
Definition at8 (arr : list Z) (i : nat) : Z := default 0 (arr !! i).

(** [CCpu6502::Write4014] *)
Definition Write4014 (_ui8Val : Z) (s : CCpu6502) : CCpu6502 :=
  BeginDma _ui8Val s.

(** [CCpu6502::Read4016]: the byte handed back and the object afterwards. *)
Definition Read4016 (s : CCpu6502) : Z * CCpu6502 :=
  let _ui8Ret := if nonzero (Z.land (at8 (m_ui8InputsState s) 0) 0x80) then 1 else 0 in
  (_ui8Ret,
   set_m_ui8InputsState
     (<[0%nat := u8 (Z.shiftl (at8 (m_ui8InputsState s) 0) 1)]> (m_ui8InputsState s)) s).

(** [CCpu6502::Write4016] *)
Definition Write4016 (_ui8Val : Z) (s : CCpu6502) : CCpu6502 :=
  let s := set_m_ui8Inputs
             (<[0%nat := u8 (Z.lor (Z.land (at8 (m_ui8Inputs s) 0) 0xF8) (Z.land _ui8Val 0x07))]>
                (m_ui8Inputs s)) s in
  let s :=
    match m_pipPoller s with
    | Some poller => set_m_ui8InputsPoll (<[0%nat := u8 (PollPort poller 0)]> (m_ui8InputsPoll s)) s
    | None => set_m_ui8InputsPoll (<[0%nat := 0]> (m_ui8InputsPoll s)) s
    end in
  set_m_ui8InputsState (<[0%nat := at8 (m_ui8InputsPoll s) 0]> (m_ui8InputsState s)) s.

(** [CCpu6502::Read4017] *)
Definition Read4017 (s : CCpu6502) : Z * CCpu6502 :=
  let _ui8Ret := if nonzero (Z.land (at8 (m_ui8InputsState s) 1) 0x80) then 1 else 0 in
  (_ui8Ret,
   set_m_ui8InputsState
     (<[1%nat := u8 (Z.shiftl (at8 (m_ui8InputsState s) 1) 1)]> (m_ui8InputsState s)) s).

(** [CCpu6502::Write4017] *)
Definition Write4017 (_ui8Val : Z) (s : CCpu6502) : CCpu6502 :=
  let s := set_m_ui8Inputs
             (<[1%nat := u8 (Z.lor (Z.land (at8 (m_ui8Inputs s) 1) 0xF8) (Z.land _ui8Val 0x07))]>
                (m_ui8Inputs s)) s in
  set_m_ui8InputsState (<[1%nat := at8 (m_ui8InputsPoll s) 1]> (m_ui8InputsState s)) s.

(** A program's accesses to the port 0x4016, and the run of a sequence of
    them: the bytes read, in order, and the object afterwards. *)
Inductive PortAccess : Set := PortRead | PortWrite (_ui8Val : Z).

Definition access4016 (a : PortAccess) (s : CCpu6502) : list Z * CCpu6502 :=
  match a with
  | PortRead => let r := Read4016 s in ([fst r], snd r)
  | PortWrite v => ([], Write4016 v s)
  end.

Fixpoint run4016 (l : list PortAccess) (s : CCpu6502) : list Z * CCpu6502 :=
  match l with
  | [] => ([], s)
  | a :: l' =>
      let r := access4016 a s in
      let r' := run4016 l' (snd r) in
      (fst r ++ fst r', snd r')
  end.

(** ** Micro-steps *)

(** [CCpu6502::Fetch_Opcode_IncPc_Phi2()] *)
Definition Fetch_Opcode_IncPc_Phi2 (s : CCpu6502) : CCpu6502 :=
  let r := LSN_INSTR_START_PHI2_READ (ui16Pc (m_rRegs s)) s in
  let ui8Op := fst r in
  let s := snd r in
  let r :=
    if LSN_CPU_VERIFY then (ui8Op, set_m_ui16PcModify 1 s)
    else if m_bHandleNmi s || m_bHandleIrq s || m_bIsReset s
         then (0, set_m_bAllowWritingToPc false (set_m_ui16PcModify 0 s))
         else (ui8Op, set_m_ui16PcModify 1 s) in
  let ui8Op := fst r in
  let s := snd r in
  let s := set_m_ui16OpCode ui8Op s in
  let s := set_m_pfCurInstruction (m_iInstructionSet (m_ui16OpCode s)) s in
  let s := LSN_NEXT_FUNCTION s in
  LSN_INSTR_END_PHI2 s.

(** [CCpu6502::Jam()] *)
Definition Jam (s : CCpu6502) : CCpu6502 :=
  let s := LSN_INSTR_START_PHI1 true s in
  let s :=
    if m_bAllowWritingToPc s
    then set_m_rRegs
           (set_ui16Pc (u16 (ui16Pc (m_rRegs s) + u16 (- i16 (m_ui16PcModify s)))) (m_rRegs s)) s
    else s in
  let s := set_m_ui16PcModify 0 s in
  let s := LSN_NEXT_FUNCTION s in
  LSN_INSTR_END_PHI1 s.

(** [CCpu6502::Jam_Phi2()] *)
Definition Jam_Phi2 (s : CCpu6502) : CCpu6502 :=
  let r := LSN_INSTR_START_PHI2_READ (ui16Pc (m_rRegs s) + 1) s in
  let s := snd r in
  let s := LSN_NEXT_FUNCTION_BY (-1) s in
  LSN_INSTR_END_PHI2 s.

(** [CCpu6502::SelectBrkVectors()] *)
Definition SelectBrkVectors (s : CCpu6502) : CCpu6502 :=
  let s := LSN_INSTR_START_PHI1 false s in
  let s :=
    if LSN_CPU_VERIFY then
      let s := set_m_vBrkVector LSN_V_IRQ_BRK s in
      set_m_bPushB true s
    else
      let s :=
        if m_bIsReset s then
          let s := set_m_vBrkVector LSN_V_RESET s in
          let s := set_m_bPushB false s in
          set_m_bIsReset false s
        else if m_bDetectedNmi s then
          let s := set_m_vBrkVector LSN_V_NMI s in
          set_m_bPushB false s
        else if m_bHandleIrq s then
          let s := set_m_vBrkVector LSN_V_IRQ_BRK s in
          set_m_bPushB false s
        else
          let s := set_m_vBrkVector LSN_V_IRQ_BRK s in
          set_m_bPushB true s in
      let s :=
        if m_bDetectedNmi s then
          let s := set_m_bDetectedNmi false s in
          let s := set_m_bHandleNmi false s in
          set_m_bNmiStatusLine false s
        else s in
      set_m_bHandleIrq false s in
  let s := LSN_NEXT_FUNCTION s in
  LSN_INSTR_END_PHI1 s.

(** [CCpu6502::SetBrkFlags()] *)
Definition SetBrkFlags (s : CCpu6502) : CCpu6502 :=
  let s := LSN_INSTR_START_PHI1 true s in
  let s := set_m_rRegs (set_ui8Status (SetBit SF.I (ui8Status (m_rRegs s)) true) (m_rRegs s)) s in
  let s := set_m_rRegs (set_ui8Status (SetBit SF.X (ui8Status (m_rRegs s)) false) (m_rRegs s)) s in
  let s := set_m_bAllowWritingToPc true s in
  let s := LSN_NEXT_FUNCTION s in
  LSN_INSTR_END_PHI1 s.

(** The argument [Push_S_Phi2] hands to [LSN_PUSH]. *)
Definition Push_S_value (s : CCpu6502) : Z :=
  if m_bPushB s then Z.lor (ui8Status (m_rRegs s)) SF.X else ui8Status (m_rRegs s).

(** [CCpu6502::Push_S_Phi2<_i8SOff>()] *)
Definition Push_S_Phi2 (_i8SOff : Z) (s : CCpu6502) : CCpu6502 :=
  let s := LSN_PUSH _i8SOff (Push_S_value s) s in
  let s := LSN_NEXT_FUNCTION s in
  LSN_INSTR_END_PHI2 s.

(** [CCpu6502::Php()] *)
Definition Php (s : CCpu6502) : CCpu6502 :=
  let s := LSN_INSTR_START_PHI1 false s in
  let s := set_m_ui8Operand (ui8Status (m_rRegs s)) s in
  let s := set_m_ui8Operand (SetBit (Z.lor SF.X SF.M) (m_ui8Operand s) true) s in
  let s := LSN_NEXT_FUNCTION s in
  LSN_INSTR_END_PHI1 s.

(** [CCpu6502::Plp_BeginInst()] *)
Definition Plp_BeginInst (s : CCpu6502) : CCpu6502 :=
  let s := BeginInst s in
  set_m_rRegs
    (set_ui8Status (u8 (Z.lor (Z.land (m_ui8Operand s) (Z.lnot SF.X)) SF.M)) (m_rRegs s)) s.

(** [CCpu6502::CopyOperandToStatusWithoutB()] *)
Definition CopyOperandToStatusWithoutB (s : CCpu6502) : CCpu6502 :=
  let s := LSN_INSTR_START_PHI1 true s in
  let ui8Mask := Z.lor SF.M SF.X in
  let s := set_m_rRegs
             (set_ui8Status
                (u8 (Z.lor (Z.land (m_ui8Operand s) (Z.lnot ui8Mask))
                       (Z.land (ui8Status (m_rRegs s)) ui8Mask)))
                (m_rRegs s)) s in
  let s := LSN_NEXT_FUNCTION s in
  LSN_INSTR_END_PHI1 s.

(** The two lines that end every load-like step:
    [SetBit<N()>( status, (v & 0x80) != 0 ); SetBit<Z()>( status, !v );] *)
Definition SetNZ (v : Z) (s : CCpu6502) : CCpu6502 :=
  let s := set_m_rRegs
             (set_ui8Status (SetBit SF.N (ui8Status (m_rRegs s)) (nonzero (Z.land v 0x80)))
                (m_rRegs s)) s in
  set_m_rRegs (set_ui8Status (SetBit SF.Z_ (ui8Status (m_rRegs s)) (v =? 0)) (m_rRegs s)) s.

(** [CCpu6502::Ane_IncPc_BeginInst()] *)
Definition Ane_IncPc_BeginInst (s : CCpu6502) : CCpu6502 :=
  let s := BeginInst s in
  let s := LSN_UPDATE_PC s in
  let s := set_m_rRegs
             (set_ui8A (u8 (Z.land (Z.land (Z.lor (ui8A (m_rRegs s)) 0xEE) (ui8X (m_rRegs s)))
                              (m_ui8Operand s)))
                (m_rRegs s)) s in
  SetNZ (ui8A (m_rRegs s)) s.

(** The constant of [Lxa_IncPc_BeginInst], chosen by [#ifdef LSN_CPU_VERIFY]. *)
Definition Lxa_const : Z := if LSN_CPU_VERIFY then 0xEE else 0xFF.

(** [CCpu6502::Lxa_IncPc_BeginInst()] *)
Definition Lxa_IncPc_BeginInst (s : CCpu6502) : CCpu6502 :=
  let s := BeginInst s in
  let s := LSN_UPDATE_PC s in
  let v := u8 (Z.land (Z.lor (ui8A (m_rRegs s)) Lxa_const) (m_ui8Operand s)) in
  let s := set_m_rRegs (set_ui8X v (m_rRegs s)) s in
  let s := set_m_rRegs (set_ui8A (ui8X (m_rRegs s)) (m_rRegs s)) s in
  SetNZ (ui8A (m_rRegs s)) s.

(** The register operand of the four unstable stores. *)
Inductive ShOp : Set := ShA | ShS | ShX | ShY.

Definition sh_reg (o : ShOp) (s : CCpu6502) : Z -> Z :=
  match o with
  | ShA | ShS => fun h => Z.land (Z.land h (ui8A (m_rRegs s))) (ui8X (m_rRegs s))
  | ShX => fun h => Z.land h (ui8X (m_rRegs s))
  | ShY => fun h => Z.land h (ui8Y (m_rRegs s))
  end.

(** The address and the value of the store of [Sha_Phi2], [Shs_Phi2],
    [Shx_Phi2] and [Shy_Phi2]: the four bodies differ only in the registers
    they AND into [ui16Val].  [_bToAddr] selects [m_ui16Address] or
    [m_ui16Pointer]. *)
Definition sh_store (o : ShOp) (_bToAddr : bool) (s : CCpu6502) : Z * Z :=
  let w := if _bToAddr then m_ui16Address s else m_ui16Pointer s in
  if m_bBoundaryCrossed s then
    let ui16Val := u16 (sh_reg o s (hi8 w)) in
    (Z.lor (lo8 w) (Z.shiftl ui16Val 8), ui16Val)
  else
    let ui16Val := u16 (sh_reg o s (hi8 w + 1)) in
    (w, ui16Val).

Definition sh_phi2 (o : ShOp) (_bToAddr : bool) (s : CCpu6502) : CCpu6502 :=
  let st := sh_store o _bToAddr s in
  let s := LSN_INSTR_START_PHI2_WRITE (fst st) (snd st) s in
  let s := LSN_FINISH_INST true s in
  LSN_INSTR_END_PHI2 s.

(** [CCpu6502::Sha_Phi2<_bToAddr>()] *)
Definition Sha_Phi2 (_bToAddr : bool) (s : CCpu6502) : CCpu6502 :=
  sh_phi2 ShA _bToAddr s.

(** [CCpu6502::Shs_Phi2<_bToAddr>()] *)
Definition Shs_Phi2 (_bToAddr : bool) (s : CCpu6502) : CCpu6502 :=
  let s := set_m_rRegs
             (set_ui8S (u8 (Z.land (ui8A (m_rRegs s)) (ui8X (m_rRegs s)))) (m_rRegs s)) s in
  sh_phi2 ShS _bToAddr s.

(** [CCpu6502::Shx_Phi2<_bToAddr>()] *)
Definition Shx_Phi2 (_bToAddr : bool) (s : CCpu6502) : CCpu6502 :=
  sh_phi2 ShX _bToAddr s.

(** [CCpu6502::Shy_Phi2<_bToAddr>()] *)
Definition Shy_Phi2 (_bToAddr : bool) (s : CCpu6502) : CCpu6502 :=
  sh_phi2 ShY _bToAddr s.

(** [(this->*pf)()] for a cycle function [pf]. *)
Definition call_cycle (pf : PfCycle) (s : CCpu6502) : CCpu6502 :=
  match pf with
  | PfFetch_Opcode_IncPc_Phi2 => Fetch_Opcode_IncPc_Phi2 s
  | PfJam => Jam s
  | PfJam_Phi2 => Jam_Phi2 s
  | PfSelectBrkVectors => SelectBrkVectors s
  | PfSetBrkFlags => SetBrkFlags s
  | PfPush_S_Phi2 off => Push_S_Phi2 off s
  | PfPhp => Php s
  | PfPlp_BeginInst => Plp_BeginInst s
  | PfCopyOperandToStatusWithoutB => CopyOperandToStatusWithoutB s
  | PfAne_IncPc_BeginInst => Ane_IncPc_BeginInst s
  | PfLxa_IncPc_BeginInst => Lxa_IncPc_BeginInst s
  | PfSha_Phi2 b => Sha_Phi2 b s
  | PfShs_Phi2 b => Shs_Phi2 b s
  | PfShx_Phi2 b => Shx_Phi2 b s
  | PfShy_Phi2 b => Shy_Phi2 b s
  | Cycle_Other id => call_other id s
  end.

(** Modelled from the spec: the tick function that runs an instruction,
    which the translation unit only takes the address of.  "A micro-step is
    one entry of a per-opcode array"; LSNCpu6502.h: [pfHandler] is "indexed
    by ... ui8FuncIdx, these functions handle each cycle of the
    instruction".  An index past the array is the spec's "malformed opcode
    table"; the model takes no step there. *)
Definition Tick_InstructionCycle (s : CCpu6502) : CCpu6502 :=
  match m_pfCurInstruction s !! Z.to_nat (m_ui8FuncIndex s) with
  | Some pf => call_cycle pf s
  | None => s
  end.

(** The tick functions themselves are defined outside the translation
    unit: [(this->*pf)()] for a tick function [pf]. *)
Class TickFuncs : Type := {
  call_tick : PfTicks -> CCpu6502 -> CCpu6502
}.

Context {ticks : TickFuncs}.

(** ** The two half-cycle entry points *)

(** [CCpu6502::Tick()] *)
Definition Tick (s : CCpu6502) : CCpu6502 :=
  let s := set_m_bIrqStatusPhi1Flag (m_bIrqSeenLowPhi2 s) s in
  let s := set_m_bIrqSeenLowPhi2 false s in
  let s := if LSN_CPU_VERIFY then s else Mapper_Tick s in
  call_tick (m_pfTickFunc s) s.

(** The statements of [TickPhi2] that follow the call. *)
Definition SampleLines (s : CCpu6502) : CCpu6502 :=
  let s := set_m_bDetectedNmi
             (m_bDetectedNmi s || (negb (m_bLastNmiStatusLine s) && m_bNmiStatusLine s)) s in
  let s := set_m_bLastNmiStatusLine (m_bNmiStatusLine s) s in
  let s := set_m_bIrqSeenLowPhi2 (m_bIrqSeenLowPhi2 s || m_bIrqStatusLine s) s in
  set_m_ui64CycleCount (u64 (m_ui64CycleCount s + 1)) s.

(** [CCpu6502::TickPhi2()] *)
Definition TickPhi2 (s : CCpu6502) : CCpu6502 :=
  let s := call_tick (m_pfTickFunc s) s in
  SampleLines s.

(** One master cycle as the host drives it: [Tick] then [TickPhi2]. *)
Definition MasterCycle (s : CCpu6502) : CCpu6502 := TickPhi2 (Tick s).

Fixpoint MasterCycles (n : nat) (s : CCpu6502) : CCpu6502 :=
  match n with
  | O => s
  | S n' => MasterCycles n' (MasterCycle s)
  end.

(** The statements of [Tick] that come before the call. *)
Definition Tick_prologue (s : CCpu6502) : CCpu6502 :=
  let s := set_m_bIrqStatusPhi1Flag (m_bIrqSeenLowPhi2 s) s in
  let s := set_m_bIrqSeenLowPhi2 false s in
  if LSN_CPU_VERIFY then s else Mapper_Tick s.

(** What decides which cycle function runs next and where it reads: the
    tick function, the instruction and the position in it, and PC with its
    pending increment and its write gate. *)
Definition sequencer (s : CCpu6502) : PfTicks * list PfCycle * Z * Z * Z * Z * bool :=
  (m_pfTickFunc s, m_pfCurInstruction s, m_ui16OpCode s, m_ui8FuncIndex s,
   ui16Pc (m_rRegs s), m_ui16PcModify s, m_bAllowWritingToPc s).

(** The machine sits on the JAM pair of the instruction [cur]: the tick
    function [pf] runs the current cycle function, which is [Jam], and
    [Jam_Phi2] follows it. *)
Definition on_jam (pf : PfTicks) (cur : list PfCycle) (op idx : Z) (t : CCpu6502) : Prop :=
  m_pfTickFunc t = pf /\ m_pfCurInstruction t = cur /\ m_ui16OpCode t = op /\
  m_ui8FuncIndex t = idx.

(** The register value the specification names for each unstable store:
    A&X for SHA and SHS, X for SHX, Y for SHY. *)
Definition sh_operand (o : ShOp) (s : CCpu6502) : Z :=
  match o with
  | ShA | ShS => Z.land (ui8A (m_rRegs s)) (ui8X (m_rRegs s))
  | ShX => ui8X (m_rRegs s)
  | ShY => ui8Y (m_rRegs s)
  end.

(** The button snapshot a write to 0x4016 polls: [PollPort( 0 )] as a
    [uint8_t], or 0 when no poller is attached. *)
Definition snapshot4016 (s : CCpu6502) : Z :=
  match m_pipPoller s with
  | Some poller => u8 (PollPort poller 0)
  | None => 0
  end.

(** The three input arrays have their declared size, [uint8_t[8]]. *)
Definition inputs_sized (s : CCpu6502) : Prop :=
  length (m_ui8Inputs s) = 8%nat /\
  length (m_ui8InputsState s) = 8%nat /\
  length (m_ui8InputsPoll s) = 8%nat.

End Cpu.

(** * The arithmetic and logic steps

    The cycle functions of LSNCpu6502.cpp that compute on the registers,
    the operand byte and the status byte, with the three helpers [Cmp],
    [Adc] and [Sbc] of LSNCpu6502.h they call. *)

Section Alu.
Context {ext : Collaborators} {hooks : Hooks}.

(** [static_cast<int8_t>( v )] *)
Definition i8 (z : Z) : Z :=
  let b := u8 z in if b <? 128 then b else b - 256.

(** [m_rRegs.ui8A = v;] and the same for the other registers. *)
Definition put_A (v : Z) (s : CCpu6502) : CCpu6502 :=
  set_m_rRegs (set_ui8A v (m_rRegs s)) s.

Definition put_X (v : Z) (s : CCpu6502) : CCpu6502 :=
  set_m_rRegs (set_ui8X v (m_rRegs s)) s.

Definition put_Status (v : Z) (s : CCpu6502) : CCpu6502 :=
  set_m_rRegs (set_ui8Status v (m_rRegs s)) s.

Definition put_Pc (v : Z) (s : CCpu6502) : CCpu6502 :=
  set_m_rRegs (set_ui16Pc v (m_rRegs s)) s.

(** [SetBit<mask>( m_rRegs.ui8Status, b );] *)
Definition SetStatusBit (mask : Z) (b : bool) (s : CCpu6502) : CCpu6502 :=
  put_Status (SetBit mask (ui8Status (m_rRegs s)) b) s.

(** [if constexpr ( _bIncPc ) { LSN_UPDATE_PC; }] *)
Definition UpdatePcIf (_bIncPc : bool) (s : CCpu6502) : CCpu6502 :=
  if _bIncPc then LSN_UPDATE_PC s else s.

(** ** The helpers of LSNCpu6502.h

    The header spells the status byte [m_ui8Status]; it is the status
    register, [m_rRegs.ui8Status] in the cycle functions. *)

(** [CCpu6502::Cmp( _ui8RegVal, _ui8OpVal )] *)
Definition Cmp (_ui8RegVal _ui8OpVal : Z) (s : CCpu6502) : CCpu6502 :=
  let s := SetStatusBit SF.C (_ui8OpVal <=? _ui8RegVal) s in
  let s := SetStatusBit SF.Z_ (_ui8RegVal =? _ui8OpVal) s in
  SetStatusBit SF.N (nonzero (Z.land (_ui8RegVal - _ui8OpVal) 0x80)) s.

(** [CCpu6502::Adc( _ui8RegVal, _ui8OpVal )], the branch the preprocessor
    keeps ([#if defined( LSN_USE_INTRINS ) && 0] is false).  The register
    is passed by reference: the function is given its value and hands back
    the value it leaves there. *)
Definition Adc (_ui8RegVal _ui8OpVal : Z) (s : CCpu6502) : Z * CCpu6502 :=
  let ui16Result := u16 (_ui8RegVal + _ui8OpVal + Z.land (ui8Status (m_rRegs s)) SF.C) in
  let s := SetStatusBit SF.V
             (nonzero (Z.land (Z.land (Z.lnot (Z.lxor _ui8RegVal _ui8OpVal))
                                  (Z.lxor _ui8RegVal ui16Result)) 0x0080)) s in
  let _ui8RegVal := u8 ui16Result in
  let s := SetStatusBit SF.C (0xFF <? ui16Result) s in
  let s := SetStatusBit SF.Z_ (_ui8RegVal =? 0x00) s in
  let s := SetStatusBit SF.N (nonzero (Z.land _ui8RegVal 0x80)) s in
  (_ui8RegVal, s).

(** [CCpu6502::Sbc( _ui8RegVal, _ui8OpVal )] *)
Definition Sbc (_ui8RegVal _ui8OpVal : Z) (s : CCpu6502) : Z * CCpu6502 :=
  let ui16Val := u16 (Z.lxor _ui8OpVal 0x00FF) in
  let ui16Result := u16 (_ui8RegVal + ui16Val + Z.land (ui8Status (m_rRegs s)) SF.C) in
  let s := SetStatusBit SF.V
             (nonzero (Z.land (Z.land (Z.lxor _ui8RegVal ui16Result)
                                  (Z.lxor ui16Val ui16Result)) 0x0080)) s in
  let _ui8RegVal := u8 ui16Result in
  let s := SetStatusBit SF.C (0xFF <? ui16Result) s in
  let s := SetStatusBit SF.Z_ (_ui8RegVal =? 0x00) s in
  let s := SetStatusBit SF.N (nonzero (Z.land _ui8RegVal 0x80)) s in
  (_ui8RegVal, s).

(** ** Steps that end an instruction on the accumulator *)

(** [CCpu6502::Adc_BeginInst<_bIncPc>()] *)
Definition Adc_BeginInst (_bIncPc : bool) (s : CCpu6502) : CCpu6502 :=
  let s := BeginInst s in
  let s := UpdatePcIf _bIncPc s in
  let r := Adc (ui8A (m_rRegs s)) (m_ui8Operand s) s in
  put_A (fst r) (snd r).

(** [CCpu6502::Sbc_BeginInst<_bIncPc>()] *)
Definition Sbc_BeginInst (_bIncPc : bool) (s : CCpu6502) : CCpu6502 :=
  let s := BeginInst s in
  let s := UpdatePcIf _bIncPc s in
  let r := Sbc (ui8A (m_rRegs s)) (m_ui8Operand s) s in
  put_A (fst r) (snd r).

(** [CCpu6502::Cmp_BeginInst<_bIncPc>()] *)
Definition Cmp_BeginInst (_bIncPc : bool) (s : CCpu6502) : CCpu6502 :=
  let s := BeginInst s in
  let s := UpdatePcIf _bIncPc s in
  Cmp (ui8A (m_rRegs s)) (m_ui8Operand s) s.

(** [CCpu6502::And_BeginInst<_bIncPc>()] *)
Definition And_BeginInst (_bIncPc : bool) (s : CCpu6502) : CCpu6502 :=
  let s := BeginInst s in
  let s := UpdatePcIf _bIncPc s in
  let s := put_A (u8 (Z.land (ui8A (m_rRegs s)) (m_ui8Operand s))) s in
  SetNZ (ui8A (m_rRegs s)) s.

(** [CCpu6502::Ora_BeginInst<_bIncPc>()] *)
Definition Ora_BeginInst (_bIncPc : bool) (s : CCpu6502) : CCpu6502 :=
  let s := BeginInst s in
  let s := UpdatePcIf _bIncPc s in
  let s := put_A (u8 (Z.lor (ui8A (m_rRegs s)) (m_ui8Operand s))) s in
  SetNZ (ui8A (m_rRegs s)) s.

(** [CCpu6502::Eor_BeginInst<_bIncPc>()] *)
Definition Eor_BeginInst (_bIncPc : bool) (s : CCpu6502) : CCpu6502 :=
  let s := BeginInst s in
  let s := UpdatePcIf _bIncPc s in
  let s := put_A (u8 (Z.lxor (ui8A (m_rRegs s)) (m_ui8Operand s))) s in
  SetNZ (ui8A (m_rRegs s)) s.

(** [CCpu6502::Arr_BeginInst<_bIncPc>()] *)
Definition Arr_BeginInst (_bIncPc : bool) (s : CCpu6502) : CCpu6502 :=
  let s := BeginInst s in
  let s := UpdatePcIf _bIncPc s in
  let s := put_A (u8 (Z.land (ui8A (m_rRegs s)) (m_ui8Operand s))) s in
  let ui8HiBit := u8 (Z.shiftl (Z.land (ui8Status (m_rRegs s)) SF.C) 7) in
  let s := SetStatusBit SF.C (nonzero (Z.land (ui8A (m_rRegs s)) 0x80)) s in
  let s := put_A (u8 (Z.lor (Z.shiftr (ui8A (m_rRegs s)) 1) ui8HiBit)) s in
  let s := SetStatusBit SF.Z_ (ui8A (m_rRegs s) =? 0x00) s in
  let s := SetStatusBit SF.N (nonzero (Z.land (ui8A (m_rRegs s)) 0x80)) s in
  SetStatusBit SF.V
    (nonzero (Z.lxor (Z.land (ui8Status (m_rRegs s)) SF.C)
                (Z.land (Z.shiftr (ui8A (m_rRegs s)) 5) 0x1))) s.

(** [CCpu6502::Sbx_IncPc_BeginInst()] *)
Definition Sbx_IncPc_BeginInst (s : CCpu6502) : CCpu6502 :=
  let s := BeginInst s in
  let s := LSN_UPDATE_PC s in
  let ui8AnX := u8 (Z.land (ui8A (m_rRegs s)) (ui8X (m_rRegs s))) in
  let s := SetStatusBit SF.C (m_ui8Operand s <=? ui8AnX) s in
  let s := put_X (u8 (ui8AnX - m_ui8Operand s)) s in
  SetNZ (ui8X (m_rRegs s)) s.

(** ** Steps that rewrite the operand byte *)

(** [CCpu6502::Asl()] *)
Definition Asl (s : CCpu6502) : CCpu6502 :=
  let s := LSN_INSTR_START_PHI1 false s in
  let s := SetStatusBit SF.C (nonzero (Z.land (m_ui8Operand s) 0x80)) s in
  let s := set_m_ui8Operand (u8 (Z.shiftl (m_ui8Operand s) 1)) s in
  let s := SetNZ (m_ui8Operand s) s in
  let s := LSN_NEXT_FUNCTION s in
  LSN_INSTR_END_PHI1 s.

(** [CCpu6502::Lsr()] *)
Definition Lsr (s : CCpu6502) : CCpu6502 :=
  let s := LSN_INSTR_START_PHI1 false s in
  let s := SetStatusBit SF.C (nonzero (Z.land (m_ui8Operand s) 0x01)) s in
  let s := set_m_ui8Operand (u8 (Z.shiftr (m_ui8Operand s) 1)) s in
  let s := SetStatusBit SF.N false s in
  let s := SetStatusBit SF.Z_ (m_ui8Operand s =? 0) s in
  let s := LSN_NEXT_FUNCTION s in
  LSN_INSTR_END_PHI1 s.

(** [CCpu6502::Rol()] *)
Definition Rol (s : CCpu6502) : CCpu6502 :=
  let s := LSN_INSTR_START_PHI1 false s in
  let ui8LowBit := u8 (Z.land (ui8Status (m_rRegs s)) SF.C) in
  let s := SetStatusBit SF.C (nonzero (Z.land (m_ui8Operand s) 0x80)) s in
  let s := set_m_ui8Operand (u8 (Z.lor (Z.shiftl (m_ui8Operand s) 1) ui8LowBit)) s in
  let s := SetNZ (m_ui8Operand s) s in
  let s := LSN_NEXT_FUNCTION s in
  LSN_INSTR_END_PHI1 s.

(** [CCpu6502::Ror()] *)
Definition Ror (s : CCpu6502) : CCpu6502 :=
  let s := LSN_INSTR_START_PHI1 false s in
  let ui8HiBit := u8 (Z.shiftl (Z.land (ui8Status (m_rRegs s)) SF.C) 7) in
  let s := SetStatusBit SF.C (nonzero (Z.land (m_ui8Operand s) 0x01)) s in
  let s := set_m_ui8Operand (u8 (Z.lor (Z.shiftr (m_ui8Operand s) 1) ui8HiBit)) s in
  let s := SetNZ (m_ui8Operand s) s in
  let s := LSN_NEXT_FUNCTION s in
  LSN_INSTR_END_PHI1 s.

(** [CCpu6502::Inc()] *)
Definition Inc (s : CCpu6502) : CCpu6502 :=
  let s := LSN_INSTR_START_PHI1 false s in
  let s := set_m_ui8Operand (u8 (m_ui8Operand s + 1)) s in
  let s := SetNZ (m_ui8Operand s) s in
  let s := LSN_NEXT_FUNCTION s in
  LSN_INSTR_END_PHI1 s.

(** [CCpu6502::Dec()] *)
Definition Dec (s : CCpu6502) : CCpu6502 :=
  let s := LSN_INSTR_START_PHI1 false s in
  let s := set_m_ui8Operand (u8 (m_ui8Operand s - 1)) s in
  let s := SetNZ (m_ui8Operand s) s in
  let s := LSN_NEXT_FUNCTION s in
  LSN_INSTR_END_PHI1 s.

(** ** The combined steps of the undocumented opcodes *)

(** [CCpu6502::Dcp()] *)
Definition Dcp (s : CCpu6502) : CCpu6502 :=
  let s := LSN_INSTR_START_PHI1 false s in
  let s := set_m_ui8Operand (u8 (m_ui8Operand s - 1)) s in
  let s := Cmp (ui8A (m_rRegs s)) (m_ui8Operand s) s in
  let s := LSN_NEXT_FUNCTION s in
  LSN_INSTR_END_PHI1 s.

(** [CCpu6502::Isb()] *)
Definition Isb (s : CCpu6502) : CCpu6502 :=
  let s := LSN_INSTR_START_PHI1 false s in
  let s := set_m_ui8Operand (u8 (m_ui8Operand s + 1)) s in
  let r := Sbc (ui8A (m_rRegs s)) (m_ui8Operand s) s in
  let s := put_A (fst r) (snd r) in
  let s := LSN_NEXT_FUNCTION s in
  LSN_INSTR_END_PHI1 s.

(** [CCpu6502::Rla()] *)
Definition Rla (s : CCpu6502) : CCpu6502 :=
  let s := LSN_INSTR_START_PHI1 false s in
  let ui8LowBit := u8 (Z.land (ui8Status (m_rRegs s)) SF.C) in
  let s := SetStatusBit SF.C (nonzero (Z.land (m_ui8Operand s) 0x80)) s in
  let s := set_m_ui8Operand (u8 (Z.lor (Z.shiftl (m_ui8Operand s) 1) ui8LowBit)) s in
  let s := put_A (u8 (Z.land (ui8A (m_rRegs s)) (m_ui8Operand s))) s in
  let s := SetNZ (ui8A (m_rRegs s)) s in
  let s := LSN_NEXT_FUNCTION s in
  LSN_INSTR_END_PHI1 s.

(** [CCpu6502::Rra()] *)
Definition Rra (s : CCpu6502) : CCpu6502 :=
  let s := LSN_INSTR_START_PHI1 false s in
  let ui8HiBit := u8 (Z.shiftl (Z.land (ui8Status (m_rRegs s)) SF.C) 7) in
  let s := SetStatusBit SF.C (nonzero (Z.land (m_ui8Operand s) 0x01)) s in
  let s := set_m_ui8Operand (u8 (Z.lor (Z.shiftr (m_ui8Operand s) 1) ui8HiBit)) s in
  let r := Adc (ui8A (m_rRegs s)) (m_ui8Operand s) s in
  let s := put_A (fst r) (snd r) in
  let s := LSN_NEXT_FUNCTION s in
  LSN_INSTR_END_PHI1 s.

(** [CCpu6502::Slo()] *)
Definition Slo (s : CCpu6502) : CCpu6502 :=
  let s := LSN_INSTR_START_PHI1 false s in
  let s := SetStatusBit SF.C (nonzero (Z.land (m_ui8Operand s) 0x80)) s in
  let s := set_m_ui8Operand (u8 (Z.shiftl (m_ui8Operand s) 1)) s in
  let s := put_A (u8 (Z.lor (ui8A (m_rRegs s)) (m_ui8Operand s))) s in
  let s := SetNZ (ui8A (m_rRegs s)) s in
  let s := LSN_NEXT_FUNCTION s in
  LSN_INSTR_END_PHI1 s.

(** [CCpu6502::Sre()] *)
Definition Sre (s : CCpu6502) : CCpu6502 :=
  let s := LSN_INSTR_START_PHI1 false s in
  let s := SetStatusBit SF.C (nonzero (Z.land (m_ui8Operand s) 0x01)) s in
  let s := set_m_ui8Operand (u8 (Z.shiftr (m_ui8Operand s) 1)) s in
  let s := put_A (u8 (Z.lxor (ui8A (m_rRegs s)) (m_ui8Operand s))) s in
  let s := SetNZ (ui8A (m_rRegs s)) s in
  let s := LSN_NEXT_FUNCTION s in
  LSN_INSTR_END_PHI1 s.

(** What the arithmetic steps compute on: the registers and the operand
    byte. *)
Definition alu_view (s : CCpu6502) : LSN_REGISTERS * Z := (m_rRegs s, m_ui8Operand s).

End Alu.

(** * The effective-address and branch steps *)

Section Addressing.
Context {ext : Collaborators} {hooks : Hooks}.

(** Assignment to three more members, as for the members above. *)
Ltac assign_cpu_member proj :=
  let v := fresh "v" in
  let s := fresh "s" in
  intros v s;
  let e := eval cbv beta delta [cpu_eta] in (cpu_eta s) in
  lazymatch eval pattern (proj s) in e with
  | ?f _ => let t := eval cbv beta in (f v) in exact t
  end.

Definition set_m_ui16Address : Z -> CCpu6502 -> CCpu6502 :=
  ltac:(assign_cpu_member (@m_ui16Address ext)).
Definition set_m_ui16Pointer : Z -> CCpu6502 -> CCpu6502 :=
  ltac:(assign_cpu_member (@m_ui16Pointer ext)).
Definition set_m_bBoundaryCrossed : bool -> CCpu6502 -> CCpu6502 :=
  ltac:(assign_cpu_member (@m_bBoundaryCrossed ext)).

(** [m_ui8Xxx[0] = v;] and [m_ui8Xxx[1] = v;] on the [uint16_t] that the
    union overlays: the word afterwards. *)
Definition put_lo8 (w v : Z) : Z := Z.lor (Z.land w 0xFF00) (Z.land v 0xFF).
Definition put_hi8 (w v : Z) : Z := Z.lor (Z.land w 0x00FF) (Z.shiftl (Z.land v 0xFF) 8).

(** [m_ui16Address] or [m_ui16Pointer], as a template argument selects. *)
Definition AddrOrPtr (_bAddr : bool) (s : CCpu6502) : Z :=
  if _bAddr then m_ui16Address s else m_ui16Pointer s.

Definition set_AddrOrPtr (_bAddr : bool) (v : Z) (s : CCpu6502) : CCpu6502 :=
  if _bAddr then set_m_ui16Address v s else set_m_ui16Pointer v s.

(** ** Steps on the object alone *)

(** The address [Read_PtrOrAddr_To_AddrOrPtr_H_SamePage_Phi2] reads:
    [(m_ui8Xxx[1] << 8) | uint8_t( m_ui8Xxx[0] + 1 )]. *)
Definition SamePage_address (w : Z) : Z :=
  Z.lor (Z.shiftl (hi8 w) 8) (u8 (lo8 w + 1)).

(** [CCpu6502::Read_PtrOrAddr_To_AddrOrPtr_L_Phi2<_bFromAddr>()] *)
Definition Read_PtrOrAddr_To_AddrOrPtr_L_Phi2 (_bFromAddr : bool) (s : CCpu6502) : CCpu6502 :=
  let r := LSN_INSTR_START_PHI2_READ (AddrOrPtr _bFromAddr s) s in
  let s := set_AddrOrPtr (negb _bFromAddr) (fst r) (snd r) in
  let s := LSN_NEXT_FUNCTION s in
  LSN_INSTR_END_PHI2 s.

(** [CCpu6502::Read_PtrOrAddr_To_AddrOrPtr_H_SamePage_Phi2<_bFromAddr, _bEndInstr>()] *)
Definition Read_PtrOrAddr_To_AddrOrPtr_H_SamePage_Phi2 (_bFromAddr _bEndInstr : bool)
    (s : CCpu6502) : CCpu6502 :=
  let r := LSN_INSTR_START_PHI2_READ (SamePage_address (AddrOrPtr _bFromAddr s)) s in
  let s := snd r in
  let s := set_AddrOrPtr (negb _bFromAddr)
             (put_hi8 (AddrOrPtr (negb _bFromAddr) s) (fst r)) s in
  let s := if _bEndInstr then LSN_FINISH_INST true s else LSN_NEXT_FUNCTION s in
  LSN_INSTR_END_PHI2 s.

(** [CCpu6502::Jmp_BeginInst()] *)
Definition Jmp_BeginInst (s : CCpu6502) : CCpu6502 :=
  let s := BeginInst s in
  let s := put_Pc (m_ui16Address s) s in
  set_m_ui16PcModify 0 s.

(** [CCpu6502::CopyVectorToPc_L_Phi2()] *)
Definition CopyVectorToPc_L_Phi2 (s : CCpu6502) : CCpu6502 :=
  let r := LSN_INSTR_START_PHI2_READ (vector_address (m_vBrkVector s)) s in
  let s := snd r in
  let s := set_m_ui16Address (put_lo8 (m_ui16Address s) (fst r)) s in
  let s := LSN_NEXT_FUNCTION s in
  LSN_INSTR_END_PHI2 s.

(** [CCpu6502::CopyVectorToPc_H_Phi2<_bEndInstr>()] *)
Definition CopyVectorToPc_H_Phi2 (_bEndInstr : bool) (s : CCpu6502) : CCpu6502 :=
  let r := LSN_INSTR_START_PHI2_READ (vector_address (m_vBrkVector s) + 1) s in
  let s := snd r in
  let s := set_m_ui16Address (put_hi8 (m_ui16Address s) (fst r)) s in
  let s := if _bEndInstr then LSN_FINISH_INST true s else LSN_NEXT_FUNCTION s in
  LSN_INSTR_END_PHI2 s.

(** [CCpu6502::Brk_BeginInst()] *)
Definition Brk_BeginInst (s : CCpu6502) : CCpu6502 :=
  let s := BeginInst s in
  put_Pc (m_ui16Address s) s.

(** ** Steps that use [m_ui16Target] and [m_bTakeJump]

    None of the steps above reads or writes these two members of
    [CCpu6502]; they are kept beside the rest of the object, [m_cpu], on
    which the steps above and the collaborators act. *)
Record CCpu6502Ex : Type := MkEx {
  m_cpu : CCpu6502;
  m_ui16Target : Z;
  m_bTakeJump : bool
}.

(** A statement on the rest of the object. *)
Definition on_cpu (f : CCpu6502 -> CCpu6502) (e : CCpu6502Ex) : CCpu6502Ex :=
  MkEx (f (m_cpu e)) (m_ui16Target e) (m_bTakeJump e).

Definition set_m_ui16Target (v : Z) (e : CCpu6502Ex) : CCpu6502Ex :=
  MkEx (m_cpu e) v (m_bTakeJump e).

Definition set_m_bTakeJump (v : bool) (e : CCpu6502Ex) : CCpu6502Ex :=
  MkEx (m_cpu e) (m_ui16Target e) v.

(** The body that [Add_XAndPtrOrAddr_To_AddrOrPtr],
    [Add_YAndPtrOrAddr_To_AddrOrPtr] and
    [IndirectYAdd_PtrOrAddr_To_AddrOrPtr] share: the index register is
    added to the source word in [m_ui16Target], the destination word takes
    the low byte of the sum and the high byte of the source, and
    [m_bBoundaryCrossed] compares the high byte of the sum with the high
    byte of the source word in the first two and, [_bCmpDest], with the
    high byte of the destination word in the third. *)
Definition IndexInto (_bToAddr _bCmpDest : bool) (index : Z) (e : CCpu6502Ex) : CCpu6502Ex :=
  let e := set_m_ui16Target (u16 (AddrOrPtr (negb _bToAddr) (m_cpu e) + index)) e in
  let e := on_cpu (fun s => set_AddrOrPtr _bToAddr
                              (put_lo8 (AddrOrPtr _bToAddr s) (lo8 (m_ui16Target e))) s) e in
  let e := on_cpu (fun s => set_AddrOrPtr _bToAddr
                              (put_hi8 (AddrOrPtr _bToAddr s)
                                 (hi8 (AddrOrPtr (negb _bToAddr) s))) s) e in
  on_cpu (fun s => set_m_bBoundaryCrossed
                     (negb (hi8 (AddrOrPtr (if _bCmpDest then _bToAddr else negb _bToAddr) s)
                            =? hi8 (m_ui16Target e))) s) e.

(** [CCpu6502::Add_XAndPtrOrAddr_To_AddrOrPtr<_bToAddr, _bRead, _bIncPc>()] *)
Definition Add_XAndPtrOrAddr_To_AddrOrPtr (_bToAddr _bRead _bIncPc : bool)
    (e : CCpu6502Ex) : CCpu6502Ex :=
  let e := on_cpu (LSN_INSTR_START_PHI1 _bRead) e in
  let e := on_cpu (UpdatePcIf _bIncPc) e in
  let e := IndexInto _bToAddr false (ui8X (m_rRegs (m_cpu e))) e in
  let e := on_cpu LSN_NEXT_FUNCTION e in
  on_cpu LSN_INSTR_END_PHI1 e.

(** [CCpu6502::Add_YAndPtrOrAddr_To_AddrOrPtr<_bToAddr, _bRead, _bIncPc>()] *)
Definition Add_YAndPtrOrAddr_To_AddrOrPtr (_bToAddr _bRead _bIncPc : bool)
    (e : CCpu6502Ex) : CCpu6502Ex :=
  let e := on_cpu (LSN_INSTR_START_PHI1 _bRead) e in
  let e := on_cpu (UpdatePcIf _bIncPc) e in
  let e := IndexInto _bToAddr false (ui8Y (m_rRegs (m_cpu e))) e in
  let e := on_cpu LSN_NEXT_FUNCTION e in
  on_cpu LSN_INSTR_END_PHI1 e.

(** [CCpu6502::IndirectYAdd_PtrOrAddr_To_AddrOrPtr<_bFromAddr>()] *)
Definition IndirectYAdd_PtrOrAddr_To_AddrOrPtr (_bFromAddr : bool)
    (e : CCpu6502Ex) : CCpu6502Ex :=
  let e := on_cpu (LSN_INSTR_START_PHI1 true) e in
  let e := IndexInto (negb _bFromAddr) true (ui8Y (m_rRegs (m_cpu e))) e in
  let e := on_cpu LSN_NEXT_FUNCTION e in
  on_cpu LSN_INSTR_END_PHI1 e.

(** [CCpu6502::Fix_PtrOrAddr_To_AddrOrPtr_H<_bFromAddr>()] *)
Definition Fix_PtrOrAddr_To_AddrOrPtr_H (_bFromAddr : bool) (e : CCpu6502Ex) : CCpu6502Ex :=
  let e := on_cpu (LSN_INSTR_START_PHI1 true) e in
  let e := on_cpu (fun s => set_AddrOrPtr (negb _bFromAddr)
                              (put_hi8 (AddrOrPtr (negb _bFromAddr) s)
                                 (hi8 (m_ui16Target e))) s) e in
  let e := on_cpu LSN_NEXT_FUNCTION e in
  on_cpu LSN_INSTR_END_PHI1 e.

(** The two scratch words and the selected vector, which the reads
    through a pointer and through a vector work on. *)
Definition word_view (s : CCpu6502) : Z * Z * LSN_VECTORS :=
  (m_ui16Address s, m_ui16Pointer s, m_vBrkVector s).

(** A collaborator that leaves those alone. *)
Definition keeps_word_view (f : CCpu6502 -> CCpu6502) : Prop :=
  forall t, word_view (f t) = word_view t.

Section Branches.
(** The macro LSN_CHECK_INTERRUPTS, used but not defined in the
    translation unit. *)
Variable LSN_CHECK_INTERRUPTS : CCpu6502 -> CCpu6502.

(** [CCpu6502::Branch_Cycle1<_uBit, _uVal>()] *)
Definition Branch_Cycle1 (_uBit _uVal : Z) (e : CCpu6502Ex) : CCpu6502Ex :=
  let e := on_cpu (LSN_INSTR_START_PHI1 true) e in
  let e := set_m_bTakeJump
             (Z.land (ui8Status (m_rRegs (m_cpu e))) _uBit =? _uVal * _uBit) e in
  let e := on_cpu LSN_UPDATE_PC e in
  let e := on_cpu LSN_NEXT_FUNCTION e in
  on_cpu LSN_INSTR_END_PHI1 e.

(** [CCpu6502::Branch_Cycle1_Phi2()] *)
Definition Branch_Cycle1_Phi2 (e : CCpu6502Ex) : CCpu6502Ex :=
  let r := LSN_INSTR_START_PHI2_READ (ui16Pc (m_rRegs (m_cpu e))) (m_cpu e) in
  let ui8Op := fst r in
  let e := on_cpu (fun _ => snd r) e in
  let e := on_cpu (set_m_ui8Operand ui8Op) e in
  let e := on_cpu (set_m_ui16PcModify 1) e in
  let e :=
    if negb (m_bTakeJump e) then on_cpu (LSN_FINISH_INST true) e
    else
      let e := on_cpu (fun s => put_Pc (u16 (ui16Pc (m_rRegs s) + m_ui16PcModify s)) s) e in
      let e := on_cpu (set_m_ui16PcModify 0) e in
      let e := on_cpu (fun s => set_m_ui16Address
                                  (u16 (i16 (i8 (m_ui8Operand s)) + ui16Pc (m_rRegs s))) s) e in
      let e := on_cpu (fun s => set_m_bBoundaryCrossed
                                  (negb (hi8 (m_ui16Address s) =? hi8 (ui16Pc (m_rRegs s)))) s)
                 e in
      let e := if negb (m_bBoundaryCrossed (m_cpu e)) then on_cpu LSN_CHECK_INTERRUPTS e
               else e in
      on_cpu LSN_NEXT_FUNCTION e in
  on_cpu LSN_INSTR_END_PHI2 e.

(** [CCpu6502::Branch_Cycle2()] *)
Definition Branch_Cycle2 (e : CCpu6502Ex) : CCpu6502Ex :=
  let e := on_cpu LSN_UPDATE_PC e in
  if negb (m_bTakeJump e) then on_cpu BeginInst e
  else
    let e := on_cpu (LSN_INSTR_START_PHI1 true) e in
    let e := on_cpu LSN_NEXT_FUNCTION e in
    on_cpu LSN_INSTR_END_PHI1 e.

(** [CCpu6502::Branch_Cycle2_Phi2()] *)
Definition Branch_Cycle2_Phi2 (e : CCpu6502Ex) : CCpu6502Ex :=
  let r := LSN_INSTR_START_PHI2_READ (ui16Pc (m_rRegs (m_cpu e))) (m_cpu e) in
  let e := on_cpu (fun _ => snd r) e in
  let e := if negb (m_bBoundaryCrossed (m_cpu e)) then on_cpu (LSN_FINISH_INST false) e
           else on_cpu LSN_NEXT_FUNCTION e in
  on_cpu LSN_INSTR_END_PHI2 e.

(** [CCpu6502::Branch_Cycle3()] *)
Definition Branch_Cycle3 (e : CCpu6502Ex) : CCpu6502Ex :=
  let e := on_cpu (fun s => put_Pc (put_lo8 (ui16Pc (m_rRegs s)) (lo8 (m_ui16Address s))) s) e in
  if negb (m_bBoundaryCrossed (m_cpu e)) then on_cpu BeginInst e
  else
    let e := on_cpu (LSN_INSTR_START_PHI1 true) e in
    let e := on_cpu LSN_NEXT_FUNCTION e in
    on_cpu LSN_INSTR_END_PHI1 e.

(** [CCpu6502::Branch_Cycle3_Phi2()] *)
Definition Branch_Cycle3_Phi2 (e : CCpu6502Ex) : CCpu6502Ex :=
  let r := LSN_INSTR_START_PHI2_READ (ui16Pc (m_rRegs (m_cpu e))) (m_cpu e) in
  let e := on_cpu (fun _ => snd r) e in
  let e := on_cpu (LSN_FINISH_INST true) e in
  on_cpu LSN_INSTR_END_PHI2 e.

(** [CCpu6502::Branch_Cycle4()] *)
Definition Branch_Cycle4 (e : CCpu6502Ex) : CCpu6502Ex :=
  let e := on_cpu BeginInst e in
  on_cpu (fun s => put_Pc (put_hi8 (ui16Pc (m_rRegs s)) (hi8 (m_ui16Address s))) s) e.

(** The cycle functions of a branch in the order the instruction runs
    them: the second and third pair only when the branch is taken, the
    third pair and the last step only when it crosses a page. *)
Definition Branch_run (e : CCpu6502Ex) : CCpu6502Ex :=
  let e := Branch_Cycle1_Phi2 e in
  let taken := m_bTakeJump e in
  let e := Branch_Cycle2 e in
  if negb taken then e
  else
    let e := Branch_Cycle2_Phi2 e in
    let crossed := m_bBoundaryCrossed (m_cpu e) in
    let e := Branch_Cycle3 e in
    if negb crossed then e
    else Branch_Cycle4 (Branch_Cycle3_Phi2 e).

(** What a branch computes on: the registers, the scratch address, the
    page-crossing flag, and the pending PC increment with its gate. *)
Definition branch_view (s : CCpu6502) : LSN_REGISTERS * Z * bool * Z * bool :=
  (m_rRegs s, m_ui16Address s, m_bBoundaryCrossed s, m_ui16PcModify s,
   m_bAllowWritingToPc s).

(** A collaborator that leaves all of that alone. *)
Definition keeps_branch_view (f : CCpu6502 -> CCpu6502) : Prop :=
  forall t, branch_view (f t) = branch_view t.

End Branches.

End Addressing.

(** * Decidable byte checks

    The boolean checks that the proofs about the arithmetic steps run on
    all bytes: each compares the expressions of a step, as the code
    computes them on a byte, with the arithmetic reading of the result. *)

Definition adc_check (c a m : Z) : bool :=
  let res := u16 (a + m + c) in
  let r := u8 res in
  let v := nonzero (Z.land (Z.land (Z.lnot (Z.lxor a m)) (Z.lxor a res)) 0x0080) in
  let t := i8 a + i8 m + c in
  (a + m + c =? 256 * Z.b2z (0xFF <? res) + r) &&
  eqb v (negb ((-128 <=? t) && (t <=? 127))) &&
  eqb (nonzero (Z.land r 0x80)) (128 <=? r) &&
  (v || (i8 r =? t)).

Definition sbc_check (c a m : Z) : bool :=
  let val := u16 (Z.lxor m 0x00FF) in
  let res := u16 (a + val + c) in
  let r := u8 res in
  let v := nonzero (Z.land (Z.land (Z.lxor a res) (Z.lxor val res)) 0x0080) in
  let t := i8 a - i8 m - (1 - c) in
  (a - m - (1 - c) =? r - 256 * (1 - Z.b2z (0xFF <? res))) &&
  eqb v (negb ((-128 <=? t) && (t <=? 127))) &&
  eqb (nonzero (Z.land r 0x80)) (128 <=? r) &&
  (v || (i8 r =? t)) &&
  eqb v (nonzero (Z.land (Z.land (Z.lnot (Z.lxor a val)) (Z.lxor a res)) 0x0080)) &&
  (val =? 255 - m).

Definition cmp_check (a m : Z) : bool :=
  let res := u16 (a + u16 (Z.lxor m 0x00FF) + 1) in
  let r := u8 res in
  eqb (m <=? a) (0xFF <? res) &&
  eqb (a =? m) (r =? 0x00) &&
  eqb (nonzero (Z.land (a - m) 0x80)) (nonzero (Z.land r 0x80)) &&
  eqb (nonzero (Z.land (a - m) 0x80)) (128 <=? u8 (a - m)).

Definition shift_check (c m : Z) : bool :=
  let asl := u8 (Z.shiftl m 1) in
  let lsr := u8 (Z.shiftr m 1) in
  let rol := u8 (Z.lor (Z.shiftl m 1) (u8 c)) in
  let ror := u8 (Z.lor (Z.shiftr m 1) (u8 (Z.shiftl c 7))) in
  (2 * m =? 256 * Z.b2z (nonzero (Z.land m 0x80)) + asl) &&
  (m =? 2 * lsr + Z.b2z (nonzero (Z.land m 0x01))) &&
  (2 * m + c =? 256 * Z.b2z (nonzero (Z.land m 0x80)) + rol) &&
  (m + 256 * c =? 2 * ror + Z.b2z (nonzero (Z.land m 0x01))) &&
  eqb (nonzero (Z.land asl 0x80)) (128 <=? asl) &&
  eqb (nonzero (Z.land rol 0x80)) (128 <=? rol) &&
  eqb (nonzero (Z.land ror 0x80)) (128 <=? ror).

Definition rotate_check (c : bool) (m : Z) : bool :=
  let c1 := nonzero (Z.land m 0x80) in
  let o1 := u8 (Z.lor (Z.shiftl m 1) (u8 (Z.b2z c))) in
  let o2 := u8 (Z.lor (Z.shiftr o1 1) (u8 (Z.shiftl (Z.b2z c1) 7))) in
  let d1 := nonzero (Z.land m 0x01) in
  let p1 := u8 (Z.lor (Z.shiftr m 1) (u8 (Z.shiftl (Z.b2z c) 7))) in
  let p2 := u8 (Z.lor (Z.shiftl p1 1) (u8 (Z.b2z d1))) in
  (o2 =? m) && eqb (nonzero (Z.land o1 0x01)) c &&
  (p2 =? m) && eqb (nonzero (Z.land p1 0x80)) c &&
  eqb (nonzero (Z.land m 0x80)) (128 <=? m).

Definition arr_check (c : bool) (a m : Z) : bool :=
  let am := u8 (Z.land a m) in
  let a' := u8 (Z.lor (Z.shiftr am 1) (u8 (Z.shiftl (Z.b2z c) 7))) in
  let c' := nonzero (Z.land am 0x80) in
  (a' =? Z.land a m / 2 + 128 * Z.b2z c) &&
  eqb c' (Z.testbit a' 6) &&
  eqb (nonzero (Z.lxor (Z.b2z c') (Z.land (Z.shiftr a' 5) 0x1)))
      (xorb (Z.testbit a' 6) (Z.testbit a' 5)) &&
  eqb (nonzero (Z.land a' 0x80)) (128 <=? a').

Definition sbx_check (a m : Z) : bool :=
  eqb (u8 (a - m) =? 0) (a =? m) &&
  eqb (nonzero (Z.land (u8 (a - m)) 0x80)) (nonzero (Z.land (a - m) 0x80)).

Definition php_check (st : Z) : bool :=
  let op := SetBit (Z.lor SF.X SF.M) st true in
  (op =? Z.lor st 0x30) &&
  (u8 (Z.lor (Z.land op (Z.lnot SF.X)) SF.M) =? Z.lor (Z.land st 0xEF) 0x20) &&
  (u8 (Z.lor (Z.land op (Z.lnot (Z.lor SF.M SF.X))) (Z.land st (Z.lor SF.M SF.X))) =? st) &&
  (Z.testbit st 4 || negb (Z.testbit st 5) || (Z.lor (Z.land st 0xEF) 0x20 =? st)).

(** The RAM cell that an address of the RAM window of [ApplyMemoryMap]
    is mapped to: [(I - start) % ram + start]. *)
Definition ram_cell (LSN_CPU_START LSN_INTERNAL_RAM a : Z) : Z :=
  (a - LSN_CPU_START) mod LSN_INTERNAL_RAM + LSN_CPU_START.

(** * Mapper 094 *)

Module Mapper094.
Import Bus.

(** [LSN_ROM]: of the ROM image the mapper reads only [vPrgRom]. *)
Record LSN_ROM : Set := MkRom {
  vPrgRom : list Z
}.

(** [vPrgRom.size()] *)
Definition PrgSize (r : LSN_ROM) : Z := Z.of_nat (length (vPrgRom r)).

(** [vPrgRom.data()[i]] *)
Definition PrgAt (r : LSN_ROM) (i : Z) : Z := default 0 (vPrgRom r !! Z.to_nat i).

(** [CMapper094] with the members it inherits from [CMapperBase]. *)
Record CMapper094 : Set := MkMapper {
  m_prRom : LSN_ROM;
  m_stFixedOffset : Z;
  m_ui8PgmBank : Z;
  m_ui8Mask : Z
}.

(** Modelled from the spec: the PPU bus, its slots and the memory behind
    its standard accessors. *)
Record CPpuBus : Type := MkPpuBus {
  PpuSlots : Slots;
  PpuRam : Z -> Z
}.

Definition Ppu_SetWriteFunc (addr : Z) (pf : PfWriteFunc) (parm : Z) (b : CPpuBus) : CPpuBus :=
  MkPpuBus (SetWriteFunc addr pf parm (PpuSlots b)) (PpuRam b).

(** The cartridge side of the machine: the mapper and the two buses it
    wires. *)
Record Cartridge : Type := MkCartridge {
  Mapper : CMapper094;
  CpuBus : Slots;
  PpuBus : CPpuBus
}.

(** What an access through a bus comes to. *)
Inductive Outcome (A : Type) : Type :=
| Done (a : A)         (* the handler ran *)
| NoValue              (* the handler's C++ expression has no value *)
| Elsewhere.           (* the slot holds a handler of another file *)
Arguments Done {A} _.
Arguments NoValue {A}.
Arguments Elsewhere {A}.

Section Wiring.
(** The PPU address constants, defined outside the translation unit. *)
Variables LSN_PPU_PATTERN_TABLES LSN_PPU_NAMETABLES LSN_PPU_PATTERN_TABLE_SIZE : Z.

(** Modelled from the spec: [CMapperBase::InitWithRom], which is not part
    of the translation unit.  [init_with_rom(rom)] "remembers banks and
    sizes": the mapper keeps the ROM in [m_prRom]. *)
Definition CMapperBase_InitWithRom (_rRom : LSN_ROM) (m : CMapper094) : CMapper094 :=
  MkMapper _rRom (m_stFixedOffset m) (m_ui8PgmBank m) (m_ui8Mask m).

(** [CMapper094::InitWithRom] *)
Definition InitWithRom (_rRom : LSN_ROM) (m : CMapper094) : CMapper094 :=
  let m := CMapperBase_InitWithRom _rRom m in
  let m := MkMapper (m_prRom m) (m_stFixedOffset m) 0 (m_ui8Mask m) in
  MkMapper (m_prRom m) (m_stFixedOffset m) (m_ui8PgmBank m) 0x1C.

(** [CMapper094::ApplyMap] *)
Definition ApplyMap (c : Cartridge) : Cartridge :=
  let m := Mapper c in
  let m := MkMapper (m_prRom m) (Z.max (PrgSize (m_prRom m)) 0x4000 - 0x4000)
             (m_ui8PgmBank m) (m_ui8Mask m) in
  let cb := CpuBus c in
  let cb := for_range 0xC000 0x10000
              (fun I => SetReadFunc (u16 I) PfPgmBankRead_Fixed (u16 (I - 0xC000))) cb in
  let cb := for_range 0x8000 0xC000
              (fun I => SetReadFunc (u16 I) PfPgmBankRead_4000 (u16 (I - 0x8000))) cb in
  let cb := for_range 0x8000 0x10000
              (fun I => SetWriteFunc (u16 I) PfSelectBank 0) cb in
  let pb := PpuBus c in
  let pb := for_range LSN_PPU_PATTERN_TABLES LSN_PPU_NAMETABLES
              (fun I => Ppu_SetWriteFunc (u16 I) PfStdWrite
                          (u16 ((I - LSN_PPU_PATTERN_TABLES) mod LSN_PPU_PATTERN_TABLE_SIZE
                                + LSN_PPU_PATTERN_TABLES))) pb in
  MkCartridge m cb pb.

(** [CMapper094::SelectBank].  The divisor is [vPrgRom.size() / 0x4000];
    with a divisor of zero the C++ expression has no value, which is
    [None]. *)
Definition SelectBank (_ui8Val : Z) (m : CMapper094) : option CMapper094 :=
  let banks := PrgSize (m_prRom m) / 0x4000 in
  if banks =? 0 then None
  else Some (MkMapper (m_prRom m) (m_stFixedOffset m)
               (u8 (Z.shiftr (Z.land _ui8Val (m_ui8Mask m)) 2 mod banks))
               (m_ui8Mask m)).

(** Modelled from the spec: the read handlers of CMapperBase, which is not
    part of the translation unit.  "The upper PRG window is fixed to the
    last 16 KiB": the fixed handler reads at [m_stFixedOffset], the offset
    [ApplyMap] computes for it.  "The lower window is the selected bank":
    the banked handler reads 16 KiB bank number [m_ui8PgmBank].  The
    parameter is the offset inside the window. *)
Definition PgmBankRead_Fixed (m : CMapper094) (_ui16Parm1 : Z) : Z :=
  PrgAt (m_prRom m) (_ui16Parm1 + m_stFixedOffset m).

Definition PgmBankRead_4000 (m : CMapper094) (_ui16Parm1 : Z) : Z :=
  PrgAt (m_prRom m) (_ui16Parm1 + m_ui8PgmBank m * 0x4000).

(** Modelled from the spec: [read(addr)] "call[s] the installed read
    handler" with the slot's parameter; this is the byte the handler
    serves, before the bus mixes in its open-bus latch. *)
Definition CpuBus_Read (addr : Z) (c : Cartridge) : Outcome Z :=
  let acc := Readers (CpuBus c) addr in
  match pfFunc acc with
  | PfPgmBankRead_Fixed => Done (PgmBankRead_Fixed (Mapper c) (ui16Parm acc))
  | PfPgmBankRead_4000 => Done (PgmBankRead_4000 (Mapper c) (ui16Parm acc))
  | _ => Elsewhere
  end.

(** Modelled from the spec: [write(addr, value)] "call[s] the installed
    write handler". *)
Definition CpuBus_Write (addr val : Z) (c : Cartridge) : Outcome Cartridge :=
  let acc := Writers (CpuBus c) addr in
  match pfFunc acc with
  | PfSelectBank =>
      match SelectBank val (Mapper c) with
      | Some m => Done (MkCartridge m (CpuBus c) (PpuBus c))
      | None => NoValue
      end
  | _ => Elsewhere
  end.

(** Modelled from the spec: a write through the PPU bus; [CPpuBus::StdWrite]
    is the "default handler", which stores the byte in the bus's memory at
    the slot's parameter. *)
Definition PpuBus_Write (addr val : Z) (c : Cartridge) : Outcome Cartridge :=
  let acc := Writers (PpuSlots (PpuBus c)) addr in
  match pfFunc acc with
  | PfStdWrite =>
      Done (MkCartridge (Mapper c) (CpuBus c)
              (MkPpuBus (PpuSlots (PpuBus c))
                 (point_update (ui16Parm acc) (u8 val) (PpuRam (PpuBus c)))))
  | _ => Elsewhere
  end.

(** A program's writes to the cartridge, one after the other; the first
    write without a value ends the run. *)
Fixpoint CpuBus_Writes (ws : list (Z * Z)) (c : Cartridge) : Outcome Cartridge :=
  match ws with
  | [] => Done c
  | (addr, val) :: ws' =>
      match CpuBus_Write addr val c with
      | Done c' => CpuBus_Writes ws' c'
      | NoValue => NoValue
      | Elsewhere => Elsewhere
      end
  end.

(** The cartridge as [ApplyMap] wired it for the ROM [rom], with some bank
    selected. *)
Definition wired (rom : LSN_ROM) (c0 c : Cartridge) : Prop :=
  CpuBus c = CpuBus c0 /\ PpuBus c = PpuBus c0 /\
  m_prRom (Mapper c) = rom /\
  m_stFixedOffset (Mapper c) = PrgSize rom - 0x4000 /\
  m_ui8Mask (Mapper c) = 0x1C /\
  0 <= m_ui8PgmBank (Mapper c) < PrgSize rom / 0x4000.

End Wiring.

End Mapper094.

(** * The specification's reading of four claims

    The places where the code departs from the specification's sentence,
    written down from the sentence. *)

(** "[A = (A | const) & X & M] for ANE/LXA with const=0xEE when
    compatibility with an external test suite is enabled and 0xFF
    otherwise"; for LXA the X term is absent. *)
Definition spec_unstable_const (verify : bool) : Z := if verify then 0xEE else 0xFF.

Definition spec_ANE (verify : bool) (A X M : Z) : Z :=
  Z.land (Z.land (Z.lor A (spec_unstable_const verify)) X) M.

Definition spec_LXA (verify : bool) (A M : Z) : Z :=
  Z.land (Z.lor A (spec_unstable_const verify)) M.

(** "Writes of bit 0 = 1 latch the current button snapshot": the shift
    register after a write of [val], given the register before it and the
    snapshot. *)
Definition spec_Write4016_state (val before snapshot : Z) : Z :=
  if Z.testbit val 0 then snapshot else before.

(** "Further writing to PC is disallowed until the vector-selection step
    re-enables it": whether PC may be written once the vector-selection
    step of the BRK sequence has run. *)
Definition spec_pc_gate_after_vector_selection : bool := true.


(** * A small machine to run the engine on

    One instance of the collaborators, for the worked examples: the bus is
    a list of (address, byte) cells with the DMA trigger and the first
    controller port on it, unmapped addresses read 0, the mapper only counts
    its ticks, and the collaborators write down what they were asked to
    do. *)

Module Demo.

Inductive Event : Set :=
| EvMapperTick (phi1flag seenlow : bool)
| EvPhi1 (read : bool)
| EvRead (addr : Z)
| EvWrite (addr val : Z)
| EvPush (off val : Z)
| EvBeginInst
| EvFinishInst (check : bool).

Definition demo_ext : Collaborators :=
  {| CCpuBus := list (Z * Z);
     CMapperBase := nat;
     CInputPoller := Z;
     CCycleInfo := list Event |}.

Definition CCpu := @CCpu6502 demo_ext.

Definition note (e : Event) (s : CCpu) : CCpu :=
  @set_m_ciCycle demo_ext (@m_ciCycle demo_ext s ++ [e]) s.

Fixpoint cell (mem : list (Z * Z)) (addr : Z) : Z :=
  match mem with
  | [] => 0
  | (a, v) :: mem' => if a =? addr then v else cell mem' addr
  end.

Definition poke (addr val : Z) (s : CCpu) : CCpu :=
  let 'MkCpu a b c d e f g h i j k l m n o p q r t u v w x y z a1 a2 a3 a4 a5 bus a7 a8 := s in
  @MkCpu demo_ext a b c d e f g h i j k l m n o p q r t u v w x y z a1 a2 a3 a4 a5
    ((addr, val) :: bus) a7 a8.

Definition mapper_ticked (s : CCpu) : CCpu :=
  let 'MkCpu a b c d e f g h i j k l m n o p q r t u v w x y z a1 a2 a3 a4 a5 a6 mp a8 := s in
  @MkCpu demo_ext a b c d e f g h i j k l m n o p q r t u v w x y z a1 a2 a3 a4 a5 a6
    (S mp) a8.

(** The instruction table of the examples: BRK (0x00), JAM (0x02), ANE
    (0x8B), LXA (0xAB) and SHX absolute,Y (0x9E) as far as their cycle
    functions are embedded; anything else stops short after the fetch. *)
Definition demo_table (op : Z) : list PfCycle :=
  if op =? 0x00 then
    [PfFetch_Opcode_IncPc_Phi2; Cycle_Other 0; Cycle_Other 1; Cycle_Other 2; Cycle_Other 3;
     Cycle_Other 4; Cycle_Other 5; PfSelectBrkVectors; PfPush_S_Phi2 (-2); PfSetBrkFlags]
  else if op =? 0x02 then [PfFetch_Opcode_IncPc_Phi2; PfJam; PfJam_Phi2]
  else if op =? 0x8B then [PfFetch_Opcode_IncPc_Phi2; Cycle_Other 0; Cycle_Other 1;
                           PfAne_IncPc_BeginInst]
  else if op =? 0xAB then [PfFetch_Opcode_IncPc_Phi2; Cycle_Other 0; Cycle_Other 1;
                           PfLxa_IncPc_BeginInst]
  else [PfFetch_Opcode_IncPc_Phi2].

Definition demo_hooks (verify : bool) : @Hooks demo_ext :=
  {| LSN_CPU_VERIFY := verify;
     bus_Read := fun addr s =>
       if addr =? 0x4016 then @Read4016 demo_ext (note (EvRead addr) s)
       else (cell (@m_pbBus demo_ext s) addr, note (EvRead addr) s);
     bus_Write := fun addr val s =>
       if addr =? 0x4014 then @Write4014 demo_ext val (note (EvWrite addr val) s)
       else poke addr val (note (EvWrite addr val) s);
     Mapper_Tick := fun s =>
       mapper_ticked
         (note (EvMapperTick (@m_bIrqStatusPhi1Flag demo_ext s) (@m_bIrqSeenLowPhi2 demo_ext s)) s);
     PollPort := fun poller _ => poller;
     m_iInstructionSet := demo_table;
     BeginInst := fun s => @set_m_ui8FuncIndex demo_ext 0 (note EvBeginInst s);
     LSN_FINISH_INST := fun check s => @LSN_NEXT_FUNCTION demo_ext (note (EvFinishInst check) s);
     LSN_PUSH := fun off val s => note (EvPush off val) s;
     phi1_start := fun read l => l ++ [EvPhi1 read];
     phi1_end := fun l => l;
     phi2_end := fun l => l;
     call_other := fun _ s => s |}.

(** Outside a DMA transfer both tick functions run the current cycle
    function; the DMA tick function idles. *)
Definition demo_ticks (verify : bool) : @TickFuncs demo_ext :=
  {| call_tick := fun pf s =>
       match pf with
       | Tick_Dma _ _ => s
       | _ => @Tick_InstructionCycle demo_ext (demo_hooks verify) s
       end |}.

Definition regs0 : LSN_REGISTERS :=
  {| ui8A := 0x5A; ui8X := 0xF0; ui8Y := 0x0F; ui8S := 0xFD; ui8Status := 0x24; ui16Pc := 0x8000 |}.

(** A machine inside the instruction [op], at cycle function [idx]. *)
Definition cpu_at (op idx : Z) (regs : LSN_REGISTERS) (operand address : Z) (crossed : bool)
    (reset nmi irq : bool) (shift : Z) : CCpu :=
  @MkCpu demo_ext Tick_InstructionCycleStd Tick_InstructionCycleStd
    (demo_table op) regs 7 op 1 address 0x34FF 0 LSN_V_IRQ_BRK idx operand
    crossed false true nmi irq reset nmi false nmi false false false false
    [0; 0; 0; 0; 0; 0; 0; 0] [shift; 0; 0; 0; 0; 0; 0; 0] [0; 0; 0; 0; 0; 0; 0; 0]
    (Some 0xA5) [(0x8000, 0x02); (0x8001, 0xEA)] O [].

(** The machine right after a JAM opcode at 0x8000 has been fetched. *)
Definition cpu0 : CCpu :=
  cpu_at 0x02 1 regs0 0x3C 0x12FE false false false false 0.

(** Registers for the ANE and LXA examples. *)
Definition regs_ane : LSN_REGISTERS :=
  {| ui8A := 0x00; ui8X := 0xFF; ui8Y := 0; ui8S := 0xFD; ui8Status := 0x24; ui16Pc := 0x8000 |}.

(** A cartridge with two 16 KiB banks, the first filled with 0xAA and the
    second with 0xBB, on buses that start out with foreign handlers
    everywhere. *)
Definition rom2 : Mapper094.LSN_ROM :=
  Mapper094.MkRom (repeat 0xAA (Z.to_nat 0x4000) ++ repeat 0xBB (Z.to_nat 0x4000)).

Definition blank_mapper : Mapper094.CMapper094 := Mapper094.MkMapper (Mapper094.MkRom []) 0 0 0.

Definition blank_slots : Bus.Slots :=
  Bus.MkSlots (fun _ => Bus.MkAccessor (Bus.PfRead_Other 0) 0)
    (fun _ => Bus.MkAccessor (Bus.PfWrite_Other 0) 0) (fun _ => 0xFF).

Definition blank_ppu_bus : Mapper094.CPpuBus :=
  Mapper094.MkPpuBus blank_slots (fun _ => 0).

Definition cart2 : Mapper094.Cartridge :=
  Mapper094.ApplyMap 0x0000 0x2000 0x2000
    (Mapper094.MkCartridge (Mapper094.InitWithRom rom2 blank_mapper) blank_slots blank_ppu_bus).

(** The emulator build of the small machine. *)
Definition emulator_hooks : @Hooks demo_ext := demo_hooks false.
Definition emulator_ticks : @TickFuncs demo_ext := demo_ticks false.

End Demo.

(** Two more machines for the examples. *)
Module MoreDemo.
Import Demo.

(** The machine of the examples with the operand byte 0x81. *)
Definition cpu_81 : CCpu := cpu_at 0x02 1 regs0 0x81 0x12FE false false false false 0.

(** The machine of the examples with the carry flag set. *)
Definition cpu_carry : CCpu :=
  @SetStatusBit demo_ext SF.C true cpu0.

End MoreDemo.

(** * Properties of the cycle engine *)

Section EngineProps.
Context {ext : Collaborators} {hooks : Hooks} {ticks : TickFuncs}.

(** *** Bytes and bits *)

Lemma u8_land_255 (z : Z) : u8 z = Z.land z 255.
Proof.
  unfold u8. change 256 with (2 ^ 8). rewrite <- Z.land_ones by lia. reflexivity.
Qed.

Lemma u8_land_byte (a m : Z) : 0 <= m < 256 -> u8 (Z.land a m) = Z.land a m.
Proof.
  intros Hm. rewrite u8_land_255, <- Z.land_assoc. f_equal.
  rewrite <- u8_land_255. unfold u8. apply Z.mod_small. exact Hm.
Qed.

Lemma land_0x80 (v : Z) : Z.land v 0x80 = if Z.testbit v 7 then 0x80 else 0.
Proof.
  apply Z.bits_inj'. intros n Hn.
  rewrite Z.land_spec. change 0x80 with (2 ^ 7).
  rewrite Z.pow2_bits_eqb by lia.
  destruct (Z.eqb_spec 7 n) as [<- | Hne].
  - rewrite andb_true_r. destruct (Z.testbit v 7) eqn:E.
    + rewrite Z.pow2_bits_eqb by lia. reflexivity.
    + rewrite Z.bits_0. reflexivity.
  - rewrite andb_false_r. destruct (Z.testbit v 7).
    + rewrite Z.pow2_bits_eqb by lia. symmetry. apply Z.eqb_neq. exact Hne.
    + rewrite Z.bits_0. reflexivity.
Qed.

Lemma nonzero_0x80 (v : Z) : nonzero (Z.land v 0x80) = Z.testbit v 7.
Proof. rewrite land_0x80. destruct (Z.testbit v 7); reflexivity. Qed.

Lemma SetBit_pow2 (k : Z) (st : Z) (b : bool) (i : Z) :
  0 <= k -> 0 <= i ->
  Z.testbit (SetBit (2 ^ k) st b) i = if k =? i then b else Z.testbit st i.
Proof.
  intros Hk Hi. unfold SetBit. destruct b.
  - rewrite Z.lor_spec, Z.pow2_bits_eqb by lia.
    destruct (k =? i); [apply orb_true_r | apply orb_false_r].
  - rewrite Z.land_spec, Z.lnot_spec, Z.pow2_bits_eqb by lia.
    destruct (k =? i); [apply andb_false_r | apply andb_true_r].
Qed.

Lemma testbit_255 (n : Z) : 0 <= n -> Z.testbit 255 n = (n <? 8).
Proof. intros Hn. change 255 with (Z.ones 8). apply Z.testbit_ones_nonneg; lia. Qed.

(** *** The two half cycles *)

(** C1: in the emulator build, [Tick] hands the IRQ latch over to
    [m_bIrqStatusPhi1Flag] and clears it, then lets the mapper tick on that
    state, then calls the active tick function once, on the mapper's
    result; [TickPhi2] calls the active tick function once and then, on its
    result, latches the rising NMI edge, remembers the NMI line,
    accumulates the IRQ line into the latch and adds one to the 64-bit
    cycle counter, leaving every other member as the call left it. *)
Theorem Tick_TickPhi2_sequence (s : CCpu6502) :
  LSN_CPU_VERIFY = false ->
  (let s1 := set_m_bIrqSeenLowPhi2 false (set_m_bIrqStatusPhi1Flag (m_bIrqSeenLowPhi2 s) s) in
   let s2 := Mapper_Tick s1 in
   m_bIrqStatusPhi1Flag s1 = m_bIrqSeenLowPhi2 s /\
   m_bIrqSeenLowPhi2 s1 = false /\
   Tick s = call_tick (m_pfTickFunc s2) s2) /\
  (let t := call_tick (m_pfTickFunc s) s in
   let t' := TickPhi2 s in
   m_bDetectedNmi t' = m_bDetectedNmi t || (negb (m_bLastNmiStatusLine t) && m_bNmiStatusLine t) /\
   m_bLastNmiStatusLine t' = m_bNmiStatusLine t /\
   m_bIrqSeenLowPhi2 t' = m_bIrqSeenLowPhi2 t || m_bIrqStatusLine t /\
   m_ui64CycleCount t' = u64 (m_ui64CycleCount t + 1) /\
   t' = set_m_ui64CycleCount (m_ui64CycleCount t')
          (set_m_bIrqSeenLowPhi2 (m_bIrqSeenLowPhi2 t')
             (set_m_bLastNmiStatusLine (m_bLastNmiStatusLine t')
                (set_m_bDetectedNmi (m_bDetectedNmi t') t)))).
Proof.
  intros Hbuild. split.
  - cbn zeta. repeat split.
    unfold Tick. rewrite Hbuild. reflexivity.
  - cbn zeta. unfold TickPhi2, SampleLines.
    destruct (call_tick (m_pfTickFunc s) s). cbn. repeat split.
Qed.

(** *** Opcode fetch *)

Lemma SetBrkFlags_allows_pc (t : CCpu6502) :
  m_bAllowWritingToPc (SetBrkFlags t) = true.
Proof. reflexivity. Qed.

Lemma SelectBrkVectors_keeps_pc_gate (t : CCpu6502) :
  m_bAllowWritingToPc (SelectBrkVectors t) = m_bAllowWritingToPc t.
Proof.
  unfold SelectBrkVectors.
  destruct LSN_CPU_VERIFY; [reflexivity |].
  destruct t; cbn.
  repeat match goal with |- context [if ?b then _ else _] => destruct b; cbn end;
    reflexivity.
Qed.

(** What [SelectBrkVectors] decides in the emulator build, and what it
    leaves alone. *)
Lemma SelectBrkVectors_vector (t : CCpu6502) :
  LSN_CPU_VERIFY = false ->
  m_vBrkVector (SelectBrkVectors t) =
    (if m_bIsReset t then LSN_V_RESET
     else if m_bDetectedNmi t then LSN_V_NMI else LSN_V_IRQ_BRK).
Proof.
  intros Hbuild. unfold SelectBrkVectors. rewrite Hbuild. destruct t; cbn.
  repeat match goal with |- context [if ?b then _ else _] => destruct b; cbn end;
    reflexivity.
Qed.

Lemma SelectBrkVectors_keeps_regs (t : CCpu6502) :
  m_rRegs (SelectBrkVectors t) = m_rRegs t.
Proof.
  unfold SelectBrkVectors.
  destruct LSN_CPU_VERIFY; [reflexivity |].
  destruct t; cbn.
  repeat match goal with |- context [if ?b then _ else _] => destruct b; cbn end;
    reflexivity.
Qed.

Lemma LSN_UPDATE_PC_gated (t : CCpu6502) :
  m_bAllowWritingToPc t = false -> m_rRegs (LSN_UPDATE_PC t) = m_rRegs t.
Proof. intros H. unfold LSN_UPDATE_PC. rewrite H. reflexivity. Qed.

(** C2, as amended: in the emulator build the opcode fetch reads the byte
    at PC from the bus.  With none of [m_bHandleNmi], [m_bHandleIrq],
    [m_bIsReset] set that byte becomes the opcode and selects the
    instruction, and an increment of one is scheduled for PC (the next
    [LSN_UPDATE_PC] applies it).  With any of them set the byte is
    dropped: the opcode is 0x00 and the BRK sequence is selected, no
    increment is scheduled, and [m_bAllowWritingToPc] is cleared, so that
    [LSN_UPDATE_PC] leaves PC alone.  The vector-selection step,
    [SelectBrkVectors], decides the vector and leaves the gate closed: PC
    still cannot be written after it.  It is [SetBrkFlags], the later step
    of the sequence that sets I, that opens the gate again.  The fetch
    itself writes no register. *)
Theorem Fetch_Opcode_IncPc_Phi2_dispatch (s : CCpu6502) :
  LSN_CPU_VERIFY = false ->
  let r := bus_Read (u16 (ui16Pc (m_rRegs s))) s in
  let s1 := snd r in
  let pending := m_bHandleNmi s1 || m_bHandleIrq s1 || m_bIsReset s1 in
  let s' := Fetch_Opcode_IncPc_Phi2 s in
  (pending = false ->
     m_ui16OpCode s' = u8 (fst r) /\
     m_pfCurInstruction s' = m_iInstructionSet (u8 (fst r)) /\
     m_ui16PcModify s' = 1 /\
     m_bAllowWritingToPc s' = m_bAllowWritingToPc s1 /\
     (m_bAllowWritingToPc s1 = true ->
        ui16Pc (m_rRegs (LSN_UPDATE_PC s')) = u16 (ui16Pc (m_rRegs s1) + 1))) /\
  (pending = true ->
     m_ui16OpCode s' = 0 /\
     m_pfCurInstruction s' = m_iInstructionSet 0 /\
     m_ui16PcModify s' = 0 /\
     m_bAllowWritingToPc s' = false /\
     ui16Pc (m_rRegs (LSN_UPDATE_PC s')) = ui16Pc (m_rRegs s1) /\
     m_bAllowWritingToPc (SelectBrkVectors s') = false /\
     m_bAllowWritingToPc (SetBrkFlags (SelectBrkVectors s')) = true /\
     m_vBrkVector (SelectBrkVectors s') =
       (if m_bIsReset s1 then LSN_V_RESET
        else if m_bDetectedNmi s1 then LSN_V_NMI else LSN_V_IRQ_BRK) /\
     ui16Pc (m_rRegs (LSN_UPDATE_PC (SelectBrkVectors s'))) = ui16Pc (m_rRegs s1) /\
     m_bAllowWritingToPc (LSN_UPDATE_PC (SelectBrkVectors s')) = false) /\
  m_rRegs s' = m_rRegs s1 /\
  m_ui8FuncIndex s' = u8 (m_ui8FuncIndex s1 + 1).
Proof.
  intros Hbuild r s1 pending s'.
  assert (Hs' : s' =
    LSN_INSTR_END_PHI2 (LSN_NEXT_FUNCTION
      (let q := if pending
                then (0, set_m_bAllowWritingToPc false (set_m_ui16PcModify 0 s1))
                else (u8 (fst r), set_m_ui16PcModify 1 s1) in
       set_m_pfCurInstruction (m_iInstructionSet (fst q)) (set_m_ui16OpCode (fst q) (snd q))))).
  { subst s'. unfold Fetch_Opcode_IncPc_Phi2, LSN_INSTR_START_PHI2_READ.
    rewrite Hbuild. cbn [fst snd].
    fold r. fold s1. fold pending. destruct pending; reflexivity. }
  split; [| split; [| split]].
  - intros Hp. rewrite Hs', Hp. cbn. repeat split.
    intros Hallow. unfold LSN_UPDATE_PC. cbn. rewrite Hallow. reflexivity.
  - intros Hp.
    assert (Hgate : m_bAllowWritingToPc s' = false) by (rewrite Hs', Hp; reflexivity).
    assert (Hsel : m_bAllowWritingToPc (SelectBrkVectors s') = false)
      by (rewrite SelectBrkVectors_keeps_pc_gate; exact Hgate).
    assert (Hregs : m_rRegs s' = m_rRegs s1) by (rewrite Hs', Hp; reflexivity).
    assert (Hres : m_bIsReset s' = m_bIsReset s1) by (rewrite Hs', Hp; reflexivity).
    assert (Hnmi : m_bDetectedNmi s' = m_bDetectedNmi s1) by (rewrite Hs', Hp; reflexivity).
    rewrite (LSN_UPDATE_PC_gated _ Hsel), SelectBrkVectors_keeps_regs, Hregs.
    rewrite (SelectBrkVectors_vector _ Hbuild), Hres, Hnmi.
    rewrite SetBrkFlags_allows_pc, Hsel.
    split; [rewrite Hs', Hp; reflexivity |]. split; [rewrite Hs', Hp; reflexivity |].
    split; [rewrite Hs', Hp; reflexivity |]. split; [exact Hgate |].
    split; [rewrite (LSN_UPDATE_PC_gated _ Hgate), Hregs; reflexivity |].
    repeat split.
    unfold LSN_UPDATE_PC. rewrite Hsel. exact Hsel.
  - rewrite Hs'. destruct pending; reflexivity.
  - rewrite Hs'. destruct pending; reflexivity.
Qed.

(** *** Vector selection *)

(** [SetBrkFlags] leaves the break bit of the stored status clear and I
    set. *)
Lemma SetBrkFlags_status (t : CCpu6502) :
  Z.testbit (ui8Status (m_rRegs (SetBrkFlags t))) 4 = false /\
  Z.testbit (ui8Status (m_rRegs (SetBrkFlags t))) 2 = true.
Proof.
  assert (H : ui8Status (m_rRegs (SetBrkFlags t)) =
              SetBit (2 ^ 4) (SetBit (2 ^ 2) (ui8Status (m_rRegs t)) true) false)
    by reflexivity.
  rewrite H, !SetBit_pow2 by lia. split; reflexivity.
Qed.

Lemma testbit_u8 (z i : Z) : 0 <= i < 8 -> Z.testbit (u8 z) i = Z.testbit z i.
Proof.
  intros Hi. rewrite u8_land_255, Z.land_spec, testbit_255 by lia.
  replace (i <? 8) with true by (symmetry; apply Z.ltb_lt; lia). apply andb_true_r.
Qed.



(** *** The unstable immediate opcodes *)

(** What [SetNZ] does to the status byte, bit by bit. *)
Lemma SetNZ_status (v : Z) (s : CCpu6502) (i : Z) :
  0 <= i ->
  Z.testbit (ui8Status (m_rRegs (SetNZ v s))) i =
    if i =? 7 then Z.testbit v 7
    else if i =? 1 then v =? 0
    else Z.testbit (ui8Status (m_rRegs s)) i.
Proof.
  intros Hi. unfold SetNZ. cbn.
  change SF.Z_ with (2 ^ 1). change SF.N with (2 ^ 7).
  rewrite !SetBit_pow2 by lia. rewrite nonzero_0x80.
  rewrite (Z.eqb_sym 1 i), (Z.eqb_sym 7 i).
  destruct (Z.eqb_spec i 1) as [-> |]; [reflexivity |].
  reflexivity.
Qed.

Lemma SetNZ_registers (v : Z) (s : CCpu6502) :
  ui8A (m_rRegs (SetNZ v s)) = ui8A (m_rRegs s) /\
  ui8X (m_rRegs (SetNZ v s)) = ui8X (m_rRegs s).
Proof. split; reflexivity. Qed.

(** The break bit is not stored: of the steps embedded here that write the
    status register, [SetBrkFlags] and [Plp_BeginInst] clear bit 4,
    [CopyOperandToStatusWithoutB] keeps the stored one and [SetNZ] does
    not touch it; [Php] sets it only in the byte it prepares for the
    push. *)
Lemma break_bit_not_stored (t : CCpu6502) :
  Z.testbit (ui8Status (m_rRegs (SetBrkFlags t))) 4 = false /\
  Z.testbit (ui8Status (m_rRegs (Plp_BeginInst t))) 4 = false /\
  Z.testbit (ui8Status (m_rRegs (CopyOperandToStatusWithoutB t))) 4 =
    Z.testbit (ui8Status (m_rRegs t)) 4 /\
  (forall v, Z.testbit (ui8Status (m_rRegs (SetNZ v t))) 4 =
             Z.testbit (ui8Status (m_rRegs t)) 4) /\
  ui8Status (m_rRegs (Php t)) = ui8Status (m_rRegs t) /\
  Z.testbit (m_ui8Operand (Php t)) 4 = true.
Proof.
  split; [apply SetBrkFlags_status |].
  split.
  { unfold Plp_BeginInst. cbn -[u8 Z.testbit Z.lor Z.land Z.lnot].
    rewrite testbit_u8 by lia.
    rewrite Z.lor_spec, Z.land_spec. rewrite andb_false_r. reflexivity. }
  split.
  { unfold CopyOperandToStatusWithoutB. cbn -[u8 Z.testbit Z.lor Z.land Z.lnot].
    rewrite testbit_u8 by lia.
    rewrite Z.lor_spec, !Z.land_spec. rewrite andb_false_r, andb_true_r. reflexivity. }
  split.
  { intros v. rewrite SetNZ_status by lia. reflexivity. }
  split; [reflexivity |].
  unfold Php. cbn -[SetBit Z.testbit Z.lor]. unfold SetBit.
  rewrite Z.lor_spec. apply orb_true_r.
Qed.

(** C4 (as amended): for every A, X and operand byte M, ANE leaves
    [A = (A | 0xEE) & X & M] in either build; LXA leaves
    [A = X = (A | const) & M] with const 0xEE when [LSN_CPU_VERIFY] is
    defined and 0xFF otherwise.  In both, N becomes bit 7 of the result, Z
    becomes "the result is zero", and no other status bit changes.
    [BeginInst] is taken to leave the registers and the operand latch
    alone. *)
Theorem Ane_Lxa_result (s : CCpu6502) :
  (forall t, m_rRegs (BeginInst t) = m_rRegs t /\ m_ui8Operand (BeginInst t) = m_ui8Operand t) ->
  0 <= m_ui8Operand s < 256 ->
  let A := ui8A (m_rRegs s) in
  let X := ui8X (m_rRegs s) in
  let M := m_ui8Operand s in
  let flags_from (res : Z) (t : CCpu6502) :=
    forall i, 0 <= i ->
      Z.testbit (ui8Status (m_rRegs t)) i =
        if i =? 7 then Z.testbit res 7
        else if i =? 1 then res =? 0
        else Z.testbit (ui8Status (m_rRegs s)) i in
  (let res := Z.land (Z.land (Z.lor A 0xEE) X) M in
   let t := Ane_IncPc_BeginInst s in
   ui8A (m_rRegs t) = res /\ ui8X (m_rRegs t) = X /\ flags_from res t) /\
  (let res := Z.land (Z.lor A (if LSN_CPU_VERIFY then 0xEE else 0xFF)) M in
   let t := Lxa_IncPc_BeginInst s in
   ui8A (m_rRegs t) = res /\ ui8X (m_rRegs t) = res /\ flags_from res t).
Proof.
  intros Hframe HM A X M flags_from.
  destruct (Hframe s) as [Hregs Hop].
  assert (Hupd : forall t, ui8A (m_rRegs (LSN_UPDATE_PC t)) = ui8A (m_rRegs t) /\
                           ui8X (m_rRegs (LSN_UPDATE_PC t)) = ui8X (m_rRegs t) /\
                           ui8Status (m_rRegs (LSN_UPDATE_PC t)) = ui8Status (m_rRegs t) /\
                           m_ui8Operand (LSN_UPDATE_PC t) = m_ui8Operand t).
  { intros t. unfold LSN_UPDATE_PC. destruct (m_bAllowWritingToPc t); cbn; repeat split. }
  destruct (Hupd (BeginInst s)) as (HA & HX & HS & HO).
  split.
  - cbn zeta. unfold Ane_IncPc_BeginInst. cbn zeta.
    set (t1 := LSN_UPDATE_PC (BeginInst s)) in *. clearbody t1.
    set (res := u8 _).
    assert (Hres : res = Z.land (Z.land (Z.lor A 0xEE) X) M).
    { subst res. rewrite HA, HX, HO, Hregs, Hop. apply u8_land_byte. exact HM. }
    split; [| split].
    + cbn. exact Hres.
    + cbn. rewrite HX, Hregs. reflexivity.
    + intros i Hi. rewrite SetNZ_status by exact Hi. cbn.
      rewrite HS, Hregs, Hres. reflexivity.
  - cbn zeta. unfold Lxa_IncPc_BeginInst, Lxa_const. cbn zeta.
    set (t1 := LSN_UPDATE_PC (BeginInst s)) in *. clearbody t1.
    set (res := u8 _).
    assert (Hres : res = Z.land (Z.lor A (if LSN_CPU_VERIFY then 0xEE else 0xFF)) M).
    { subst res. rewrite HA, HO, Hregs, Hop. apply u8_land_byte. exact HM. }
    split; [| split].
    + cbn. exact Hres.
    + cbn. exact Hres.
    + intros i Hi. rewrite SetNZ_status by exact Hi. cbn.
      rewrite HS, Hregs, Hres. reflexivity.
Qed.

(** *** JAM *)

Lemma Tick_unfold (s : CCpu6502) :
  Tick s = call_tick (m_pfTickFunc (Tick_prologue s)) (Tick_prologue s).
Proof. unfold Tick, Tick_prologue. destruct LSN_CPU_VERIFY; reflexivity. Qed.

Lemma sequencer_SampleLines (t : CCpu6502) : sequencer (SampleLines t) = sequencer t.
Proof. reflexivity. Qed.

Lemma sequencer_Jam (t : CCpu6502) :
  sequencer (Jam t) =
    (m_pfTickFunc t, m_pfCurInstruction t, m_ui16OpCode t, u8 (m_ui8FuncIndex t + 1),
     (if m_bAllowWritingToPc t
      then u16 (ui16Pc (m_rRegs t) + u16 (- i16 (m_ui16PcModify t)))
      else ui16Pc (m_rRegs t)),
     0, m_bAllowWritingToPc t).
Proof. unfold Jam. destruct t; cbn. destruct m_bAllowWritingToPc0; reflexivity. Qed.

Lemma sequencer_inv (a : CCpu6502) tf cur op idx pc md gate :
  sequencer a = (tf, cur, op, idx, pc, md, gate) ->
  m_pfTickFunc a = tf /\ m_pfCurInstruction a = cur /\ m_ui16OpCode a = op /\
  m_ui8FuncIndex a = idx /\ ui16Pc (m_rRegs a) = pc /\ m_ui16PcModify a = md /\
  m_bAllowWritingToPc a = gate.
Proof. unfold sequencer. intros H. injection H. intros. repeat split; assumption. Qed.

Section Jammed.
(** The collaborators keep out of the sequencer: neither the mapper's tick
    nor a bus read changes it (a read's handler may still change what it
    owns, as [Read4016] does). *)
Hypothesis mapper_frame : forall t, sequencer (Mapper_Tick t) = sequencer t.
Hypothesis read_frame : forall a t, sequencer (snd (bus_Read a t)) = sequencer t.

Lemma sequencer_Tick_prologue (t : CCpu6502) : sequencer (Tick_prologue t) = sequencer t.
Proof.
  unfold Tick_prologue. destruct LSN_CPU_VERIFY; [reflexivity |].
  rewrite mapper_frame. reflexivity.
Qed.

Lemma sequencer_Jam_Phi2 (t : CCpu6502) :
  sequencer (Jam_Phi2 t) =
    (m_pfTickFunc t, m_pfCurInstruction t, m_ui16OpCode t, u8 (m_ui8FuncIndex t + -1),
     ui16Pc (m_rRegs t), m_ui16PcModify t, m_bAllowWritingToPc t).
Proof.
  unfold Jam_Phi2, LSN_INSTR_START_PHI2_READ. cbn [snd].
  pose proof (read_frame (u16 (ui16Pc (m_rRegs t) + 1)) t) as H.
  destruct (snd (bus_Read (u16 (ui16Pc (m_rRegs t) + 1)) t)). cbn in *.
  unfold sequencer in H. cbn in H. injection H as <- <- <- <- <- <- <-. reflexivity.
Qed.

Lemma jam_cycle (pf : PfTicks) (cur : list PfCycle) (op idx : Z) (t : CCpu6502) :
  (forall u, call_tick pf u = Tick_InstructionCycle u) ->
  cur !! Z.to_nat idx = Some PfJam ->
  cur !! Z.to_nat (idx + 1) = Some PfJam_Phi2 ->
  0 <= idx < 255 ->
  on_jam pf cur op idx t ->
  let pc' := if m_bAllowWritingToPc t
             then u16 (ui16Pc (m_rRegs t) + u16 (- i16 (m_ui16PcModify t)))
             else ui16Pc (m_rRegs t) in
  Tick t = Jam (Tick_prologue t) /\
  TickPhi2 (Tick t) = SampleLines (Jam_Phi2 (Tick t)) /\
  Jam_Phi2 (Tick t) =
    LSN_INSTR_END_PHI2 (LSN_NEXT_FUNCTION_BY (-1) (snd (bus_Read (u16 (pc' + 1)) (Tick t)))) /\
  on_jam pf cur op idx (MasterCycle t) /\
  ui16Pc (m_rRegs (MasterCycle t)) = pc' /\
  m_ui16PcModify (MasterCycle t) = 0 /\
  m_bAllowWritingToPc (MasterCycle t) = m_bAllowWritingToPc t.
Proof.
  intros Hpf H1 H2 Hidx (Htf & Hcur & Hop & Hi) pc'.
  pose proof (sequencer_Tick_prologue t) as Hpre.
  apply sequencer_inv in Hpre. destruct Hpre as (Ptf & Pcur & Pop & Pidx & Ppc & Pmod & Pgate).
  assert (HT : Tick t = Jam (Tick_prologue t)).
  { rewrite Tick_unfold, Ptf, Htf, Hpf. unfold Tick_InstructionCycle.
    rewrite Pcur, Pidx, Hcur, Hi, H1. reflexivity. }
  pose proof (sequencer_Jam (Tick_prologue t)) as HJ.
  rewrite <- HT, Ptf, Pcur, Pop, Pidx, Ppc, Pmod, Pgate in HJ. fold pc' in HJ.
  apply sequencer_inv in HJ. destruct HJ as (Jtf & Jcur & Jop & Jidx & Jpc & Jmod & Jgate).
  assert (Hi1 : u8 (m_ui8FuncIndex t + 1) = idx + 1).
  { rewrite Hi. unfold u8. apply Z.mod_small. lia. }
  assert (HT2 : TickPhi2 (Tick t) = SampleLines (Jam_Phi2 (Tick t))).
  { unfold TickPhi2. rewrite Jtf, Htf, Hpf. unfold Tick_InstructionCycle.
    rewrite Jcur, Jidx, Hi1, Hcur, H2. reflexivity. }
  pose proof (sequencer_Jam_Phi2 (Tick t)) as HP.
  rewrite Jtf, Jcur, Jop, Jidx, Jpc, Jmod, Jgate, Hi1 in HP.
  assert (Hi2 : u8 (idx + 1 + -1) = idx).
  { unfold u8. replace (idx + 1 + -1) with idx by lia. apply Z.mod_small. lia. }
  rewrite Hi2 in HP.
  assert (HM : sequencer (MasterCycle t) =
               (m_pfTickFunc t, m_pfCurInstruction t, m_ui16OpCode t, idx, pc', 0,
                m_bAllowWritingToPc t)).
  { unfold MasterCycle. rewrite HT2, sequencer_SampleLines. exact HP. }
  apply sequencer_inv in HM. destruct HM as (Mtf & Mcur & Mop & Midx & Mpc & Mmod & Mgate).
  repeat split; try congruence.
  unfold Jam_Phi2, LSN_INSTR_START_PHI2_READ. cbn [snd]. rewrite Jpc. reflexivity.
Qed.

Lemma u16_idem (z : Z) : u16 (u16 z) = u16 z.
Proof. unfold u16. apply Z.mod_mod. lia. Qed.

Lemma jam_pc_fixed (gate : bool) (pc : Z) :
  (gate = true -> u16 pc = pc) ->
  (if gate then u16 (pc + u16 (- i16 0)) else pc) = pc.
Proof.
  intros H. destruct gate; [| reflexivity].
  change (u16 (- i16 0)) with 0. rewrite Z.add_0_r. apply H. reflexivity.
Qed.

(** C5: once the machine sits on the JAM pair, every master cycle runs
    [Jam] in [Tick] and [Jam_Phi2] in [TickPhi2] and nothing else; the
    instruction, the opcode and the position in it are the same after each
    cycle; PC, once the first [Jam] has taken the pending increment back,
    never changes again; and each [Jam_Phi2] reads the same address, the
    one after PC. *)
Theorem Jam_never_advances (s : CCpu6502) (n : nat) :
  (forall u, call_tick (m_pfTickFunc s) u = Tick_InstructionCycle u) ->
  m_pfCurInstruction s !! Z.to_nat (m_ui8FuncIndex s) = Some PfJam ->
  m_pfCurInstruction s !! Z.to_nat (m_ui8FuncIndex s + 1) = Some PfJam_Phi2 ->
  0 <= m_ui8FuncIndex s < 255 ->
  let frozen := ui16Pc (m_rRegs (MasterCycle s)) in
  let sn := MasterCycles n s in
  m_pfTickFunc sn = m_pfTickFunc s /\
  m_pfCurInstruction sn = m_pfCurInstruction s /\
  m_ui16OpCode sn = m_ui16OpCode s /\
  m_ui8FuncIndex sn = m_ui8FuncIndex s /\
  ((1 <= n)%nat -> ui16Pc (m_rRegs sn) = frozen /\ m_ui16PcModify sn = 0) /\
  Tick sn = Jam (Tick_prologue sn) /\
  TickPhi2 (Tick sn) = SampleLines (Jam_Phi2 (Tick sn)) /\
  Jam_Phi2 (Tick sn) =
    LSN_INSTR_END_PHI2
      (LSN_NEXT_FUNCTION_BY (-1) (snd (bus_Read (u16 (frozen + 1)) (Tick sn)))) /\
  ui16Pc (m_rRegs (MasterCycle sn)) = frozen.
Proof.
  intros Hpf H1 H2 Hidx frozen sn.
  set (pf := m_pfTickFunc s) in *. set (cur := m_pfCurInstruction s) in *.
  set (op := m_ui16OpCode s) in *. set (idx := m_ui8FuncIndex s) in *.
  assert (Hstep : forall t, on_jam pf cur op idx t -> _) by
    (intros t; exact (jam_cycle pf cur op idx t Hpf H1 H2 Hidx)).
  assert (H0 : on_jam pf cur op idx s) by (repeat split).
  (* after at least one cycle PC is a [uint16_t] value with nothing pending *)
  assert (Hinv : forall k t, on_jam pf cur op idx t ->
            on_jam pf cur op idx (MasterCycles k t) /\
            ((1 <= k)%nat ->
               ui16Pc (m_rRegs (MasterCycles k t)) = ui16Pc (m_rRegs (MasterCycle t)) /\
               m_ui16PcModify (MasterCycles k t) = 0 /\
               (m_bAllowWritingToPc (MasterCycles k t) = true ->
                  u16 (ui16Pc (m_rRegs (MasterCycles k t))) =
                  ui16Pc (m_rRegs (MasterCycles k t))))).
  { induction k as [| k IH]; intros t Ht.
    - split; [exact Ht | lia].
    - cbn [MasterCycles].
      destruct (Hstep t Ht) as (_ & _ & _ & Hon & Hpc & Hmod & Hgate).
      destruct (IH _ Hon) as [Hon' Hk]. split; [exact Hon' |]. intros _.
      destruct k as [| k].
      + cbn [MasterCycles]. repeat split; [exact Hmod |].
        intros Hg. rewrite Hpc. rewrite Hgate in Hg. rewrite Hg. apply u16_idem.
      + destruct Hk as (Hk1 & Hk2 & Hk3); [lia |].
        assert (Hfix : ui16Pc (m_rRegs (MasterCycle (MasterCycle t))) =
                       ui16Pc (m_rRegs (MasterCycle t))).
        { destruct (Hstep _ Hon) as (_ & _ & _ & _ & Hpc2 & _ & _).
          rewrite Hpc2, Hmod. apply jam_pc_fixed.
          intros Hg. rewrite Hpc. rewrite Hgate in Hg. rewrite Hg. apply u16_idem. }
        repeat split; [congruence | exact Hk2 | exact Hk3]. }
  destruct (Hinv n s H0) as [Hon Hn].
  destruct (Hstep sn Hon) as (HT & HT2 & HR & Hon' & Hpc & Hmod & Hgate).
  assert (Hnext : ui16Pc (m_rRegs (MasterCycle sn)) = frozen).
  { destruct n as [| n]; [reflexivity |].
    destruct Hn as (Hn1 & Hn2 & Hn3); [lia |].
    rewrite Hpc. unfold frozen, sn. rewrite Hn2, <- Hn1.
    apply jam_pc_fixed. exact Hn3. }
  destruct Hon as (Ztf & Zcur & Zop & Zidx).
  repeat split; try assumption.
  - apply Hn; assumption.
  - apply Hn; assumption.
  - rewrite HR. rewrite <- Hnext, Hpc. reflexivity.
Qed.

End Jammed.

(** *** The unstable stores *)

Lemma land_byte_range (a m : Z) : 0 <= m < 256 -> 0 <= Z.land a m < 256.
Proof.
  intros Hm. rewrite <- (u8_land_byte a m Hm). unfold u8. apply Z.mod_pos_bound. lia.
Qed.

Lemma u16_small (z : Z) : 0 <= z < 256 -> u16 z = z.
Proof. intros H. unfold u16. apply Z.mod_small. lia. Qed.

Lemma u8_small (z : Z) : 0 <= z < 256 -> u8 z = z.
Proof. intros H. unfold u8. apply Z.mod_small. lia. Qed.

Lemma byte_land_255 (v : Z) : 0 <= v < 256 -> Z.land v 255 = v.
Proof. intros H. rewrite <- u8_land_255. apply u8_small. exact H. Qed.

(** The address [lo | val << 8] has [val] as its high byte and [lo] as its
    low byte. *)
Lemma crossed_address (w v : Z) :
  0 <= v < 256 ->
  let addr := Z.lor (lo8 w) (Z.shiftl v 8) in
  hi8 addr = v /\ lo8 addr = lo8 w /\ 0 <= addr < 65536.
Proof.
  intros Hv addr.
  assert (Hhi : hi8 addr = v).
  { unfold hi8, addr, lo8. rewrite <- (byte_land_255 v Hv) at 2.
    apply Z.bits_inj'. intros n Hn.
    rewrite !Z.land_spec, Z.shiftr_spec, Z.lor_spec, Z.land_spec, Z.shiftl_spec by lia.
    rewrite (testbit_255 (n + 8)) by lia.
    replace (n + 8 <? 8) with false by (symmetry; apply Z.ltb_ge; lia).
    rewrite andb_false_r, orb_false_l. replace (n + 8 - 8) with n by lia. reflexivity. }
  assert (Hlo : lo8 addr = lo8 w).
  { unfold addr, lo8. apply Z.bits_inj'. intros n Hn.
    rewrite !Z.land_spec, Z.lor_spec, Z.land_spec, Z.shiftl_spec by lia.
    rewrite testbit_255 by lia.
    destruct (Z.ltb_spec n 8) as [Hlt | Hge].
    - rewrite (Z.testbit_neg_r v (n - 8)) by lia.
      rewrite orb_false_r, !andb_true_r. reflexivity.
    - rewrite !andb_false_r. reflexivity. }
  repeat split; try assumption.
  - unfold addr. apply Z.lor_nonneg. split.
    + unfold lo8. apply Z.land_nonneg. right. lia.
    + apply Z.shiftl_nonneg. lia.
  - assert (Hb : Z.land addr 65535 = addr).
    { apply Z.bits_inj'. intros n Hn. rewrite Z.land_spec.
      change 65535 with (Z.ones 16). rewrite Z.testbit_ones_nonneg by lia.
      destruct (Z.ltb_spec n 16) as [Hlt | Hge]; [apply andb_true_r |].
      rewrite andb_false_r. unfold addr, lo8.
      rewrite Z.lor_spec, Z.land_spec, Z.shiftl_spec, testbit_255 by lia.
      replace (n <? 8) with false by (symmetry; apply Z.ltb_ge; lia).
      rewrite andb_false_r, orb_false_l.
      rewrite <- (byte_land_255 v Hv), Z.land_spec, testbit_255 by lia.
      replace (n - 8 <? 8) with false by (symmetry; apply Z.ltb_ge; lia).
      symmetry. apply andb_false_r. }
    rewrite <- Hb. change 65535 with (Z.ones 16). rewrite Z.land_ones by lia.
    apply Z.mod_pos_bound. lia.
Qed.

Lemma sh_reg_operand (o : ShOp) (s : CCpu6502) (h : Z) :
  sh_reg o s h = Z.land (sh_operand o s) h.
Proof.
  destruct o; cbn.
  - rewrite <- Z.land_assoc. apply Z.land_comm.
  - rewrite <- Z.land_assoc. apply Z.land_comm.
  - apply Z.land_comm.
  - apply Z.land_comm.
Qed.

(** C6: each of SHA, SHS, SHX, SHY makes one bus write.  With no page
    crossed it writes [reg & (H + 1)] at the effective address, H being
    the address's high byte and [reg] being A&X, A&X, X and Y.  With a page
    crossed the byte written is [reg & H], and the address written to keeps
    the low byte of the effective address and has the byte written as its
    high byte.  The registers and the effective address are C++ bytes and
    words. *)
Theorem Sh_store_written (o : ShOp) (_bToAddr : bool) (s : CCpu6502) :
  0 <= ui8A (m_rRegs s) < 256 ->
  0 <= ui8X (m_rRegs s) < 256 ->
  0 <= ui8Y (m_rRegs s) < 256 ->
  0 <= (if _bToAddr then m_ui16Address s else m_ui16Pointer s) < 65536 ->
  let ea := if _bToAddr then m_ui16Address s else m_ui16Pointer s in
  let reg := sh_operand o s in
  let st := sh_store o _bToAddr s in
  sh_phi2 o _bToAddr s =
    LSN_INSTR_END_PHI2 (LSN_FINISH_INST true (bus_Write (u16 (fst st)) (u8 (snd st)) s)) /\
  (m_bBoundaryCrossed s = false ->
     u16 (fst st) = ea /\ u8 (snd st) = Z.land reg (hi8 ea + 1)) /\
  (m_bBoundaryCrossed s = true ->
     u8 (snd st) = Z.land reg (hi8 ea) /\
     hi8 (u16 (fst st)) = u8 (snd st) /\
     lo8 (u16 (fst st)) = lo8 ea) /\
  Sha_Phi2 _bToAddr s = sh_phi2 ShA _bToAddr s /\
  Shx_Phi2 _bToAddr s = sh_phi2 ShX _bToAddr s /\
  Shy_Phi2 _bToAddr s = sh_phi2 ShY _bToAddr s /\
  (let s' := set_m_rRegs
               (set_ui8S (u8 (Z.land (ui8A (m_rRegs s)) (ui8X (m_rRegs s)))) (m_rRegs s)) s in
   Shs_Phi2 _bToAddr s = sh_phi2 ShS _bToAddr s' /\
   sh_store ShS _bToAddr s' = sh_store ShS _bToAddr s).
Proof.
  intros HA HX HY Hea ea reg st.
  assert (Hreg : 0 <= reg < 256).
  { subst reg. destruct o; cbn; try assumption; apply land_byte_range; assumption. }
  assert (Hval : forall h, 0 <= Z.land reg h < 256).
  { intros h. rewrite Z.land_comm. apply land_byte_range. exact Hreg. }
  split; [reflexivity |].
  split; [| split].
  - intros Hc. subst st. unfold sh_store. rewrite Hc. cbn [fst snd]. fold ea.
    rewrite sh_reg_operand. fold reg. split.
    + unfold u16. apply Z.mod_small. exact Hea.
    + rewrite u16_small by apply Hval. apply u8_small, Hval.
  - intros Hc. subst st. unfold sh_store. rewrite Hc. cbn [fst snd]. fold ea.
    rewrite sh_reg_operand. fold reg.
    rewrite (u16_small (Z.land reg (hi8 ea))) by apply Hval.
    rewrite (u8_small (Z.land reg (hi8 ea))) by apply Hval.
    destruct (crossed_address ea (Z.land reg (hi8 ea)) (Hval _)) as (Hhi & Hlo & Hrange).
    cbn zeta in Hhi, Hlo, Hrange.
    assert (Hu : u16 (Z.lor (lo8 ea) (Z.shiftl (Z.land reg (hi8 ea)) 8)) =
                 Z.lor (lo8 ea) (Z.shiftl (Z.land reg (hi8 ea)) 8)).
    { unfold u16. apply Z.mod_small. exact Hrange. }
    rewrite Hu. repeat split; assumption.
  - repeat split.
Qed.

(** *** DMA start *)

(** C8: a write of the byte V to 0x4014 runs [BeginDma( V )]: the DMA
    source becomes [V << 8], the active tick function becomes the idle DMA
    tick function, the saved copy is left as it was, and apart from
    [m_bDmaGo], which is cleared, no other member changes: not the
    registers, not the instruction in progress, not the interrupt lines. *)
Theorem Write4014_begins_dma (V : Z) (s : CCpu6502) :
  0 <= V < 256 ->
  let s' := Write4014 V s in
  m_ui16DmaAddress s' = Z.shiftl V 8 /\
  m_ui16DmaAddress s' = V * 256 /\
  m_pfTickFunc s' = Tick_Dma LSN_DS_IDLE false /\
  m_pfTickFuncCopy s' = m_pfTickFuncCopy s /\
  m_rRegs s' = m_rRegs s /\
  m_bDmaGo s' = false /\
  s' = set_m_bDmaGo false
         (set_m_ui16DmaAddress (V * 256) (set_m_pfTickFunc (Tick_Dma LSN_DS_IDLE false) s)).
Proof.
  intros HV s'.
  assert (Hsh : u16 (Z.shiftl V 8) = V * 256).
  { rewrite Z.shiftl_mul_pow2 by lia. change (2 ^ 8) with 256.
    unfold u16. apply Z.mod_small. lia. }
  assert (Hsh' : Z.shiftl V 8 = V * 256).
  { rewrite Z.shiftl_mul_pow2 by lia. reflexivity. }
  subst s'. unfold Write4014, BeginDma. cbn. rewrite Hsh, Hsh'. repeat split.
Qed.

(** *** The controller port 0x4016 *)

(** Where [ApplyMemoryMap] puts the handlers of this file, whatever the
    address constants are: the last accessor set for an address wins. *)
Lemma ApplyMemoryMap_ports (cpu_start cpu_size ram mem_size : Z) (b : Bus.Slots) :
  let b' := ApplyMemoryMap cpu_start cpu_size ram mem_size b in
  Bus.Writers b' 0x4014 = Bus.MkAccessor Bus.PfWrite4014 0x4014 /\
  Bus.Readers b' 0x4014 = Bus.MkAccessor Bus.PfNoRead 0x4014 /\
  Bus.Readers b' 0x4016 = Bus.MkAccessor Bus.PfRead4016 0 /\
  Bus.Writers b' 0x4016 = Bus.MkAccessor Bus.PfWrite4016 0 /\
  Bus.Readers b' 0x4017 = Bus.MkAccessor Bus.PfRead4017 0 /\
  Bus.FloatMasks b' 0x4015 = 0x00.
Proof. repeat split. Qed.

Lemma at8_insert (l : list Z) (i : nat) (x : Z) :
  (i < length l)%nat -> at8 (<[i := x]> l) i = x.
Proof. intros H. unfold at8. rewrite list_lookup_insert_eq by exact H. reflexivity. Qed.

Lemma at8_insert_ne (l : list Z) (i j : nat) (x : Z) :
  i <> j -> at8 (<[i := x]> l) j = at8 l j.
Proof. intros H. unfold at8. rewrite list_lookup_insert_ne by exact H. reflexivity. Qed.

Lemma Read4016_sized (s : CCpu6502) : inputs_sized s -> inputs_sized (snd (Read4016 s)).
Proof.
  intros (H1 & H2 & H3). unfold inputs_sized, Read4016. cbn.
  rewrite length_insert. repeat split; assumption.
Qed.

Lemma Write4016_sized (v : Z) (s : CCpu6502) : inputs_sized s -> inputs_sized (Write4016 v s).
Proof.
  intros (H1 & H2 & H3). unfold inputs_sized, Write4016.
  destruct (m_pipPoller s) eqn:E; cbn; rewrite E; cbn; rewrite !length_insert;
    repeat split; assumption.
Qed.

Lemma run4016_sized (l : list PortAccess) (s : CCpu6502) :
  inputs_sized s -> inputs_sized (snd (run4016 l s)).
Proof.
  revert s. induction l as [| a l IH]; intros s Hs; [exact Hs |].
  cbn [run4016 snd]. apply IH. destruct a; cbn [access4016 snd].
  - apply Read4016_sized, Hs.
  - apply Write4016_sized, Hs.
Qed.

Lemma Read4016_spec (s : CCpu6502) :
  inputs_sized s ->
  let shift := at8 (m_ui8InputsState s) 0 in
  fst (Read4016 s) = (if Z.testbit shift 7 then 1 else 0) /\
  at8 (m_ui8InputsState (snd (Read4016 s))) 0 = u8 (Z.shiftl shift 1).
Proof.
  intros (_ & H2 & _) shift. unfold Read4016. cbn [fst snd]. fold shift.
  rewrite nonzero_0x80. split; [reflexivity |].
  cbn. apply at8_insert. lia.
Qed.

Lemma Write4016_spec (v : Z) (s : CCpu6502) :
  inputs_sized s ->
  let s' := Write4016 v s in
  at8 (m_ui8InputsState s') 0 = snapshot4016 s /\
  at8 (m_ui8InputsPoll s') 0 = snapshot4016 s /\
  at8 (m_ui8Inputs s') 0 = u8 (Z.lor (Z.land (at8 (m_ui8Inputs s) 0) 0xF8) (Z.land v 0x07)).
Proof.
  intros (H1 & H2 & H3) s'. subst s'. unfold Write4016, snapshot4016.
  destruct (m_pipPoller s) eqn:E; cbn; rewrite E; cbn;
    rewrite !at8_insert by lia; repeat split.
Qed.

(** C7 (as amended): whatever accesses to 0x4016 came before, a read
    returns bit 7 of the controller-1 shift register and leaves the
    register shifted left by one, and a write, whatever its bit 0, loads
    the register with the current button snapshot ([PollPort( 0 )], or 0
    without a poller) and keeps the low three bits written in
    [m_ui8Inputs[0]]. *)
Theorem Port4016_accesses (l : list PortAccess) (s : CCpu6502) :
  inputs_sized s ->
  let s' := snd (run4016 l s) in
  let shift := at8 (m_ui8InputsState s') 0 in
  (fst (Read4016 s') = (if Z.testbit shift 7 then 1 else 0) /\
   at8 (m_ui8InputsState (snd (Read4016 s'))) 0 = u8 (Z.shiftl shift 1)) /\
  (forall v,
     at8 (m_ui8InputsState (Write4016 v s')) 0 = snapshot4016 s' /\
     at8 (m_ui8Inputs (Write4016 v s')) 0 =
       u8 (Z.lor (Z.land (at8 (m_ui8Inputs s') 0) 0xF8) (Z.land v 0x07))).
Proof.
  intros Hs s' shift.
  assert (Hs' : inputs_sized s') by (apply run4016_sized; exact Hs).
  split.
  - apply Read4016_spec. exact Hs'.
  - intros v. destruct (Write4016_spec v s' Hs') as (Ha & _ & Hc). split; assumption.
Qed.

End EngineProps.

(** * Properties of mapper 094 *)

Module Mapper094Props.
Import Bus Mapper094.

Lemma fold_point_update {A : Type} (g : Z -> A) (l : list Z) (f : Z -> A) (a : Z) :
  (forall I, In I l -> u16 I = I) ->
  (In a l -> foldl (fun acc I => point_update (u16 I) (g I) acc) f l a = g a) /\
  (~ In a l -> foldl (fun acc I => point_update (u16 I) (g I) acc) f l a = f a).
Proof.
  induction l as [| x l IH] using rev_ind; intros Hr.
  - split; [intros [] | reflexivity].
  - rewrite foldl_app. cbn [foldl]. unfold point_update at 1 3.
    assert (Hx : u16 x = x) by (apply Hr, in_or_app; right; left; reflexivity).
    assert (Hl : forall I, In I l -> u16 I = I)
      by (intros I HI; apply Hr, in_or_app; left; exact HI).
    destruct (IH Hl) as [IH1 IH2]. rewrite Hx.
    destruct (Z.eqb_spec a x) as [-> | Hne].
    + split; [reflexivity |]. intros Hn. exfalso. apply Hn, in_or_app. right. left. reflexivity.
    + split.
      * intros Hin. apply in_app_or in Hin. destruct Hin as [Hin | [Hin | []]].
        -- apply IH1, Hin.
        -- congruence.
      * intros Hn. apply IH2. intros Hin. apply Hn, in_or_app. left. exact Hin.
Qed.

Lemma In_seqZ (a lo hi : Z) : In a (seqZ lo (hi - lo)) <-> lo <= a < hi.
Proof. rewrite <- list_elem_of_In, elem_of_seqZ. lia. Qed.

Lemma readers_loop (pf : PfReadFunc) (parm : Z -> Z) (l : list Z) (b : Slots) :
  Readers (foldl (fun acc I => SetReadFunc (u16 I) pf (parm I) acc) b l) =
    foldl (fun acc I => point_update (u16 I) (MkAccessor pf (parm I)) acc) (Readers b) l /\
  Writers (foldl (fun acc I => SetReadFunc (u16 I) pf (parm I) acc) b l) = Writers b.
Proof.
  revert b. induction l as [| x l IH]; intros b; [split; reflexivity |].
  cbn [foldl]. destruct (IH (SetReadFunc (u16 x) pf (parm x) b)) as [-> ->].
  split; reflexivity.
Qed.

Lemma writers_loop (pf : PfWriteFunc) (parm : Z -> Z) (l : list Z) (b : Slots) :
  Writers (foldl (fun acc I => SetWriteFunc (u16 I) pf (parm I) acc) b l) =
    foldl (fun acc I => point_update (u16 I) (MkAccessor pf (parm I)) acc) (Writers b) l /\
  Readers (foldl (fun acc I => SetWriteFunc (u16 I) pf (parm I) acc) b l) = Readers b.
Proof.
  revert b. induction l as [| x l IH]; intros b; [split; reflexivity |].
  cbn [foldl]. destruct (IH (SetWriteFunc (u16 x) pf (parm x) b)) as [-> ->].
  split; reflexivity.
Qed.

Lemma Ppu_writers_loop (pf : PfWriteFunc) (parm : Z -> Z) (l : list Z) (b : CPpuBus) :
  Writers (PpuSlots (foldl (fun acc I => Ppu_SetWriteFunc (u16 I) pf (parm I) acc) b l)) =
    foldl (fun acc I => point_update (u16 I) (MkAccessor pf (parm I)) acc)
      (Writers (PpuSlots b)) l /\
  PpuRam (foldl (fun acc I => Ppu_SetWriteFunc (u16 I) pf (parm I) acc) b l) = PpuRam b.
Proof.
  revert b. induction l as [| x l IH]; intros b; [split; reflexivity |].
  cbn [foldl]. destruct (IH (Ppu_SetWriteFunc (u16 x) pf (parm x) b)) as [-> ->].
  split; reflexivity.
Qed.

Lemma u16_word (z : Z) : 0 <= z < 65536 -> u16 z = z.
Proof. intros H. unfold u16. apply Z.mod_small. exact H. Qed.

Section Wired.
Variables LSN_PPU_PATTERN_TABLES LSN_PPU_NAMETABLES LSN_PPU_PATTERN_TABLE_SIZE : Z.
Abbreviation ApplyMap :=
  (ApplyMap LSN_PPU_PATTERN_TABLES LSN_PPU_NAMETABLES LSN_PPU_PATTERN_TABLE_SIZE).

(** What [ApplyMap] leaves in the slots and in the mapper. *)
Lemma ApplyMap_slots (c : Cartridge) :
  (forall a, 0xC000 <= a < 0x10000 ->
     Readers (CpuBus (ApplyMap c)) a = MkAccessor PfPgmBankRead_Fixed (a - 0xC000)) /\
  (forall a, 0x8000 <= a < 0xC000 ->
     Readers (CpuBus (ApplyMap c)) a = MkAccessor PfPgmBankRead_4000 (a - 0x8000)) /\
  (forall a, 0x8000 <= a < 0x10000 ->
     Writers (CpuBus (ApplyMap c)) a = MkAccessor PfSelectBank 0) /\
  (0 <= LSN_PPU_PATTERN_TABLES -> LSN_PPU_NAMETABLES <= 0x10000 ->
   forall a, LSN_PPU_PATTERN_TABLES <= a < LSN_PPU_NAMETABLES ->
     Writers (PpuSlots (PpuBus (ApplyMap c))) a =
       MkAccessor PfStdWrite
         (u16 ((a - LSN_PPU_PATTERN_TABLES) mod LSN_PPU_PATTERN_TABLE_SIZE
               + LSN_PPU_PATTERN_TABLES))) /\
  PpuRam (PpuBus (ApplyMap c)) = PpuRam (PpuBus c) /\
  Mapper (ApplyMap c) =
    MkMapper (m_prRom (Mapper c)) (Z.max (PrgSize (m_prRom (Mapper c))) 0x4000 - 0x4000)
      (m_ui8PgmBank (Mapper c)) (m_ui8Mask (Mapper c)).
Proof.
  unfold Mapper094.ApplyMap, for_range. cbn [CpuBus PpuBus Mapper].
  set (l1 := seqZ 0xC000 (0x10000 - 0xC000)).
  set (l2 := seqZ 0x8000 (0xC000 - 0x8000)).
  set (l3 := seqZ 0x8000 (0x10000 - 0x8000)).
  set (l4 := seqZ LSN_PPU_PATTERN_TABLES (LSN_PPU_NAMETABLES - LSN_PPU_PATTERN_TABLES)).
  assert (R1 : forall I, In I l1 -> u16 I = I)
    by (intros I HI; apply In_seqZ in HI; apply u16_word; lia).
  assert (R2 : forall I, In I l2 -> u16 I = I)
    by (intros I HI; apply In_seqZ in HI; apply u16_word; lia).
  assert (R3 : forall I, In I l3 -> u16 I = I)
    by (intros I HI; apply In_seqZ in HI; apply u16_word; lia).
  repeat split.
  - intros a Ha.
    rewrite (proj2 (writers_loop _ _ _ _)), (proj1 (readers_loop _ _ _ _)).
    rewrite (proj2 (fold_point_update _ l2 _ a R2))
      by (intros HI; apply In_seqZ in HI; lia).
    rewrite (proj1 (readers_loop _ _ _ _)).
    rewrite (proj1 (fold_point_update _ l1 _ a R1)) by (apply In_seqZ; lia).
    rewrite u16_word by lia. reflexivity.
  - intros a Ha.
    rewrite (proj2 (writers_loop _ _ _ _)), (proj1 (readers_loop _ _ _ _)).
    rewrite (proj1 (fold_point_update _ l2 _ a R2)) by (apply In_seqZ; lia).
    rewrite u16_word by lia. reflexivity.
  - intros a Ha.
    rewrite (proj1 (writers_loop _ (fun _ => 0) _ _)).
    rewrite (proj1 (fold_point_update _ l3 _ a R3)) by (apply In_seqZ; lia).
    reflexivity.
  - intros Hlo Hhi a Ha.
    assert (R4 : forall I, In I l4 -> u16 I = I)
      by (intros I HI; apply In_seqZ in HI; apply u16_word; lia).
    rewrite (proj1 (Ppu_writers_loop _ _ _ _)).
    rewrite (proj1 (fold_point_update _ l4 _ a R4)) by (apply In_seqZ; lia).
    reflexivity.
  - rewrite (proj2 (Ppu_writers_loop _ _ _ _)). reflexivity.
Qed.

Lemma u8_le (y : Z) : 0 <= y -> 0 <= u8 y <= y.
Proof.
  intros Hy. unfold u8. split.
  - apply Z.mod_pos_bound. lia.
  - apply Z.mod_le; lia.
Qed.

Lemma bank_bits (v : Z) : 0 <= Z.shiftr (Z.land v 0x1C) 2 < 256.
Proof.
  assert (H : 0 <= Z.land v 0x1C < 256) by (apply land_byte_range; lia).
  rewrite Z.shiftr_div_pow2 by lia. change (2 ^ 2) with 4. split.
  - apply Z.div_pos; lia.
  - apply Z.div_lt_upper_bound; lia.
Qed.

(** [SelectBank] divides by [vPrgRom.size() / 0x4000] without looking
    at it.  With a PRG ROM of at least 0x4000 bytes the divisor is positive
    and the bank register it leaves is below the bank count (and, the mask
    being the 0b11100 of [InitWithRom], equals
    [((value & 0b11100) >> 2) % banks]); with a smaller PRG ROM the
    divisor is zero and the expression has no value, whatever is
    written. *)
Lemma SelectBank_cases (_ui8Val : Z) (m : CMapper094) :
  let size := PrgSize (m_prRom m) in
  let banks := size / 0x4000 in
  (0x4000 <= size ->
     0 < banks /\
     exists m', SelectBank _ui8Val m = Some m' /\
       0 <= m_ui8PgmBank m' < banks /\
       (m_ui8Mask m = 0x1C ->
          m_ui8PgmBank m' = Z.shiftr (Z.land _ui8Val 0x1C) 2 mod banks) /\
       m_prRom m' = m_prRom m /\ m_stFixedOffset m' = m_stFixedOffset m /\
       m_ui8Mask m' = m_ui8Mask m) /\
  (size < 0x4000 -> banks = 0 /\ SelectBank _ui8Val m = None).
Proof.
  intros size banks. split.
  - intros Hsize.
    assert (Hb : 0 < banks).
    { subst banks. apply Z.div_str_pos. lia. }
    split; [exact Hb |].
    unfold SelectBank. fold size. fold banks.
    destruct (Z.eqb_spec banks 0) as [E | _]; [lia |].
    eexists. split; [reflexivity |]. cbn.
    set (x := Z.shiftr (Z.land _ui8Val (m_ui8Mask m)) 2 mod banks).
    assert (Hx : 0 <= x < banks) by (apply Z.mod_pos_bound; exact Hb).
    repeat split.
    + apply u8_le. lia.
    + pose proof (u8_le x) as H. lia.
    + intros Hmask. subst x. rewrite Hmask.
      pose proof (bank_bits _ui8Val) as Hbits.
      apply u8_small. split.
      * apply Z.mod_pos_bound. exact Hb.
      * pose proof (Z.mod_le (Z.shiftr (Z.land _ui8Val 0x1C) 2) banks). lia.
  - intros Hsize.
    assert (Hb : banks = 0).
    { subst banks. apply Z.div_small. unfold size, PrgSize in *. lia. }
    split; [exact Hb |].
    unfold SelectBank. fold size. fold banks. rewrite Hb. reflexivity.
Qed.

Lemma CpuBus_Write_wired (rom : LSN_ROM) (c0 c : Cartridge) (addr val : Z) :
  0x4000 <= PrgSize rom ->
  (forall a, 0x8000 <= a < 0x10000 -> Writers (CpuBus c0) a = MkAccessor PfSelectBank 0) ->
  0x8000 <= addr < 0x10000 ->
  wired rom c0 c ->
  exists c', CpuBus_Write addr val c = Done c' /\ wired rom c0 c' /\
    m_ui8PgmBank (Mapper c') = Z.shiftr (Z.land val 0x1C) 2 mod (PrgSize rom / 0x4000).
Proof.
  intros Hsize Hw Ha (Hcb & Hpb & Hrom & Hfix & Hmask & Hbank).
  unfold CpuBus_Write. rewrite Hcb, (Hw addr Ha). cbn [pfFunc].
  destruct (SelectBank_cases val (Mapper c)) as [Hsel _]. rewrite Hrom in Hsel.
  destruct (Hsel Hsize) as (_ & m' & -> & Hb & Hv & Hr & Hf & Hm).
  eexists. split; [reflexivity |]. split.
  - unfold wired. cbn [CpuBus PpuBus Mapper]. repeat split; try congruence; apply Hb.
  - cbn [Mapper]. apply Hv, Hmask.
Qed.

Lemma CpuBus_Writes_wired (rom : LSN_ROM) (c0 : Cartridge) (ws : list (Z * Z)) (c : Cartridge) :
  0x4000 <= PrgSize rom ->
  (forall a, 0x8000 <= a < 0x10000 -> Writers (CpuBus c0) a = MkAccessor PfSelectBank 0) ->
  Forall (fun w => 0x8000 <= fst w < 0x10000) ws ->
  wired rom c0 c ->
  exists c', CpuBus_Writes ws c = Done c' /\ wired rom c0 c' /\
    m_ui8PgmBank (Mapper c') =
      match last ws with
      | Some w => Z.shiftr (Z.land (snd w) 0x1C) 2 mod (PrgSize rom / 0x4000)
      | None => m_ui8PgmBank (Mapper c)
      end.
Proof.
  intros Hsize Hw Hws. revert c.
  induction Hws as [| [addr val] ws Ha Hws IH]; intros c Hc.
  - exists c. split; [reflexivity | split; [exact Hc | reflexivity]].
  - cbn [CpuBus_Writes].
    destruct (CpuBus_Write_wired rom c0 c addr val Hsize Hw Ha Hc) as (c1 & -> & Hc1 & Hb1).
    destruct (IH c1 Hc1) as (c' & -> & Hc' & Hb').
    exists c'. split; [reflexivity |]. split; [exact Hc' |].
    rewrite Hb', last_cons. destruct (last ws); [reflexivity | exact Hb1].
Qed.

(** C9: after [InitWithRom] and [ApplyMap] on a PRG ROM of at least
    16 KiB, and then any sequence of CPU writes into 0x8000-0xFFFF: every
    such write ran [SelectBank] and changed nothing but the bank register,
    which holds [((value & 0b11100) >> 2) % banks] of the last write (0
    before the first) and so stays below the bank count; a read from
    0xC000-0xFFFF is served from the last 16 KiB of the PRG ROM; a read
    from 0x8000-0xBFFF is served from the 16 KiB bank in the register; and
    a PPU write into the pattern-table range lands in the PPU bus's memory
    through the standard write handler. *)
Theorem Mapper094_wiring (rom : LSN_ROM) (m0 : CMapper094) (cb : Slots) (pb : CPpuBus)
    (ws : list (Z * Z)) :
  0x4000 <= PrgSize rom ->
  Forall (fun w => 0x8000 <= fst w < 0x10000) ws ->
  0 <= LSN_PPU_PATTERN_TABLES ->
  LSN_PPU_NAMETABLES <= 0x10000 ->
  0 < LSN_PPU_PATTERN_TABLE_SIZE ->
  let c0 := ApplyMap (MkCartridge (InitWithRom rom m0) cb pb) in
  let banks := PrgSize rom / 0x4000 in
  exists c,
    CpuBus_Writes ws c0 = Done c /\
    CpuBus c = CpuBus c0 /\ PpuBus c = PpuBus c0 /\
    m_prRom (Mapper c) = rom /\
    m_stFixedOffset (Mapper c) = m_stFixedOffset (Mapper c0) /\
    m_ui8Mask (Mapper c) = m_ui8Mask (Mapper c0) /\
    m_ui8PgmBank (Mapper c) =
      match last ws with
      | Some w => Z.shiftr (Z.land (snd w) 0x1C) 2 mod banks
      | None => 0
      end /\
    0 <= m_ui8PgmBank (Mapper c) < banks /\
    (forall a, 0xC000 <= a < 0x10000 ->
       CpuBus_Read a c = Done (PrgAt rom (PrgSize rom - 0x4000 + (a - 0xC000)))) /\
    (forall a, 0x8000 <= a < 0xC000 ->
       CpuBus_Read a c = Done (PrgAt rom (m_ui8PgmBank (Mapper c) * 0x4000 + (a - 0x8000))) /\
       0 <= m_ui8PgmBank (Mapper c) * 0x4000 + (a - 0x8000) < PrgSize rom) /\
    (forall a v, LSN_PPU_PATTERN_TABLES <= a < LSN_PPU_NAMETABLES ->
       let cell := (a - LSN_PPU_PATTERN_TABLES) mod LSN_PPU_PATTERN_TABLE_SIZE
                   + LSN_PPU_PATTERN_TABLES in
       LSN_PPU_PATTERN_TABLES <= cell <= a /\
       exists c', PpuBus_Write a v c = Done c' /\
         PpuRam (PpuBus c') cell = u8 v /\
         Mapper c' = Mapper c /\ CpuBus c' = CpuBus c).
Proof.
  intros Hsize Hws Hpt Hnt Hps c0 banks.
  destruct (ApplyMap_slots (MkCartridge (InitWithRom rom m0) cb pb))
    as (Hfixed & Hbanked & Hwrite & Hppu & _ & Hmap).
  fold c0 in Hfixed, Hbanked, Hwrite, Hppu, Hmap.
  cbn [Mapper InitWithRom CMapperBase_InitWithRom m_prRom m_ui8PgmBank m_ui8Mask
       m_stFixedOffset] in Hmap.
  assert (Hmax : Z.max (PrgSize rom) 0x4000 - 0x4000 = PrgSize rom - 0x4000) by lia.
  rewrite Hmax in Hmap.
  assert (Hb : 0 < banks) by (subst banks; apply Z.div_str_pos; lia).
  assert (H0 : wired rom c0 c0).
  { unfold wired. rewrite Hmap. cbn. repeat split; lia. }
  destruct (CpuBus_Writes_wired rom c0 ws c0 Hsize Hwrite Hws H0) as (c & Hrun & Hc & Hbank).
  destruct Hc as (Hcb & Hpb & Hrom & Hfix & Hmask & Hrange).
  assert (Hbank0 : m_ui8PgmBank (Mapper c0) = 0) by (rewrite Hmap; reflexivity).
  rewrite Hbank0 in Hbank.
  exists c. split; [exact Hrun |].
  split; [exact Hcb |]. split; [exact Hpb |]. split; [exact Hrom |].
  split; [rewrite Hfix, Hmap; reflexivity |].
  split; [rewrite Hmask, Hmap; reflexivity |].
  split; [exact Hbank |]. split; [exact Hrange |].
  split; [| split].
  - intros a Ha. unfold CpuBus_Read. rewrite Hcb, (Hfixed a Ha). cbn [pfFunc ui16Parm].
    unfold PgmBankRead_Fixed. rewrite Hrom, Hfix. f_equal. f_equal. lia.
  - intros a Ha. split.
    + unfold CpuBus_Read. rewrite Hcb, (Hbanked a Ha). cbn [pfFunc ui16Parm].
      unfold PgmBankRead_4000. rewrite Hrom. f_equal. f_equal. lia.
    + fold banks in Hrange.
      assert (Hd : 0x4000 * banks <= PrgSize rom)
        by (subst banks; apply Z.mul_div_le; lia).
      nia.
  - intros a v Ha cell.
    assert (Hm : 0 <= (a - LSN_PPU_PATTERN_TABLES) mod LSN_PPU_PATTERN_TABLE_SIZE
                 <= a - LSN_PPU_PATTERN_TABLES).
    { split; [apply Z.mod_pos_bound; lia | apply Z.mod_le; lia]. }
    split; [subst cell; lia |].
    unfold PpuBus_Write. rewrite Hpb, (Hppu Hpt Hnt a Ha). cbn [pfFunc ui16Parm].
    eexists. split; [reflexivity |]. cbn [PpuBus PpuRam Mapper CpuBus].
    repeat split.
    fold cell. rewrite u16_word by (subst cell; lia).
    unfold point_update. rewrite Z.eqb_refl. reflexivity.
Qed.

(** C10: [SelectBank] computes [((value & 0b11100) >> 2) % banks] with
    [banks = vPrgRom.size() / 0x4000] and no guard.  With a PRG ROM of at
    least 0x4000 bytes the divisor is positive and, for every value
    written, the bank register left behind is below the bank count; with a
    smaller PRG ROM, which [InitWithRom] accepts as well, the divisor is
    zero and the expression has no value, whatever is written. *)
Theorem SelectBank_in_range (_ui8Val : Z) (rom : LSN_ROM) (m0 : CMapper094) :
  let m := InitWithRom rom m0 in
  let banks := PrgSize rom / 0x4000 in
  (0x4000 <= PrgSize rom ->
     0 < banks /\
     exists m', SelectBank _ui8Val m = Some m' /\
       m_ui8PgmBank m' = Z.shiftr (Z.land _ui8Val 0x1C) 2 mod banks /\
       0 <= m_ui8PgmBank m' < banks) /\
  (PrgSize rom < 0x4000 -> banks = 0 /\ SelectBank _ui8Val m = None).
Proof.
  intros m banks.
  destruct (SelectBank_cases _ui8Val m) as [Hbig Hsmall].
  cbn [m InitWithRom CMapperBase_InitWithRom m_prRom m_ui8Mask] in Hbig, Hsmall. split.
  - intros Hsize. destruct (Hbig Hsize) as (Hb & m' & Hsel & Hrange & Hval & _).
    split; [exact Hb |]. exists m'. split; [exact Hsel |].
    split; [apply Hval; reflexivity | exact Hrange].
  - exact Hsmall.
Qed.

End Wired.

End Mapper094Props.

(** * Worked examples on the small machine *)

Module Examples.
Import Demo Bus Mapper094.

#[local] Existing Instance demo_ext.
#[local] Existing Instance emulator_hooks.
#[local] Existing Instance emulator_ticks.

(** A master cycle with the IRQ line held, an NMI edge arriving and the
    IRQ latch set from the cycle before: the mapper sees the latch handed
    over and cleared, one cycle function runs in each half, and the lines
    are sampled after the second. *)
Lemma Tick_TickPhi2_sequence_witness :
  let s := set_m_bIrqSeenLowPhi2 true (Irq (Nmi cpu0)) in
  LSN_CPU_VERIFY = false /\
  m_ciCycle (Tick s) = [EvMapperTick true false; EvPhi1 true] /\
  m_ciCycle (TickPhi2 (Tick s)) = [EvMapperTick true false; EvPhi1 true; EvRead 0x8000] /\
  m_bDetectedNmi (TickPhi2 (Tick s)) = true /\
  m_bLastNmiStatusLine (TickPhi2 (Tick s)) = true /\
  m_bIrqSeenLowPhi2 (TickPhi2 (Tick s)) = true /\
  m_ui64CycleCount (TickPhi2 (Tick s)) = 8.
Proof.
  intros s. split; [reflexivity |].
  destruct (Tick_TickPhi2_sequence (hooks := emulator_hooks) (ticks := emulator_ticks)
              s eq_refl) as [(_ & _ & HT) _].
  destruct (Tick_TickPhi2_sequence (hooks := emulator_hooks) (ticks := emulator_ticks)
              (Tick s) eq_refl) as [_ (Hnmi & Hlast & Hseen & Hcount & Hrest)].
  cbn zeta in HT, Hnmi, Hlast, Hseen, Hcount, Hrest.
  split; [rewrite HT; reflexivity |].
  split; [rewrite Hrest; reflexivity |].
  split; [rewrite Hnmi; reflexivity |].
  split; [rewrite Hlast; reflexivity |].
  split; [rewrite Hseen; reflexivity | rewrite Hcount; reflexivity].
Defined.

(** The fetch of the byte 0x02 at 0x8000, once with nothing pending and
    once with an NMI to handle. *)
Lemma Fetch_Opcode_IncPc_Phi2_dispatch_witness :
  let quiet := cpu_at 0xEA 0 regs0 0 0 false false false false 0 in
  let nmi := cpu_at 0xEA 0 regs0 0 0 false false true false 0 in
  LSN_CPU_VERIFY = false /\
  (m_ui16OpCode (Fetch_Opcode_IncPc_Phi2 quiet) = 0x02 /\
   m_ui16PcModify (Fetch_Opcode_IncPc_Phi2 quiet) = 1 /\
   m_pfCurInstruction (Fetch_Opcode_IncPc_Phi2 quiet) = demo_table 0x02 /\
   ui16Pc (m_rRegs (LSN_UPDATE_PC (Fetch_Opcode_IncPc_Phi2 quiet))) = 0x8001) /\
  (m_ui16OpCode (Fetch_Opcode_IncPc_Phi2 nmi) = 0x00 /\
   m_ui16PcModify (Fetch_Opcode_IncPc_Phi2 nmi) = 0 /\
   m_bAllowWritingToPc (Fetch_Opcode_IncPc_Phi2 nmi) = false /\
   ui16Pc (m_rRegs (LSN_UPDATE_PC (Fetch_Opcode_IncPc_Phi2 nmi))) = 0x8000 /\
   m_bAllowWritingToPc (SetBrkFlags (SelectBrkVectors (Fetch_Opcode_IncPc_Phi2 nmi))) = true /\
   m_bAllowWritingToPc (SelectBrkVectors (Fetch_Opcode_IncPc_Phi2 nmi)) = false /\
   m_vBrkVector (SelectBrkVectors (Fetch_Opcode_IncPc_Phi2 nmi)) = LSN_V_NMI /\
   ui16Pc (m_rRegs (LSN_UPDATE_PC (SelectBrkVectors (Fetch_Opcode_IncPc_Phi2 nmi)))) = 0x8000).
Proof.
  intros quiet nmi. split; [reflexivity |].
  destruct (Fetch_Opcode_IncPc_Phi2_dispatch (hooks := emulator_hooks) quiet eq_refl)
    as (Hq & _ & _ & _).
  destruct (Fetch_Opcode_IncPc_Phi2_dispatch (hooks := emulator_hooks) nmi eq_refl)
    as (_ & Hn & _ & _).
  cbn zeta in Hq, Hn.
  destruct (Hq eq_refl) as (Q1 & Q2 & Q3 & _ & Q5).
  destruct (Hn eq_refl) as (N1 & _ & N3 & N4 & N5 & N6 & N7 & N8 & N9 & _).
  split.
  - split; [rewrite Q1; reflexivity |]. split; [exact Q3 |].
    split; [rewrite Q2; reflexivity | rewrite (Q5 eq_refl); reflexivity].
  - split; [exact N1 |]. split; [exact N3 |]. split; [exact N4 |].
    split; [rewrite N5; reflexivity |]. split; [exact N7 |]. split; [exact N6 |].
    split; [rewrite N8; reflexivity | rewrite N9; reflexivity].
Defined.

(** C2, the claim as stated: once the vector-selection step has run,
    writing to PC should be enabled again; with an NMI to handle the gate
    is still closed after [SelectBrkVectors], and a pending increment
    would still be dropped. *)
Lemma SelectBrkVectors_leaves_gate_closed :
  let nmi := cpu_at 0xEA 0 regs0 0 0 false false true false 0 in
  let selected := SelectBrkVectors (Fetch_Opcode_IncPc_Phi2 nmi) in
  LSN_CPU_VERIFY = false /\
  m_bHandleNmi nmi = true /\
  m_vBrkVector selected = LSN_V_NMI /\
  m_bAllowWritingToPc selected = false /\
  ui16Pc (m_rRegs (LSN_UPDATE_PC (set_m_ui16PcModify 1 selected))) = 0x8000 /\
  m_bAllowWritingToPc selected <> spec_pc_gate_after_vector_selection.
Proof.
  intros nmi selected. repeat split. intros H. vm_compute in H. discriminate H.
Qed.



(** ANE and LXA on A = 0x00, X = 0xFF, operand 0xFF, in the emulator
    build. *)
Lemma Ane_Lxa_result_witness :
  let ane := cpu_at 0x8B 3 regs_ane 0xFF 0 false false false false 0 in
  let lxa := cpu_at 0xAB 3 regs_ane 0xFF 0 false false false false 0 in
  (forall t, m_rRegs (BeginInst t) = m_rRegs t /\ m_ui8Operand (BeginInst t) = m_ui8Operand t) /\
  0 <= m_ui8Operand ane < 256 /\
  ui8A (m_rRegs (Ane_IncPc_BeginInst ane)) = 0xEE /\
  ui8A (m_rRegs (Lxa_IncPc_BeginInst lxa)) = 0xFF /\
  ui8X (m_rRegs (Lxa_IncPc_BeginInst lxa)) = 0xFF /\
  Z.testbit (ui8Status (m_rRegs (Ane_IncPc_BeginInst ane))) 7 = true /\
  Z.testbit (ui8Status (m_rRegs (Ane_IncPc_BeginInst ane))) 1 = false.
Proof.
  intros ane lxa.
  assert (Hframe : forall t : CCpu6502,
            m_rRegs (BeginInst t) = m_rRegs t /\ m_ui8Operand (BeginInst t) = m_ui8Operand t).
  { intros t. destruct t. split; reflexivity. }
  assert (Hop : 0 <= m_ui8Operand ane < 256) by (cbn; lia).
  split; [exact Hframe |]. split; [exact Hop |].
  destruct (Ane_Lxa_result (hooks := emulator_hooks) ane Hframe Hop) as [(HA & _ & HF) _].
  destruct (Ane_Lxa_result (hooks := emulator_hooks) lxa Hframe Hop) as [_ (LA & LX & _)].
  cbn zeta in HA, HF, LA, LX.
  split; [exact HA |]. split; [exact LA |]. split; [exact LX |].
  split; [rewrite (HF 7) by lia; reflexivity | rewrite (HF 1) by lia; reflexivity].
Defined.

(** The same two steps in the verification build: both use 0xEE. *)
Lemma Ane_Lxa_in_verification_build :
  let ane := cpu_at 0x8B 3 regs_ane 0xFF 0 false false false false 0 in
  let lxa := cpu_at 0xAB 3 regs_ane 0xFF 0 false false false false 0 in
  ui8A (m_rRegs (Ane_IncPc_BeginInst (hooks := demo_hooks true) ane)) = 0xEE /\
  ui8A (m_rRegs (Lxa_IncPc_BeginInst (hooks := demo_hooks true) lxa)) = 0xEE /\
  ui8X (m_rRegs (Lxa_IncPc_BeginInst (hooks := demo_hooks true) lxa)) = 0xEE.
Proof. repeat split. Qed.

(** C4, the claim as stated: with the switch off the specification's
    constant is 0xFF, so it expects ANE to leave 0xFF in A here; the code
    leaves 0xEE. *)
Lemma Ane_constant_is_not_switched :
  let ane := cpu_at 0x8B 3 regs_ane 0xFF 0 false false false false 0 in
  LSN_CPU_VERIFY = false /\
  spec_ANE LSN_CPU_VERIFY (ui8A regs_ane) (ui8X regs_ane) (m_ui8Operand ane) = 0xFF /\
  ui8A (m_rRegs (Ane_IncPc_BeginInst ane)) = 0xEE /\
  ui8A (m_rRegs (Ane_IncPc_BeginInst ane)) <>
    spec_ANE LSN_CPU_VERIFY (ui8A regs_ane) (ui8X regs_ane) (m_ui8Operand ane).
Proof.
  intros ane. repeat split. intros H. vm_compute in H. discriminate H.
Qed.

(** JAM fetched at 0x8000: the first [Jam] takes the pending increment
    back, and from then on every cycle reads 0x8000 again. *)
Lemma Jam_never_advances_witness :
  (forall t, sequencer (Mapper_Tick t) = sequencer t) /\
  (forall a t, sequencer (snd (bus_Read a t)) = sequencer t) /\
  (forall u, call_tick (m_pfTickFunc cpu0) u = Tick_InstructionCycle u) /\
  m_pfCurInstruction cpu0 !! Z.to_nat (m_ui8FuncIndex cpu0) = Some PfJam /\
  m_pfCurInstruction cpu0 !! Z.to_nat (m_ui8FuncIndex cpu0 + 1) = Some PfJam_Phi2 /\
  0 <= m_ui8FuncIndex cpu0 < 255 /\
  ui16Pc (m_rRegs (MasterCycle cpu0)) = 0x7FFF /\
  ui16Pc (m_rRegs (MasterCycles 5 cpu0)) = 0x7FFF /\
  m_ui8FuncIndex (MasterCycles 5 cpu0) = 1 /\
  m_ui16OpCode (MasterCycles 5 cpu0) = 0x02 /\
  ui16Pc (m_rRegs (MasterCycles 6 cpu0)) = 0x7FFF /\
  m_ciCycle (MasterCycles 3 cpu0) =
    [EvMapperTick false false; EvPhi1 true; EvRead 0x8000;
     EvMapperTick false false; EvPhi1 true; EvRead 0x8000;
     EvMapperTick false false; EvPhi1 true; EvRead 0x8000].
Proof.
  assert (Hm : forall t : CCpu6502, sequencer (Mapper_Tick t) = sequencer t).
  { intros t. destruct t. reflexivity. }
  assert (Hr : forall (a : Z) (t : CCpu6502), sequencer (snd (bus_Read a t)) = sequencer t).
  { intros a t. destruct t. cbn. destruct (a =? 16406); reflexivity. }
  assert (Hd : forall u : CCpu6502,
            call_tick (m_pfTickFunc cpu0) u = Tick_InstructionCycle u).
  { intros u. reflexivity. }
  assert (Hi : 0 <= m_ui8FuncIndex cpu0 < 255) by (cbn; lia).
  split; [exact Hm |]. split; [exact Hr |]. split; [exact Hd |].
  split; [reflexivity |]. split; [reflexivity |]. split; [exact Hi |].
  destruct (Jam_never_advances (hooks := emulator_hooks) (ticks := emulator_ticks)
              Hm Hr cpu0 5 Hd eq_refl eq_refl Hi)
    as (_ & _ & Hop & Hidx & Hpc & _ & _ & _ & Hnext).
  cbn zeta in Hop, Hidx, Hpc, Hnext.
  destruct Hpc as [Hpc _]; [lia |].
  split; [reflexivity |]. split; [rewrite Hpc; reflexivity |].
  split; [rewrite Hidx; reflexivity |]. split; [rewrite Hop; reflexivity |].
  split; [| reflexivity].
  change (MasterCycles 6 cpu0) with (MasterCycle (MasterCycles 5 cpu0)).
  rewrite Hnext. reflexivity.
Defined.

(** SHX on the effective address 0x12FE with X = 0xF0, without and with a
    page crossing. *)
Lemma Sh_store_written_witness :
  let flat := cpu_at 0x9E 4 regs0 0 0x12FE false false false false 0 in
  let crossed := cpu_at 0x9E 4 regs0 0 0x12FE true false false false 0 in
  0 <= ui8A regs0 < 256 /\ 0 <= ui8X regs0 < 256 /\ 0 <= ui8Y regs0 < 256 /\
  0 <= m_ui16Address flat < 65536 /\
  m_ciCycle (Shx_Phi2 true flat) = [EvWrite 0x12FE 0x10; EvFinishInst true] /\
  m_ciCycle (Shx_Phi2 true crossed) = [EvWrite 0x10FE 0x10; EvFinishInst true].
Proof.
  intros flat crossed.
  assert (HA : 0 <= ui8A regs0 < 256) by (cbn; lia).
  assert (HX : 0 <= ui8X regs0 < 256) by (cbn; lia).
  assert (HY : 0 <= ui8Y regs0 < 256) by (cbn; lia).
  assert (HE : 0 <= m_ui16Address flat < 65536) by (cbn; lia).
  split; [exact HA |]. split; [exact HX |]. split; [exact HY |]. split; [exact HE |].
  destruct (Sh_store_written (hooks := emulator_hooks) ShX true flat HA HX HY HE)
    as (Hw & Hflat & _ & _ & Hx & _).
  destruct (Sh_store_written (hooks := emulator_hooks) ShX true crossed HA HX HY HE)
    as (Hw' & _ & Hcross & _ & Hx' & _).
  cbn zeta in Hw, Hflat, Hx, Hw', Hcross, Hx'.
  destruct (Hflat eq_refl) as [Fa Fv]. destruct (Hcross eq_refl) as (Cv & _ & _).
  split.
  - rewrite Hx, Hw, Fa, Fv. reflexivity.
  - rewrite Hx', Hw', Cv. reflexivity.
Defined.

(** The port after a write and three reads: the snapshot 0xA5 comes out
    most-significant bit first. *)
Lemma Port4016_accesses_witness :
  inputs_sized cpu0 /\
  fst (run4016 [PortWrite 1; PortRead; PortRead; PortRead] cpu0) = [1; 0; 1] /\
  fst (Read4016 (snd (run4016 [PortWrite 1; PortRead; PortRead; PortRead] cpu0))) = 0 /\
  at8 (m_ui8InputsState
         (Write4016 0 (snd (run4016 [PortWrite 1; PortRead; PortRead; PortRead] cpu0)))) 0
    = 0xA5.
Proof.
  assert (Hs : inputs_sized cpu0) by (repeat split).
  split; [exact Hs |]. split; [reflexivity |].
  destruct (Port4016_accesses (hooks := emulator_hooks)
              [PortWrite 1; PortRead; PortRead; PortRead] cpu0 Hs) as [[Hr _] Hw].
  cbn zeta in Hr, Hw. destruct (Hw 0) as [Hw0 _].
  split; [rewrite Hr; reflexivity | rewrite Hw0; reflexivity].
Defined.

(** C7, the claim as stated: a write whose bit 0 is 0 must not latch, so
    the shift register, 0x00 here, should stay; the code loads the
    snapshot 0xA5. *)
Lemma Write4016_latches_without_strobe :
  Z.testbit 0x00 0 = false /\
  at8 (m_ui8InputsState cpu0) 0 = 0x00 /\
  snapshot4016 cpu0 = 0xA5 /\
  at8 (m_ui8InputsState (Write4016 0x00 cpu0)) 0 = 0xA5 /\
  at8 (m_ui8InputsState (Write4016 0x00 cpu0)) 0 <>
    spec_Write4016_state 0x00 (at8 (m_ui8InputsState cpu0) 0) (snapshot4016 cpu0).
Proof.
  repeat split. intros H. vm_compute in H. discriminate H.
Qed.

(** A write of 0x02 to 0x4014 in the middle of an instruction. *)
Lemma Write4014_begins_dma_witness :
  0 <= 0x02 < 256 /\
  m_ui16DmaAddress (Write4014 0x02 cpu0) = 0x0200 /\
  m_pfTickFunc (Write4014 0x02 cpu0) = Tick_Dma LSN_DS_IDLE false /\
  m_pfTickFuncCopy (Write4014 0x02 cpu0) = Tick_InstructionCycleStd /\
  m_rRegs (Write4014 0x02 cpu0) = regs0.
Proof.
  assert (HV : 0 <= 0x02 < 256) by lia.
  split; [exact HV |].
  destruct (Write4014_begins_dma 0x02 cpu0 HV) as (_ & Ha & Ht & Hc & Hr & _).
  cbn zeta in Ha, Ht, Hc, Hr.
  split; [rewrite Ha; reflexivity |]. split; [exact Ht |].
  split; [rewrite Hc; reflexivity | rewrite Hr; reflexivity].
Defined.

(** Two bank selects on the two-bank cartridge, then reads from both
    windows and a write into the pattern tables. *)
Lemma Mapper094_wiring_witness :
  0x4000 <= PrgSize rom2 /\
  Forall (fun w => 0x8000 <= fst w < 0x10000) [(0x8000, 0x00); (0xFFFF, 0x04)] /\
  exists c,
    CpuBus_Writes [(0x8000, 0x00); (0xFFFF, 0x04)] cart2 = Done c /\
    m_ui8PgmBank (Mapper c) = 1 /\
    CpuBus_Read 0x8000 c = Done 0xBB /\
    CpuBus_Read 0xFFFF c = Done 0xBB /\
    CpuBus_Read 0x8000 cart2 = Done 0xAA /\
    exists c', PpuBus_Write 0x1234 0x7F c = Done c' /\ PpuRam (PpuBus c') 0x1234 = 0x7F.
Proof.
  assert (Hsize : 0x4000 <= PrgSize rom2) by (vm_compute; discriminate).
  assert (Hws : Forall (fun w => 0x8000 <= fst w < 0x10000) [(0x8000, 0x00); (0xFFFF, 0x04)]).
  { repeat constructor; cbn; lia. }
  split; [exact Hsize |]. split; [exact Hws |].
  destruct (Mapper094Props.Mapper094_wiring 0x0000 0x2000 0x2000 rom2 blank_mapper
              blank_slots blank_ppu_bus [(0x8000, 0x00); (0xFFFF, 0x04)]
              Hsize Hws ltac:(lia) ltac:(lia) ltac:(lia))
    as (c & Hrun & _ & _ & _ & _ & _ & Hbank & _ & Hfixed & Hbanked & Hppu).
  cbn zeta in Hrun, Hbank, Hfixed, Hbanked, Hppu.
  exists c. split; [exact Hrun |].
  assert (Hb : m_ui8PgmBank (Mapper c) = 1) by (rewrite Hbank; vm_compute; reflexivity).
  split; [exact Hb |].
  split; [rewrite (proj1 (Hbanked 0x8000 ltac:(lia))), Hb; vm_compute; reflexivity |].
  split; [rewrite (Hfixed 0xFFFF ltac:(lia)); vm_compute; reflexivity |].
  split; [vm_compute; reflexivity |].
  destruct (Hppu 0x1234 0x7F ltac:(lia)) as (_ & c' & Hw & Hram & _).
  exists c'. split; [exact Hw |].
  change ((0x1234 - 0x0000) mod 0x2000 + 0x0000) with 0x1234 in Hram.
  rewrite Hram. reflexivity.
Defined.

(** [SelectBank] with the value 0xFF: bank 7 mod 2 on the two-bank ROM,
    and no value at all on an empty one. *)
Lemma SelectBank_in_range_witness :
  0x4000 <= PrgSize rom2 /\
  PrgSize (MkRom []) < 0x4000 /\
  (exists m', SelectBank 0xFF (InitWithRom rom2 blank_mapper) = Some m' /\
              m_ui8PgmBank m' = 1) /\
  SelectBank 0xFF (InitWithRom (MkRom []) blank_mapper) = None.
Proof.
  assert (Hsize : 0x4000 <= PrgSize rom2) by (vm_compute; discriminate).
  assert (Hnone : PrgSize (MkRom []) < 0x4000) by (vm_compute; reflexivity).
  split; [exact Hsize |]. split; [exact Hnone |].
  destruct (Mapper094Props.SelectBank_in_range 0xFF rom2 blank_mapper) as [Hbig _].
  destruct (Mapper094Props.SelectBank_in_range 0xFF (MkRom []) blank_mapper) as [_ Hsmall].
  cbn zeta in Hbig, Hsmall.
  destruct (Hbig Hsize) as (_ & m' & Hsel & Hval & _).
  split.
  - exists m'. split; [exact Hsel |]. rewrite Hval. vm_compute. reflexivity.
  - apply Hsmall, Hnone.
Defined.

End Examples.

(** * Properties of the arithmetic and logic steps *)

Section AluProps.
Context {ext : Collaborators} {hooks : Hooks}.

(** *** Checking a property of bytes on all 256 of them *)

Lemma byte_cases (P : Z -> bool) :
  forallb P (seqZ 0 256) = true -> forall a, 0 <= a < 256 -> P a = true.
Proof.
  intros H a Ha. rewrite forallb_forall in H. apply H.
  apply (Mapper094Props.In_seqZ a 0 256). exact Ha.
Qed.

Lemma byte_cases2 (P : Z -> Z -> bool) :
  forallb (fun a => forallb (P a) (seqZ 0 256)) (seqZ 0 256) = true ->
  forall a m, 0 <= a < 256 -> 0 <= m < 256 -> P a m = true.
Proof.
  intros H a m Ha Hm.
  apply (byte_cases (P a)); [| exact Hm].
  apply (byte_cases (fun a => forallb (P a) (seqZ 0 256))); assumption.
Qed.

Lemma land_1_b2z (st : Z) : Z.land st 1 = Z.b2z (Z.testbit st 0).
Proof.
  change 1 with (Z.ones 1). rewrite Z.land_ones by lia.
  change (2 ^ 1) with 2. symmetry. apply Z.bit0_mod.
Qed.

Lemma status_put_Status (v : Z) (s : CCpu6502) : ui8Status (m_rRegs (put_Status v s)) = v.
Proof. reflexivity. Qed.

(** The four flag writes of [Adc] and [Sbc], bit by bit. *)
Lemma arith_flags (st : Z) (v c z n : bool) (i : Z) :
  0 <= i ->
  Z.testbit (SetBit SF.N (SetBit SF.Z_ (SetBit SF.C (SetBit SF.V st v) c) z) n) i =
    if i =? 7 then n else if i =? 1 then z else if i =? 0 then c
    else if i =? 6 then v else Z.testbit st i.
Proof.
  intros Hi.
  change SF.N with (2 ^ 7). change SF.Z_ with (2 ^ 1).
  change SF.C with (2 ^ 0). change SF.V with (2 ^ 6).
  rewrite !SetBit_pow2 by lia.
  rewrite (Z.eqb_sym 7 i), (Z.eqb_sym 1 i), (Z.eqb_sym 0 i), (Z.eqb_sym 6 i).
  reflexivity.
Qed.

Lemma arith_flags_at (st : Z) (v c z n : bool) :
  let st' := SetBit SF.N (SetBit SF.Z_ (SetBit SF.C (SetBit SF.V st v) c) z) n in
  Z.testbit st' 0 = c /\ Z.testbit st' 1 = z /\ Z.testbit st' 6 = v /\ Z.testbit st' 7 = n.
Proof. intros st'. subst st'. rewrite !arith_flags by lia. repeat split. Qed.

(** *** Addition and subtraction *)

Lemma adc_check_all (c : bool) (a m : Z) :
  0 <= a < 256 -> 0 <= m < 256 -> adc_check (Z.b2z c) a m = true.
Proof.
  intros Ha Hm. destruct c.
  - apply (byte_cases2 (adc_check 1)); [vm_compute; reflexivity | exact Ha | exact Hm].
  - apply (byte_cases2 (adc_check 0)); [vm_compute; reflexivity | exact Ha | exact Hm].
Qed.

(** [Adc] adds with carry: the byte handed back and the carry flag hold
    the 9-bit sum of the register, the operand and the carry flag; Z and N
    describe the byte; V says that the signed sum does not fit a signed
    byte, and when it is clear the byte is the signed sum; the flags I, D,
    B and bit 5 keep their values, and nothing but the status register
    changes. *)
Theorem Adc_adds (a m : Z) (s : CCpu6502) :
  0 <= a < 256 -> 0 <= m < 256 ->
  let st := ui8Status (m_rRegs s) in
  let c := Z.b2z (Z.testbit st 0) in
  let r := fst (Adc a m s) in
  let st' := ui8Status (m_rRegs (snd (Adc a m s))) in
  0 <= r < 256 /\
  a + m + c = 256 * Z.b2z (Z.testbit st' 0) + r /\
  Z.testbit st' 1 = (r =? 0) /\
  Z.testbit st' 7 = (128 <=? r) /\
  Z.testbit st' 6 = negb ((-128 <=? i8 a + i8 m + c) && (i8 a + i8 m + c <=? 127)) /\
  (Z.testbit st' 6 = false -> i8 r = i8 a + i8 m + c) /\
  (forall i, 0 <= i -> i <> 0 -> i <> 1 -> i <> 6 -> i <> 7 ->
     Z.testbit st' i = Z.testbit st i) /\
  snd (Adc a m s) = put_Status st' s.
Proof.
  intros Ha Hm st c r st'.
  pose proof (adc_check_all (Z.testbit st 0) a m Ha Hm) as Hchk.
  change (Z.b2z (Z.testbit st 0)) with c in Hchk. unfold adc_check in Hchk.
  assert (Hc : Z.land (ui8Status (m_rRegs s)) SF.C = c) by apply land_1_b2z.
  assert (Hr : r = u8 (u16 (a + m + c))).
  { subst r. unfold Adc. rewrite Hc. reflexivity. }
  assert (Hst' : st' =
    SetBit SF.N (SetBit SF.Z_ (SetBit SF.C (SetBit SF.V st
      (nonzero (Z.land (Z.land (Z.lnot (Z.lxor a m)) (Z.lxor a (u16 (a + m + c)))) 0x0080)))
      (0xFF <? u16 (a + m + c))) (r =? 0x00)) (nonzero (Z.land r 0x80))).
  { subst st' r. unfold Adc. rewrite Hc. reflexivity. }
  rewrite <- Hr in Hchk.
  apply andb_prop in Hchk. destruct Hchk as [Hchk H4].
  apply andb_prop in Hchk. destruct Hchk as [Hchk H3].
  apply andb_prop in Hchk. destruct Hchk as [H1 H2].
  apply Z.eqb_eq in H1. apply eqb_prop in H2. apply eqb_prop in H3.
  split; [rewrite Hr; unfold u8; apply Z.mod_pos_bound; lia |].
  destruct (arith_flags_at st
    (nonzero (Z.land (Z.land (Z.lnot (Z.lxor a m)) (Z.lxor a (u16 (a + m + c)))) 0x0080))
    (0xFF <? u16 (a + m + c)) (r =? 0x00) (nonzero (Z.land r 0x80))) as (F0 & F1 & F6 & F7).
  rewrite <- Hst' in F0, F1, F6, F7.
  split; [rewrite F0; exact H1 |].
  split; [exact F1 |].
  split; [rewrite F7; exact H3 |].
  split; [rewrite F6; exact H2 |].
  split.
  { rewrite F6. intros Hv. rewrite Hv in H4. apply Z.eqb_eq. exact H4. }
  split.
  { intros i Hi n0 n1 n6 n7. rewrite Hst', arith_flags by lia.
    repeat match goal with
           | |- context [?x =? ?y] => destruct (Z.eqb_spec x y); [lia |]
           end.
    reflexivity. }
  reflexivity.
Qed.

Lemma sbc_check_all (c : bool) (a m : Z) :
  0 <= a < 256 -> 0 <= m < 256 -> sbc_check (Z.b2z c) a m = true.
Proof.
  intros Ha Hm. destruct c.
  - apply (byte_cases2 (sbc_check 1)); [vm_compute; reflexivity | exact Ha | exact Hm].
  - apply (byte_cases2 (sbc_check 0)); [vm_compute; reflexivity | exact Ha | exact Hm].
Qed.

Ltac split_checks H :=
  repeat match type of H with
         | _ && _ = true =>
             let H' := fresh "Hk" in
             apply andb_prop in H; destruct H as [H H']
         end.

(** [Sbc] subtracts with borrow, the borrow being the complement of the
    carry flag: the byte handed back is the difference modulo 256 and the
    carry flag is set exactly when no borrow was needed; Z and N describe
    the byte; V says that the signed difference does not fit a signed
    byte; the flags I, D, B and bit 5 keep their values, and nothing but
    the status register changes. *)
Theorem Sbc_subtracts (a m : Z) (s : CCpu6502) :
  0 <= a < 256 -> 0 <= m < 256 ->
  let st := ui8Status (m_rRegs s) in
  let borrow := 1 - Z.b2z (Z.testbit st 0) in
  let r := fst (Sbc a m s) in
  let st' := ui8Status (m_rRegs (snd (Sbc a m s))) in
  0 <= r < 256 /\
  a - m - borrow = r - 256 * (1 - Z.b2z (Z.testbit st' 0)) /\
  Z.testbit st' 0 = (m + borrow <=? a) /\
  Z.testbit st' 1 = (r =? 0) /\
  Z.testbit st' 7 = (128 <=? r) /\
  Z.testbit st' 6 =
    negb ((-128 <=? i8 a - i8 m - borrow) && (i8 a - i8 m - borrow <=? 127)) /\
  (Z.testbit st' 6 = false -> i8 r = i8 a - i8 m - borrow) /\
  (forall i, 0 <= i -> i <> 0 -> i <> 1 -> i <> 6 -> i <> 7 ->
     Z.testbit st' i = Z.testbit st i) /\
  snd (Sbc a m s) = put_Status st' s.
Proof.
  intros Ha Hm st borrow r st'.
  pose proof (sbc_check_all (Z.testbit st 0) a m Ha Hm) as Hchk.
  set (c := Z.b2z (Z.testbit st 0)) in *.
  assert (Hc : Z.land (ui8Status (m_rRegs s)) SF.C = c) by apply land_1_b2z.
  unfold sbc_check in Hchk.
  set (val := u16 (Z.lxor m 0x00FF)) in *.
  set (res := u16 (a + val + c)) in *.
  assert (Hr : r = u8 res).
  { subst r. unfold Sbc. rewrite Hc. reflexivity. }
  assert (Hst' : st' =
    SetBit SF.N (SetBit SF.Z_ (SetBit SF.C (SetBit SF.V st
      (nonzero (Z.land (Z.land (Z.lxor a res) (Z.lxor val res)) 0x0080)))
      (0xFF <? res)) (r =? 0x00)) (nonzero (Z.land r 0x80))).
  { subst st' r. unfold Sbc. rewrite Hc. reflexivity. }
  rewrite <- Hr in Hchk.
  split_checks Hchk.
  apply Z.eqb_eq in Hchk. apply eqb_prop in Hk3, Hk2.
  destruct (arith_flags_at st
    (nonzero (Z.land (Z.land (Z.lxor a res) (Z.lxor val res)) 0x0080))
    (0xFF <? res) (r =? 0x00) (nonzero (Z.land r 0x80))) as (F0 & F1 & F6 & F7).
  rewrite <- Hst' in F0, F1, F6, F7.
  assert (Hrange : 0 <= r < 256) by (rewrite Hr; unfold u8; apply Z.mod_pos_bound; lia).
  split; [exact Hrange |].
  split; [rewrite F0; exact Hchk |].
  split.
  { rewrite F0. destruct (0xFF <? res); cbn [Z.b2z] in Hchk.
    - symmetry. apply Z.leb_le. subst borrow. lia.
    - symmetry. apply Z.leb_gt. subst borrow. lia. }
  split; [exact F1 |].
  split; [rewrite F7; exact Hk2 |].
  split; [rewrite F6; exact Hk3 |].
  split.
  { rewrite F6. intros Hv. rewrite Hv in Hk1. apply Z.eqb_eq. exact Hk1. }
  split.
  { intros i Hi n0 n1 n6 n7. rewrite Hst', arith_flags by lia.
    repeat match goal with
           | |- context [?x =? ?y] => destruct (Z.eqb_spec x y); [lia |]
           end.
    reflexivity. }
  reflexivity.
Qed.

(** Subtraction is addition of the complement: on bytes, [Sbc] of an
    operand is [Adc] of the operand with all eight bits inverted, in the
    byte handed back and in every flag. *)
Theorem Sbc_is_Adc_of_complement (a m : Z) (s : CCpu6502) :
  0 <= a < 256 -> 0 <= m < 256 ->
  Z.lxor m 0xFF = 255 - m /\
  Sbc a m s = Adc a (255 - m) s.
Proof.
  intros Ha Hm.
  pose proof (sbc_check_all (Z.testbit (ui8Status (m_rRegs s)) 0) a m Ha Hm) as Hchk.
  set (c := Z.b2z (Z.testbit (ui8Status (m_rRegs s)) 0)) in *.
  assert (Hc : Z.land (ui8Status (m_rRegs s)) SF.C = c) by apply land_1_b2z.
  unfold sbc_check in Hchk. split_checks Hchk.
  apply Z.eqb_eq in Hk. apply eqb_prop in Hk0.
  assert (Hx : Z.lxor m 0xFF = 255 - m).
  { rewrite <- Hk. unfold u16. symmetry. apply Z.mod_small.
    assert (0 <= Z.lxor m 255) by (apply Z.lxor_nonneg; lia).
    assert (Z.lxor m 255 < 2 ^ 8); [| lia].
    destruct (Z.eq_dec (Z.lxor m 255) 0) as [-> | Hne]; [lia |].
    apply Z.log2_lt_pow2; [lia |].
    eapply Z.le_lt_trans; [apply Z.log2_lxor; lia |].
    apply Z.max_lub_lt.
    - destruct (Z.eq_dec m 0) as [-> | ?]; [reflexivity |]. apply Z.log2_lt_pow2; lia.
    - reflexivity. }
  split; [exact Hx |].
  unfold Sbc, Adc. rewrite Hc. rewrite Hk. rewrite Hk in Hk0. rewrite Hk0. reflexivity.
Qed.

(** *** Comparison *)

Lemma cmp_check_all (a m : Z) : 0 <= a < 256 -> 0 <= m < 256 -> cmp_check a m = true.
Proof. apply (byte_cases2 cmp_check). vm_compute. reflexivity. Qed.

Lemma cmp_flags (st : Z) (c z n : bool) (i : Z) :
  0 <= i ->
  Z.testbit (SetBit SF.N (SetBit SF.Z_ (SetBit SF.C st c) z) n) i =
    if i =? 7 then n else if i =? 1 then z else if i =? 0 then c else Z.testbit st i.
Proof.
  intros Hi.
  change SF.N with (2 ^ 7). change SF.Z_ with (2 ^ 1). change SF.C with (2 ^ 0).
  rewrite !SetBit_pow2 by lia.
  rewrite (Z.eqb_sym 7 i), (Z.eqb_sym 1 i), (Z.eqb_sym 0 i).
  reflexivity.
Qed.

Lemma carry_set (st : Z) : Z.land (SetBit SF.C st true) SF.C = 1.
Proof.
  rewrite land_1_b2z. change SF.C with (2 ^ 0).
  rewrite SetBit_pow2 by lia. reflexivity.
Qed.

(** [Cmp] is the unsigned comparison of a register with the operand: C
    is set exactly when the register is not below the operand, Z exactly
    when they are equal, N is bit 7 of their difference modulo 256; so the
    register is below the operand iff C is clear and above it iff C is set
    and Z clear.  C, Z and N are the ones [Sbc] would leave when entered
    with the carry set; V, I, D, B and bit 5 keep their values, and nothing
    but the status register changes. *)
Theorem Cmp_orders (reg op : Z) (s : CCpu6502) :
  0 <= reg < 256 -> 0 <= op < 256 ->
  let st := ui8Status (m_rRegs s) in
  let st' := ui8Status (m_rRegs (Cmp reg op s)) in
  let sbc := ui8Status (m_rRegs (snd (Sbc reg op (SetStatusBit SF.C true s)))) in
  Z.testbit st' 0 = (op <=? reg) /\
  Z.testbit st' 1 = (reg =? op) /\
  Z.testbit st' 7 = (128 <=? u8 (reg - op)) /\
  (reg < op <-> Z.testbit st' 0 = false) /\
  (op < reg <-> Z.testbit st' 0 = true /\ Z.testbit st' 1 = false) /\
  (Z.testbit st' 0 = Z.testbit sbc 0 /\ Z.testbit st' 1 = Z.testbit sbc 1 /\
   Z.testbit st' 7 = Z.testbit sbc 7) /\
  (forall i, 0 <= i -> i <> 0 -> i <> 1 -> i <> 7 -> Z.testbit st' i = Z.testbit st i) /\
  Cmp reg op s = put_Status st' s.
Proof.
  intros Hreg Hop st st' sbc.
  pose proof (cmp_check_all reg op Hreg Hop) as Hchk.
  unfold cmp_check in Hchk. split_checks Hchk.
  apply eqb_prop in Hchk, Hk, Hk0, Hk1.
  assert (Hst' : st' = SetBit SF.N (SetBit SF.Z_ (SetBit SF.C st (op <=? reg)) (reg =? op))
                         (nonzero (Z.land (reg - op) 0x80))) by reflexivity.
  assert (F0 : Z.testbit st' 0 = (op <=? reg)) by (rewrite Hst', cmp_flags by lia; reflexivity).
  assert (F1 : Z.testbit st' 1 = (reg =? op)) by (rewrite Hst', cmp_flags by lia; reflexivity).
  assert (F7 : Z.testbit st' 7 = nonzero (Z.land (reg - op) 0x80))
    by (rewrite Hst', cmp_flags by lia; reflexivity).
  split; [exact F0 |]. split; [exact F1 |]. split; [rewrite F7; exact Hk |].
  split.
  { rewrite F0. split; intros H.
    - apply Z.leb_gt. exact H.
    - apply Z.leb_gt in H. exact H. }
  split.
  { rewrite F0, F1. split.
    - intros H. split; [apply Z.leb_le; lia | apply Z.eqb_neq; lia].
    - intros [H1 H2]. apply Z.leb_le in H1. apply Z.eqb_neq in H2. lia. }
  split.
  { set (res := u16 (reg + u16 (Z.lxor op 0x00FF) + 1)) in *.
    assert (Hsbc : sbc =
      SetBit SF.N (SetBit SF.Z_ (SetBit SF.C (SetBit SF.V (SetBit SF.C st true)
        (nonzero (Z.land (Z.land (Z.lxor reg res) (Z.lxor (u16 (Z.lxor op 0x00FF)) res))
                    0x0080)))
        (0xFF <? res)) (u8 res =? 0x00)) (nonzero (Z.land (u8 res) 0x80))).
    { subst sbc res. unfold Sbc.
      change (ui8Status (m_rRegs (SetStatusBit SF.C true s))) with (SetBit SF.C st true).
      rewrite carry_set. reflexivity. }
    destruct (arith_flags_at (SetBit SF.C st true)
      (nonzero (Z.land (Z.land (Z.lxor reg res) (Z.lxor (u16 (Z.lxor op 0x00FF)) res))
                  0x0080))
      (0xFF <? res) (u8 res =? 0x00) (nonzero (Z.land (u8 res) 0x80))) as (G0 & G1 & _ & G7).
    rewrite <- Hsbc in G0, G1, G7.
    rewrite F0, F1, F7, G0, G1, G7. repeat split; assumption. }
  split.
  { intros i Hi n0 n1 n7. rewrite Hst', cmp_flags by lia.
    repeat match goal with
           | |- context [?x =? ?y] => destruct (Z.eqb_spec x y); [lia |]
           end.
    reflexivity. }
  reflexivity.
Qed.

(** *** Shifts and rotations of the operand byte *)

(** Reading one flag out of a status byte written by a sequence of
    [SetBit]s. *)
Ltac set_bits :=
  change SF.N with (2 ^ 7); change SF.V with (2 ^ 6); change SF.I with (2 ^ 2);
  change SF.D with (2 ^ 3); change SF.Z_ with (2 ^ 1); change SF.C with (2 ^ 0);
  rewrite ?SetBit_pow2 by lia.

Ltac flag_bits := set_bits; cbn [Z.eqb Pos.eqb].

Ltac other_bits :=
  set_bits;
  repeat match goal with
         | |- context [?x =? ?y] => destruct (Z.eqb_spec x y); [lia |]
         end.

Lemma shift_check_all (c : bool) (m : Z) : 0 <= m < 256 -> shift_check (Z.b2z c) m = true.
Proof.
  destruct c.
  - apply (byte_cases (shift_check 1)). vm_compute. reflexivity.
  - apply (byte_cases (shift_check 0)). vm_compute. reflexivity.
Qed.

(** The four shifts of the operand byte lose no bit: with [m] the byte
    before, [m'] the byte after, [c] the carry flag before and [c'] after,
    [Asl] gives [2m = 256c' + m'], [Lsr] gives [m = 2m' + c'], [Rol] gives
    [2m + c = 256c' + m'] and [Ror] gives [m + 256c = 2m' + c'].  Z is set
    exactly when [m'] is zero and N is bit 7 of [m'], which [Lsr] always
    clears.  The registers other than the status register are not
    touched, nor are the flags V, I, D, B and bit 5. *)
Theorem Shifts_keep_every_bit (s : CCpu6502) :
  0 <= m_ui8Operand s < 256 ->
  let m := m_ui8Operand s in
  let c := Z.b2z (Z.testbit (ui8Status (m_rRegs s)) 0) in
  let carry t := Z.b2z (Z.testbit (ui8Status (m_rRegs t)) 0) in
  let flagsNZ t :=
    Z.testbit (ui8Status (m_rRegs t)) 1 = (m_ui8Operand t =? 0) /\
    Z.testbit (ui8Status (m_rRegs t)) 7 = (128 <=? m_ui8Operand t) /\
    (forall i, 0 <= i -> i <> 0 -> i <> 1 -> i <> 7 ->
       Z.testbit (ui8Status (m_rRegs t)) i = Z.testbit (ui8Status (m_rRegs s)) i) /\
    t = put_Status (ui8Status (m_rRegs t))
          (LSN_INSTR_END_PHI1
             (LSN_NEXT_FUNCTION
                (set_m_ui8Operand (m_ui8Operand t) (LSN_INSTR_START_PHI1 false s)))) in
  (2 * m = 256 * carry (Asl s) + m_ui8Operand (Asl s) /\ flagsNZ (Asl s)) /\
  (m = 2 * m_ui8Operand (Lsr s) + carry (Lsr s) /\ flagsNZ (Lsr s) /\
   m_ui8Operand (Lsr s) < 128) /\
  (2 * m + c = 256 * carry (Rol s) + m_ui8Operand (Rol s) /\ flagsNZ (Rol s)) /\
  (m + 256 * c = 2 * m_ui8Operand (Ror s) + carry (Ror s) /\ flagsNZ (Ror s)).
Proof.
  intros Hm m c carry flagsNZ.
  pose proof (shift_check_all (Z.testbit (ui8Status (m_rRegs s)) 0) m Hm) as Hchk.
  fold c in Hchk. unfold shift_check in Hchk. rewrite !andb_true_iff in Hchk.
  destruct Hchk as [[[[[[Hchk Hk] Hk0] Hk1] Hk2] Hk3] Hk4].
  apply Z.eqb_eq in Hchk, Hk, Hk0, Hk1. apply eqb_prop in Hk2, Hk3, Hk4.
  assert (Hc : Z.land (ui8Status (m_rRegs s)) SF.C = c) by apply land_1_b2z.
  subst carry flagsNZ. cbn beta.
  split; [| split; [| split]].
  - unfold Asl. cbn -[u8 Z.testbit Z.shiftl Z.land nonzero SetBit Z.mul Z.add Z.leb Z.eqb].
    fold m. split; [flag_bits; exact Hchk |].
    split; [flag_bits; reflexivity |]. split; [flag_bits; exact Hk2 |].
    split; [intros i Hi n0 n1 n7; other_bits; reflexivity | reflexivity].
  - assert (Hlsr : u8 (Z.shiftr m 1) < 128)
      by (destruct (nonzero (Z.land m 1)); cbn [Z.b2z] in Hk; lia).
    unfold Lsr. cbn -[u8 Z.testbit Z.shiftr Z.land nonzero SetBit Z.mul Z.add Z.leb Z.eqb].
    fold m. split; [flag_bits; exact Hk |].
    split; [| exact Hlsr].
    split; [flag_bits; reflexivity |]. split.
    + flag_bits. symmetry. apply Z.leb_gt. exact Hlsr.
    + split; [intros i Hi n0 n1 n7; other_bits; reflexivity | reflexivity].
  - unfold Rol.
    cbn -[u8 Z.testbit Z.shiftl Z.lor Z.land nonzero SetBit Z.mul Z.add Z.leb Z.eqb SF.C].
    rewrite Hc. fold m. split; [flag_bits; exact Hk0 |].
    split; [flag_bits; reflexivity |]. split; [flag_bits; exact Hk3 |].
    split; [intros i Hi n0 n1 n7; other_bits; reflexivity | reflexivity].
  - unfold Ror.
    cbn -[u8 Z.testbit Z.shiftl Z.shiftr Z.lor Z.land nonzero SetBit Z.mul Z.add Z.leb Z.eqb
          SF.C].
    rewrite Hc. fold m. split; [flag_bits; exact Hk1 |].
    split; [flag_bits; reflexivity |]. split; [flag_bits; exact Hk4 |].
    split; [intros i Hi n0 n1 n7; other_bits; reflexivity | reflexivity].
Qed.

Lemma carry_in (st : Z) : Z.land st SF.C = Z.b2z (Z.testbit st 0).
Proof. apply land_1_b2z. Qed.

Lemma rotate_check_all (c : bool) (m : Z) : 0 <= m < 256 -> rotate_check c m = true.
Proof.
  destruct c.
  - apply (byte_cases (rotate_check true)). vm_compute. reflexivity.
  - apply (byte_cases (rotate_check false)). vm_compute. reflexivity.
Qed.

(** [Rol] and [Ror] undo each other: after [Rol] then [Ror], and after
    [Ror] then [Rol], the operand byte and the carry flag are what they
    were; Z and N describe that byte; V, I, D, B and bit 5 and the other
    registers were never touched. *)
Theorem Rol_Ror_round_trip (s : CCpu6502) :
  0 <= m_ui8Operand s < 256 ->
  let restored t :=
    m_ui8Operand t = m_ui8Operand s /\
    Z.testbit (ui8Status (m_rRegs t)) 0 = Z.testbit (ui8Status (m_rRegs s)) 0 /\
    Z.testbit (ui8Status (m_rRegs t)) 1 = (m_ui8Operand s =? 0) /\
    Z.testbit (ui8Status (m_rRegs t)) 7 = (128 <=? m_ui8Operand s) /\
    (forall i, 0 <= i -> i <> 0 -> i <> 1 -> i <> 7 ->
       Z.testbit (ui8Status (m_rRegs t)) i = Z.testbit (ui8Status (m_rRegs s)) i) /\
    put_Status 0 t = put_Status 0 (LSN_INSTR_END_PHI1 (LSN_NEXT_FUNCTION
      (LSN_INSTR_START_PHI1 false (LSN_INSTR_END_PHI1 (LSN_NEXT_FUNCTION
        (LSN_INSTR_START_PHI1 false s)))))) in
  restored (Ror (Rol s)) /\ restored (Rol (Ror s)).
Proof.
  intros Hm restored.
  pose proof (rotate_check_all (Z.testbit (ui8Status (m_rRegs s)) 0) _ Hm) as Hchk.
  unfold rotate_check in Hchk. rewrite !andb_true_iff in Hchk.
  destruct Hchk as [[[[K1 K2] K3] K4] K5].
  apply Z.eqb_eq in K1, K3. apply eqb_prop in K2, K4, K5.
  set (m := m_ui8Operand s) in *.
  set (st := ui8Status (m_rRegs s)) in *.
  rewrite land_1_b2z in K2, K3.
  subst restored. cbn beta. split.
  - unfold Ror, Rol.
    cbn -[u8 Z.testbit Z.shiftl Z.shiftr Z.lor Z.land nonzero SetBit Z.leb Z.eqb SF.C].
    fold m st. rewrite !carry_in. flag_bits.
    split; [exact K1 |]. split; [exact K2 |].
    rewrite K1. split; [reflexivity |]. split; [exact K5 |].
    split; [intros i Hi n0 n1 n7; other_bits; reflexivity | reflexivity].
  - unfold Ror, Rol.
    cbn -[u8 Z.testbit Z.shiftl Z.shiftr Z.lor Z.land nonzero SetBit Z.leb Z.eqb SF.C].
    fold m st. rewrite !carry_in. flag_bits.
    split; [exact K3 |]. split; [exact K4 |].
    rewrite K3. split; [reflexivity |]. split; [exact K5 |].
    split; [intros i Hi n0 n1 n7; other_bits; reflexivity | reflexivity].
Qed.

(** *** Increment and decrement of the operand byte *)

Lemma u8_succ_pred (m : Z) : 0 <= m < 256 -> u8 (u8 (m + 1) - 1) = m /\ u8 (u8 (m - 1) + 1) = m.
Proof. intros Hm. unfold u8. split; Z.div_mod_to_equations; lia. Qed.

(** [Inc] and [Dec] count modulo 256 and undo each other: 0xFF
    increments to 0 and 0 decrements to 0xFF; after [Inc] then [Dec], and
    after [Dec] then [Inc], the operand byte is what it was, Z and N
    describe it, and the carry and every other flag and register were
    never touched. *)
Theorem Inc_Dec_inverse (s : CCpu6502) :
  0 <= m_ui8Operand s < 256 ->
  let m := m_ui8Operand s in
  let restored t :=
    m_ui8Operand t = m /\
    Z.testbit (ui8Status (m_rRegs t)) 1 = (m =? 0) /\
    Z.testbit (ui8Status (m_rRegs t)) 7 = (128 <=? m) /\
    (forall i, 0 <= i -> i <> 1 -> i <> 7 ->
       Z.testbit (ui8Status (m_rRegs t)) i = Z.testbit (ui8Status (m_rRegs s)) i) /\
    put_Status 0 t = put_Status 0 (LSN_INSTR_END_PHI1 (LSN_NEXT_FUNCTION
      (LSN_INSTR_START_PHI1 false (LSN_INSTR_END_PHI1 (LSN_NEXT_FUNCTION
        (LSN_INSTR_START_PHI1 false s)))))) in
  m_ui8Operand (Inc s) = (if m =? 255 then 0 else m + 1) /\
  m_ui8Operand (Dec s) = (if m =? 0 then 255 else m - 1) /\
  Z.testbit (ui8Status (m_rRegs (Inc s))) 1 = (m =? 255) /\
  Z.testbit (ui8Status (m_rRegs (Dec s))) 7 = (m =? 0) || (129 <=? m) /\
  restored (Dec (Inc s)) /\ restored (Inc (Dec s)).
Proof.
  intros Hm m restored.
  destruct (u8_succ_pred m Hm) as [Hid Hdi].
  pose proof (rotate_check_all false m Hm) as Hchk.
  unfold rotate_check in Hchk. rewrite !andb_true_iff in Hchk.
  destruct Hchk as [_ K5]. apply eqb_prop in K5.
  assert (Hinc : u8 (m + 1) = if m =? 255 then 0 else m + 1).
  { unfold u8. destruct (Z.eqb_spec m 255) as [E | Hne]; [rewrite E; reflexivity |].
    apply Z.mod_small. lia. }
  assert (Hdec : u8 (m - 1) = if m =? 0 then 255 else m - 1).
  { unfold u8. destruct (Z.eqb_spec m 0) as [E | Hne]; [rewrite E; reflexivity |].
    apply Z.mod_small. lia. }
  split; [exact Hinc |]. split; [exact Hdec |].
  split.
  { unfold Inc. cbn -[u8 Z.testbit Z.land nonzero SetBit Z.leb Z.eqb]. fold m. flag_bits.
    rewrite Hinc. destruct (Z.eqb_spec m 255); [reflexivity |].
    apply Z.eqb_neq. lia. }
  split.
  { unfold Dec. cbn -[u8 Z.testbit Z.land nonzero SetBit Z.leb Z.eqb]. fold m. flag_bits.
    rewrite nonzero_0x80. rewrite testbit_u8 by lia.
    pose proof (rotate_check_all false (u8 (m - 1))) as Hc2.
    assert (Hr : 0 <= u8 (m - 1) < 256) by (unfold u8; apply Z.mod_pos_bound; lia).
    specialize (Hc2 Hr). unfold rotate_check in Hc2. rewrite !andb_true_iff in Hc2.
    destruct Hc2 as [_ K]. apply eqb_prop in K. rewrite nonzero_0x80 in K.
    rewrite testbit_u8 in K by lia. rewrite K. rewrite Hdec.
    destruct (Z.eqb_spec m 0) as [E | Hne]; [reflexivity |].
    cbn [orb]. destruct (Z.leb_spec 129 m); [apply Z.leb_le | apply Z.leb_gt]; lia. }
  subst restored. cbn beta. split.
  - unfold Inc, Dec. cbn -[u8 Z.testbit Z.land nonzero SetBit Z.leb Z.eqb]. fold m.
    rewrite Hid. flag_bits.
    split; [reflexivity |]. split; [reflexivity |]. split; [exact K5 |].
    split; [intros i Hi n1 n7; other_bits; reflexivity | reflexivity].
  - unfold Inc, Dec. cbn -[u8 Z.testbit Z.land nonzero SetBit Z.leb Z.eqb]. fold m.
    rewrite Hdi. flag_bits.
    split; [reflexivity |]. split; [reflexivity |]. split; [exact K5 |].
    split; [intros i Hi n1 n7; other_bits; reflexivity | reflexivity].
Qed.

(** *** The combined steps *)

Lemma status_bits_eq (a b : Z) :
  (forall i, 0 <= i -> Z.testbit a i = Z.testbit b i) -> a = b.
Proof. intros H. apply Z.bits_inj'. exact H. Qed.

Ltac status_eq :=
  apply status_bits_eq; intros ?i ?Hi; set_bits;
  repeat match goal with
         | |- context [?x =? ?y] => is_var y; destruct (Z.eqb_spec x y)
         end; first [reflexivity | lia].

Ltac alu_cbn :=
  cbn -[u8 u16 Z.testbit Z.shiftl Z.shiftr Z.lor Z.land Z.lxor Z.lnot nonzero SetBit
        Z.leb Z.ltb Z.eqb Z.add Z.sub SF.C].

Section BeginInstFrame.
(** [BeginInst], which the translation unit calls but does not define,
    starts the next instruction: it is taken to leave the registers and
    the operand byte alone. *)
Hypothesis BeginInst_view : forall t, alu_view (BeginInst t) = alu_view t.

Lemma BeginInst_regs (t : CCpu6502) : m_rRegs (BeginInst t) = m_rRegs t.
Proof. pose proof (BeginInst_view t) as H. unfold alu_view in H. congruence. Qed.

Lemma BeginInst_operand (t : CCpu6502) : m_ui8Operand (BeginInst t) = m_ui8Operand t.
Proof. pose proof (BeginInst_view t) as H. unfold alu_view in H. congruence. Qed.

Ltac alu_step :=
  alu_cbn; rewrite ?BeginInst_regs, ?BeginInst_operand; alu_cbn.

Ltac alu_eq :=
  f_equal;
  unfold set_ui8Status, set_ui8A, set_ui8X, set_ui8S, set_ui16Pc;
  cbn [ui8A ui8X ui8Y ui8S ui8Status ui16Pc];
  f_equal; try reflexivity; status_eq.

(** Each combined step of the undocumented opcodes computes what its two
    documented halves compute one after the other: on the registers
    (status and PC included) and the operand byte, [Slo] is [Asl] then
    [Ora], [Rla] is [Rol] then [And], [Sre] is [Lsr] then [Eor], [Rra] is
    [Ror] then [Adc], [Dcp] is [Dec] then [Cmp] and [Isb] is [Inc] then
    [Sbc]. *)
Theorem Combined_steps_compose (s : CCpu6502) :
  alu_view (Slo s) = alu_view (Ora_BeginInst false (Asl s)) /\
  alu_view (Rla s) = alu_view (And_BeginInst false (Rol s)) /\
  alu_view (Sre s) = alu_view (Eor_BeginInst false (Lsr s)) /\
  alu_view (Rra s) = alu_view (Adc_BeginInst false (Ror s)) /\
  alu_view (Dcp s) = alu_view (Cmp_BeginInst false (Dec s)) /\
  alu_view (Isb s) = alu_view (Sbc_BeginInst false (Inc s)).
Proof.
  unfold alu_view.
  repeat split.
  - unfold Slo, Ora_BeginInst, Asl, UpdatePcIf. alu_step.
    alu_eq.
  - unfold Rla, And_BeginInst, Rol, UpdatePcIf. alu_step.
    rewrite !carry_in. alu_eq.
  - unfold Sre, Eor_BeginInst, Lsr, UpdatePcIf. alu_step.
    alu_eq.
  - unfold Rra, Adc_BeginInst, Ror, Adc, UpdatePcIf. alu_step.
    rewrite !carry_in. flag_bits. alu_eq.
  - unfold Dcp, Cmp_BeginInst, Dec, Cmp, UpdatePcIf. alu_step.
    alu_eq.
  - unfold Isb, Sbc_BeginInst, Inc, Sbc, UpdatePcIf. alu_step.
    rewrite !carry_in. flag_bits. alu_eq.
Qed.

Lemma status_UpdatePcIf (b : bool) (t : CCpu6502) :
  ui8A (m_rRegs (UpdatePcIf b t)) = ui8A (m_rRegs t) /\
  ui8X (m_rRegs (UpdatePcIf b t)) = ui8X (m_rRegs t) /\
  ui8Y (m_rRegs (UpdatePcIf b t)) = ui8Y (m_rRegs t) /\
  ui8S (m_rRegs (UpdatePcIf b t)) = ui8S (m_rRegs t) /\
  ui8Status (m_rRegs (UpdatePcIf b t)) = ui8Status (m_rRegs t) /\
  m_ui8Operand (UpdatePcIf b t) = m_ui8Operand t.
Proof.
  unfold UpdatePcIf, LSN_UPDATE_PC.
  destruct b; [destruct (m_bAllowWritingToPc t) |]; repeat split.
Qed.

Lemma arr_check_all (c : bool) (a m : Z) :
  0 <= a < 256 -> 0 <= m < 256 -> arr_check c a m = true.
Proof.
  intros Ha Hm. destruct c.
  - apply (byte_cases2 (arr_check true)); [vm_compute; reflexivity | exact Ha | exact Hm].
  - apply (byte_cases2 (arr_check false)); [vm_compute; reflexivity | exact Ha | exact Hm].
Qed.

(** [Arr_BeginInst] leaves in A the AND of A and the operand rotated
    right through the carry, and takes its flags from the result: C is
    bit 6 of the new A and V is bit 6 exclusive-or bit 5 of it, Z says
    that it is zero and N is its bit 7; X, Y and S, and the flags I, D, B
    and bit 5, keep their values. *)
Theorem Arr_flags_from_result (_bIncPc : bool) (s : CCpu6502) :
  0 <= ui8A (m_rRegs s) < 256 -> 0 <= m_ui8Operand s < 256 ->
  let c := Z.b2z (Z.testbit (ui8Status (m_rRegs s)) 0) in
  let t := Arr_BeginInst _bIncPc s in
  let A' := ui8A (m_rRegs t) in
  let st' := ui8Status (m_rRegs t) in
  A' = Z.land (ui8A (m_rRegs s)) (m_ui8Operand s) / 2 + 128 * c /\
  Z.testbit st' 0 = Z.testbit A' 6 /\
  Z.testbit st' 6 = xorb (Z.testbit A' 6) (Z.testbit A' 5) /\
  Z.testbit st' 1 = (A' =? 0) /\
  Z.testbit st' 7 = (128 <=? A') /\
  (forall i, 0 <= i -> i <> 0 -> i <> 1 -> i <> 6 -> i <> 7 ->
     Z.testbit st' i = Z.testbit (ui8Status (m_rRegs s)) i) /\
  ui8X (m_rRegs t) = ui8X (m_rRegs s) /\ ui8Y (m_rRegs t) = ui8Y (m_rRegs s) /\
  ui8S (m_rRegs t) = ui8S (m_rRegs s).
Proof.
  intros HA Hm c t A' st'.
  pose proof (arr_check_all (Z.testbit (ui8Status (m_rRegs s)) 0) _ _ HA Hm) as Hchk.
  unfold arr_check in Hchk. rewrite !andb_true_iff in Hchk.
  destruct Hchk as [[[K1 K2] K3] K4].
  apply Z.eqb_eq in K1. apply eqb_prop in K2, K3, K4. rewrite land_1_b2z in K3.
  destruct (status_UpdatePcIf _bIncPc (BeginInst s)) as (UA & UX & UY & US & USt & UOp).
  rewrite BeginInst_regs in UA, UX, UY, US, USt. rewrite BeginInst_operand in UOp.
  subst t A' st'. unfold Arr_BeginInst. alu_cbn.
  rewrite UA, UX, UY, US, USt, UOp. rewrite !carry_in. flag_bits. fold c.
  repeat split; try assumption.
  intros i Hi n0 n1 n6 n7. other_bits. reflexivity.
Qed.

Lemma sbx_check_all (a m : Z) : 0 <= a < 256 -> 0 <= m < 256 -> sbx_check a m = true.
Proof. apply (byte_cases2 sbx_check). vm_compute. reflexivity. Qed.

(** [Sbx_IncPc_BeginInst] compares A AND X with the operand and keeps
    the difference: X receives [(A & X) - operand] modulo 256 and the
    status register is the one [Cmp] leaves for A AND X and the operand,
    so C is set exactly when no borrow was needed; A, Y and S keep their
    values. *)
Theorem Sbx_compares (s : CCpu6502) :
  0 <= ui8X (m_rRegs s) < 256 -> 0 <= m_ui8Operand s < 256 ->
  let anx := Z.land (ui8A (m_rRegs s)) (ui8X (m_rRegs s)) in
  let t := Sbx_IncPc_BeginInst s in
  ui8X (m_rRegs t) = u8 (anx - m_ui8Operand s) /\
  ui8Status (m_rRegs t) = ui8Status (m_rRegs (Cmp anx (m_ui8Operand s) s)) /\
  Z.testbit (ui8Status (m_rRegs t)) 0 = (m_ui8Operand s <=? anx) /\
  ui8A (m_rRegs t) = ui8A (m_rRegs s) /\ ui8Y (m_rRegs t) = ui8Y (m_rRegs s) /\
  ui8S (m_rRegs t) = ui8S (m_rRegs s).
Proof.
  intros HX Hm anx t.
  assert (Hanx : 0 <= anx < 256) by (apply land_byte_range; exact HX).
  pose proof (sbx_check_all anx _ Hanx Hm) as Hchk.
  unfold sbx_check in Hchk. rewrite !andb_true_iff in Hchk.
  destruct Hchk as [K1 K2]. apply eqb_prop in K1, K2.
  destruct (status_UpdatePcIf true (BeginInst s)) as (UA & UX & UY & US & USt & UOp).
  rewrite BeginInst_regs in UA, UX, UY, US, USt. rewrite BeginInst_operand in UOp.
  unfold UpdatePcIf in UA, UX, UY, US, USt, UOp.
  subst t. unfold Sbx_IncPc_BeginInst, Cmp.
  set (t1 := LSN_UPDATE_PC (BeginInst s)) in *. clearbody t1. alu_cbn.
  rewrite UA, UX, UY, US, USt, UOp. fold anx.
  rewrite (u8_small anx Hanx). rewrite K1, K2.
  split; [reflexivity |]. split; [status_eq |]. split; [flag_bits; reflexivity |].
  repeat split.
Qed.

Lemma php_check_all (st : Z) : 0 <= st < 256 -> php_check st = true.
Proof. apply (byte_cases php_check). vm_compute. reflexivity. Qed.

(** The status byte survives the trip through its pushed image: [Php]
    prepares the status with B and bit 5 set; [Plp_BeginInst] takes from
    such an image every flag but B, which it clears, and bit 5, which it
    sets, so a status register with B clear and bit 5 set comes back
    unchanged; [CopyOperandToStatusWithoutB] takes the six flags from the
    image and keeps its own B and bit 5, so it always restores the status
    register exactly. *)
Theorem Php_image_round_trip (s : CCpu6502) :
  0 <= ui8Status (m_rRegs s) < 256 ->
  let st := ui8Status (m_rRegs s) in
  m_ui8Operand (Php s) = Z.lor st 0x30 /\
  ui8Status (m_rRegs (Php s)) = st /\
  ui8Status (m_rRegs (Plp_BeginInst (Php s))) = Z.lor (Z.land st 0xEF) 0x20 /\
  (Z.testbit st 4 = false -> Z.testbit st 5 = true ->
     ui8Status (m_rRegs (Plp_BeginInst (Php s))) = st) /\
  ui8Status (m_rRegs (CopyOperandToStatusWithoutB (Php s))) = st.
Proof.
  intros Hst st.
  pose proof (php_check_all st Hst) as Hchk.
  unfold php_check in Hchk. rewrite !andb_true_iff in Hchk.
  destruct Hchk as [[[K1 K2] K3] K4]. apply Z.eqb_eq in K1, K2, K3.
  assert (Hop : m_ui8Operand (Php s) = Z.lor st 0x30) by (rewrite <- K1; reflexivity).
  assert (Hplp : ui8Status (m_rRegs (Plp_BeginInst (Php s))) = Z.lor (Z.land st 0xEF) 0x20).
  { unfold Plp_BeginInst. cbn [m_rRegs set_m_rRegs ui8Status set_ui8Status].
    rewrite BeginInst_operand. rewrite <- K2. reflexivity. }
  split; [exact Hop |]. split; [reflexivity |]. split; [exact Hplp |]. split.
  - intros H4 H5. rewrite Hplp. rewrite H4, H5 in K4. cbn [orb negb] in K4.
    apply Z.eqb_eq. exact K4.
  - etransitivity; [| exact K3]. reflexivity.
Qed.

End BeginInstFrame.

End AluProps.

(** * Properties of the CPU memory map *)

Module MemoryMapProps.
Import Bus.

Lemma accessors_loop (rf : PfReadFunc) (wf : PfWriteFunc) (parm : Z -> Z) (l : list Z)
    (b : Slots) :
  let b' := foldl (fun acc I => SetWriteFunc (u16 I) wf (parm I)
                                   (SetReadFunc (u16 I) rf (parm I) acc)) b l in
  Readers b' =
    foldl (fun acc I => point_update (u16 I) (MkAccessor rf (parm I)) acc) (Readers b) l /\
  Writers b' =
    foldl (fun acc I => point_update (u16 I) (MkAccessor wf (parm I)) acc) (Writers b) l /\
  FloatMasks b' = FloatMasks b.
Proof.
  revert b. induction l as [| x l IH]; intros b; [repeat split |].
  cbn [foldl]. cbn zeta in IH.
  destruct (IH (SetWriteFunc (u16 x) wf (parm x) (SetReadFunc (u16 x) rf (parm x) b)))
    as (-> & -> & ->).
  repeat split.
Qed.

Lemma range_loop (rf : PfReadFunc) (wf : PfWriteFunc) (parm : Z -> Z) (lo hi : Z)
    (b : Slots) (a : Z) :
  0 <= lo -> hi <= 0x10000 ->
  let b' := for_range lo hi
              (fun I acc => SetWriteFunc (u16 I) wf (parm I)
                              (SetReadFunc (u16 I) rf (parm I) acc)) b in
  Readers b' a = (if (lo <=? a) && (a <? hi) then MkAccessor rf (parm a) else Readers b a) /\
  Writers b' a = (if (lo <=? a) && (a <? hi) then MkAccessor wf (parm a) else Writers b a) /\
  FloatMasks b' = FloatMasks b.
Proof.
  intros Hlo Hhi b'. subst b'. unfold for_range.
  destruct (accessors_loop rf wf parm (seqZ lo (hi - lo)) b) as (-> & -> & ->).
  assert (R : forall I, In I (seqZ lo (hi - lo)) -> u16 I = I).
  { intros I HI. apply Mapper094Props.In_seqZ in HI. apply Mapper094Props.u16_word. lia. }
  destruct (Mapper094Props.fold_point_update (fun I => MkAccessor rf (parm I)) _
              (Readers b) a R) as [Rin Rout].
  destruct (Mapper094Props.fold_point_update (fun I => MkAccessor wf (parm I)) _
              (Writers b) a R) as [Win Wout].
  destruct (Z.leb_spec lo a); destruct (Z.ltb_spec a hi); cbn [andb].
  - split; [apply Rin | split; [apply Win | reflexivity]]; apply Mapper094Props.In_seqZ; lia.
  - split; [apply Rout | split; [apply Wout | reflexivity]];
      intros HI; apply Mapper094Props.In_seqZ in HI; lia.
  - split; [apply Rout | split; [apply Wout | reflexivity]];
      intros HI; apply Mapper094Props.In_seqZ in HI; lia.
  - split; [apply Rout | split; [apply Wout | reflexivity]];
      intros HI; apply Mapper094Props.In_seqZ in HI; lia.
Qed.

Section Layout.
Variables LSN_CPU_START LSN_CPU_FULL_SIZE LSN_INTERNAL_RAM LSN_MEM_FULL_SIZE : Z.
Hypothesis start_nonneg : 0 <= LSN_CPU_START.
Hypothesis size_nonneg : 0 <= LSN_CPU_FULL_SIZE.
Hypothesis ram_below_ports : LSN_CPU_START + LSN_CPU_FULL_SIZE <= 0x4000.
Hypothesis ram_size : 0 < LSN_INTERNAL_RAM.
Hypothesis mem_size : LSN_MEM_FULL_SIZE <= 0x10000.

(** The RAM cell of an address, for the layout at hand. *)
Abbreviation cell := (ram_cell LSN_CPU_START LSN_INTERNAL_RAM).

(** The three loops of [ApplyMemoryMap], address by address. *)
Lemma ApplyMemoryMap_slots (b : Slots) (a : Z) :
  let b' := ApplyMemoryMap LSN_CPU_START LSN_CPU_FULL_SIZE LSN_INTERNAL_RAM
              LSN_MEM_FULL_SIZE b in
  let in_ram := (LSN_CPU_START <=? a) && (a <? LSN_CPU_START + LSN_CPU_FULL_SIZE) in
  let in_io := (0x4000 <=? a) && (a <? 0x4015) in
  let in_rest := (0x4018 <=? a) && (a <? LSN_MEM_FULL_SIZE) in
  Readers b' a =
    (if a =? 0x4017 then MkAccessor PfRead4017 0
     else if a =? 0x4016 then MkAccessor PfRead4016 0
     else if a =? 0x4014 then MkAccessor PfNoRead 0x4014
     else if in_rest then MkAccessor PfNoRead (u16 a)
     else if in_io then MkAccessor PfNoRead (u16 a)
     else if in_ram then MkAccessor PfStdRead (u16 (cell a))
     else Readers b a) /\
  Writers b' a =
    (if a =? 0x4016 then MkAccessor PfWrite4016 0
     else if a =? 0x4014 then MkAccessor PfWrite4014 0x4014
     else if in_rest then MkAccessor PfNoWrite (u16 a)
     else if in_io then MkAccessor PfNoWrite (u16 a)
     else if in_ram then MkAccessor PfStdWrite (u16 (cell a))
     else Writers b a) /\
  FloatMasks b' a = (if a =? 0x4015 then 0x00 else FloatMasks b a).
Proof.
  intros b' in_ram in_io in_rest. subst b'. unfold ApplyMemoryMap.
  set (b1 := for_range LSN_CPU_START _ _ b).
  set (b2 := for_range 0x4000 0x4015 _ b1).
  set (b3 := for_range 0x4018 LSN_MEM_FULL_SIZE _ b2).
  assert (L1 : Readers b1 a =
                 (if in_ram then MkAccessor PfStdRead (u16 (cell a)) else Readers b a) /\
               Writers b1 a =
                 (if in_ram then MkAccessor PfStdWrite (u16 (cell a)) else Writers b a) /\
               FloatMasks b1 = FloatMasks b).
  { apply (range_loop PfStdRead PfStdWrite (fun I => u16 (cell I))
             LSN_CPU_START (LSN_CPU_START + LSN_CPU_FULL_SIZE) b a); lia. }
  assert (L2 : Readers b2 a = (if in_io then MkAccessor PfNoRead (u16 a) else Readers b1 a) /\
               Writers b2 a = (if in_io then MkAccessor PfNoWrite (u16 a) else Writers b1 a) /\
               FloatMasks b2 = FloatMasks b1).
  { apply (range_loop PfNoRead PfNoWrite u16 0x4000 0x4015 b1 a); lia. }
  assert (L3 : Readers b3 a = (if in_rest then MkAccessor PfNoRead (u16 a) else Readers b2 a) /\
               Writers b3 a = (if in_rest then MkAccessor PfNoWrite (u16 a) else Writers b2 a) /\
               FloatMasks b3 = FloatMasks b2).
  { apply (range_loop PfNoRead PfNoWrite u16 0x4018 LSN_MEM_FULL_SIZE b2 a); lia. }
  destruct L1 as (R1 & W1 & F1). destruct L2 as (R2 & W2 & F2).
  destruct L3 as (R3 & W3 & F3).
  cbn [Readers Writers FloatMasks SetReadFunc SetWriteFunc SetFloatMask].
  unfold point_update. rewrite R3, R2, R1, W3, W2, W1, F3, F2, F1.
  repeat split.
Qed.

(** [ApplyMemoryMap] mirrors the internal RAM through its window: every
    address of the window gets the standard read and write accessors with
    the RAM cell [(a - start) % ram + start] as parameter, a cell that
    lies in the first [ram] bytes of the window, so two addresses of the
    window that differ by a multiple of the RAM size reach the same cell.
    The addresses 0x4000-0x4013 and 0x4018 up to the end of memory get the
    no-read and no-write accessors with the address itself. *)
Theorem ApplyMemoryMap_mirrors_ram (b : Slots) :
  let b' := ApplyMemoryMap LSN_CPU_START LSN_CPU_FULL_SIZE LSN_INTERNAL_RAM
              LSN_MEM_FULL_SIZE b in
  (forall a, LSN_CPU_START <= a < LSN_CPU_START + LSN_CPU_FULL_SIZE ->
     Readers b' a = MkAccessor PfStdRead (cell a) /\
     Writers b' a = MkAccessor PfStdWrite (cell a) /\
     LSN_CPU_START <= cell a < LSN_CPU_START + LSN_INTERNAL_RAM /\
     cell a <= a) /\
  (forall a k, LSN_CPU_START <= a < LSN_CPU_START + LSN_CPU_FULL_SIZE ->
     LSN_CPU_START <= a + k * LSN_INTERNAL_RAM < LSN_CPU_START + LSN_CPU_FULL_SIZE ->
     Readers b' (a + k * LSN_INTERNAL_RAM) = Readers b' a /\
     Writers b' (a + k * LSN_INTERNAL_RAM) = Writers b' a) /\
  (forall a, 0x4000 <= a < 0x4014 \/ 0x4018 <= a < LSN_MEM_FULL_SIZE ->
     Readers b' a = MkAccessor PfNoRead a /\ Writers b' a = MkAccessor PfNoWrite a).
Proof.
  intros b'.
  assert (Hram : forall a, LSN_CPU_START <= a < LSN_CPU_START + LSN_CPU_FULL_SIZE ->
            Readers b' a = MkAccessor PfStdRead (cell a) /\
            Writers b' a = MkAccessor PfStdWrite (cell a) /\
            LSN_CPU_START <= cell a < LSN_CPU_START + LSN_INTERNAL_RAM /\
            cell a <= a).
  { intros a Ha. destruct (ApplyMemoryMap_slots b a) as (R & W & _). fold b' in R, W.
    assert (Hmod : 0 <= (a - LSN_CPU_START) mod LSN_INTERNAL_RAM < LSN_INTERNAL_RAM)
      by (apply Z.mod_pos_bound; lia).
    assert (Hle : (a - LSN_CPU_START) mod LSN_INTERNAL_RAM <= a - LSN_CPU_START)
      by (apply Z.mod_le; lia).
    assert (Hu : u16 (cell a) = cell a)
      by (apply Mapper094Props.u16_word; unfold ram_cell; lia).
    rewrite R, W, Hu.
    replace (a =? 0x4017) with false by (symmetry; apply Z.eqb_neq; lia).
    replace (a =? 0x4016) with false by (symmetry; apply Z.eqb_neq; lia).
    replace (a =? 0x4014) with false by (symmetry; apply Z.eqb_neq; lia).
    replace (0x4018 <=? a) with false by (symmetry; apply Z.leb_gt; lia).
    replace (0x4000 <=? a) with false by (symmetry; apply Z.leb_gt; lia).
    replace (LSN_CPU_START <=? a) with true by (symmetry; apply Z.leb_le; lia).
    replace (a <? LSN_CPU_START + LSN_CPU_FULL_SIZE) with true
      by (symmetry; apply Z.ltb_lt; lia).
    cbn [andb]. unfold ram_cell. repeat split; lia. }
  split; [exact Hram |]. split.
  - intros a k Ha Hk.
    destruct (Hram a Ha) as (R & W & _). destruct (Hram _ Hk) as (R' & W' & _).
    assert (Hc : cell (a + k * LSN_INTERNAL_RAM) = cell a).
    { unfold ram_cell. f_equal.
      replace (a + k * LSN_INTERNAL_RAM - LSN_CPU_START)
        with (a - LSN_CPU_START + k * LSN_INTERNAL_RAM) by lia.
      apply Z.mod_add. lia. }
    rewrite R, W, R', W', Hc. split; reflexivity.
  - intros a Ha. destruct (ApplyMemoryMap_slots b a) as (R & W & _). fold b' in R, W.
    rewrite R, W.
    assert (Hu : u16 a = a) by (apply Mapper094Props.u16_word; lia).
    rewrite Hu.
    replace (a =? 0x4017) with false by (symmetry; apply Z.eqb_neq; lia).
    replace (a =? 0x4016) with false by (symmetry; apply Z.eqb_neq; lia).
    replace (a =? 0x4014) with false by (symmetry; apply Z.eqb_neq; lia).
    destruct Ha as [Ha | Ha].
    + replace (0x4018 <=? a) with false by (symmetry; apply Z.leb_gt; lia).
      replace (0x4000 <=? a) with true by (symmetry; apply Z.leb_le; lia).
      replace (a <? 0x4015) with true by (symmetry; apply Z.ltb_lt; lia).
      cbn [andb]. split; reflexivity.
    + replace (0x4018 <=? a) with true by (symmetry; apply Z.leb_le; lia).
      replace (a <? LSN_MEM_FULL_SIZE) with true by (symmetry; apply Z.ltb_lt; lia).
      cbn [andb]. split; reflexivity.
Qed.

(** What [ApplyMemoryMap] leaves alone: both accessors of 0x4015 and the
    write accessor of 0x4017 are the ones the bus had before, as are the
    accessors of every address outside the RAM window, below 0x4000 or
    from the end of memory on; and of the float masks only the one of
    0x4015 changes, to 0x00. *)
Theorem ApplyMemoryMap_leaves_alone (b : Slots) :
  let b' := ApplyMemoryMap LSN_CPU_START LSN_CPU_FULL_SIZE LSN_INTERNAL_RAM
              LSN_MEM_FULL_SIZE b in
  Readers b' 0x4015 = Readers b 0x4015 /\
  Writers b' 0x4015 = Writers b 0x4015 /\
  Writers b' 0x4017 = Writers b 0x4017 /\
  (forall a, a < LSN_CPU_START \/ LSN_CPU_START + LSN_CPU_FULL_SIZE <= a < 0x4000 \/
             (LSN_MEM_FULL_SIZE <= a /\ 0x4018 <= a) ->
     Readers b' a = Readers b a /\ Writers b' a = Writers b a) /\
  (forall a, FloatMasks b' a = if a =? 0x4015 then 0x00 else FloatMasks b a).
Proof.
  intros b'.
  assert (H15 : Readers b' 0x4015 = Readers b 0x4015 /\ Writers b' 0x4015 = Writers b 0x4015).
  { destruct (ApplyMemoryMap_slots b 0x4015) as (R & W & _). fold b' in R, W.
    rewrite R, W. cbn [Z.eqb Pos.eqb].
    replace (0x4018 <=? 0x4015) with false by reflexivity.
    replace (0x4015 <? 0x4015) with false by reflexivity.
    replace (0x4015 <? LSN_CPU_START + LSN_CPU_FULL_SIZE) with false
      by (symmetry; apply Z.ltb_ge; lia).
    rewrite !andb_false_r. cbn [andb]. split; reflexivity. }
  destruct H15 as [R15 W15].
  split; [exact R15 |]. split; [exact W15 |]. split.
  { destruct (ApplyMemoryMap_slots b 0x4017) as (_ & W & _). fold b' in W.
    rewrite W. cbn [Z.eqb Pos.eqb].
    replace (0x4018 <=? 0x4017) with false by reflexivity.
    replace (0x4017 <? 0x4015) with false by reflexivity.
    replace (0x4017 <? LSN_CPU_START + LSN_CPU_FULL_SIZE) with false
      by (symmetry; apply Z.ltb_ge; lia).
    rewrite !andb_false_r. cbn [andb]. reflexivity. }
  split.
  - intros a Ha. destruct (ApplyMemoryMap_slots b a) as (R & W & _). fold b' in R, W.
    rewrite R, W.
    replace (a =? 0x4017) with false by (symmetry; apply Z.eqb_neq; lia).
    replace (a =? 0x4016) with false by (symmetry; apply Z.eqb_neq; lia).
    replace (a =? 0x4014) with false by (symmetry; apply Z.eqb_neq; lia).
    replace ((0x4018 <=? a) && (a <? LSN_MEM_FULL_SIZE)) with false
      by (symmetry; apply andb_false_iff;
          destruct (Z.leb_spec 0x4018 a); [right; apply Z.ltb_ge; lia | left; reflexivity]).
    replace ((0x4000 <=? a) && (a <? 0x4015)) with false
      by (symmetry; apply andb_false_iff;
          destruct (Z.leb_spec 0x4000 a); [right; apply Z.ltb_ge; lia | left; reflexivity]).
    replace ((LSN_CPU_START <=? a) && (a <? LSN_CPU_START + LSN_CPU_FULL_SIZE)) with false
      by (symmetry; apply andb_false_iff;
          destruct (Z.leb_spec LSN_CPU_START a);
          [right; apply Z.ltb_ge; lia | left; reflexivity]).
    split; reflexivity.
  - intros a. destruct (ApplyMemoryMap_slots b a) as (_ & _ & F). exact F.
Qed.

End Layout.

End MemoryMapProps.

(** * Properties of the controller ports *)

Section PortProps.
Context {ext : Collaborators} {hooks : Hooks}.

Lemma shifted_bit (r : Z) (k : nat) :
  Z.testbit (u8 (Z.shiftl r 1)) (7 - Z.of_nat k) = Z.testbit r (7 - Z.of_nat (S k)).
Proof.
  destruct (Z.ltb_spec (7 - Z.of_nat k) 0) as [Hneg | Hpos].
  - rewrite !Z.testbit_neg_r by lia. reflexivity.
  - rewrite testbit_u8 by lia. rewrite Z.shiftl_spec by lia. f_equal. lia.
Qed.

Lemma u8_shiftl_step (r : Z) (n : nat) :
  u8 (Z.shiftl (u8 (Z.shiftl r 1)) (Z.of_nat n)) = u8 (Z.shiftl r (Z.of_nat (S n))).
Proof.
  rewrite !Z.shiftl_mul_pow2 by lia. unfold u8.
  rewrite Z.mul_mod_idemp_l by lia.
  replace (Z.of_nat (S n)) with (1 + Z.of_nat n) by lia.
  rewrite Z.pow_add_r by lia. f_equal. lia.
Qed.

(** [n] reads of 0x4016 in a row shift the register out, bit 7 first. *)
Lemma reads_shift_out (n : nat) (s : CCpu6502) :
  inputs_sized s ->
  let r := at8 (m_ui8InputsState s) 0 in
  let res := run4016 (repeat PortRead n) s in
  0 <= r < 256 ->
  fst res = map (fun k : nat => Z.b2z (Z.testbit r (7 - Z.of_nat k))) (seq 0 n) /\
  at8 (m_ui8InputsState (snd res)) 0 = u8 (Z.shiftl r (Z.of_nat n)).
Proof.
  revert s. induction n as [| n IH]; intros s Hs r res Hr.
  - subst res. cbn [repeat run4016 fst snd seq map]. split; [reflexivity |].
    rewrite Z.shiftl_0_r. symmetry. apply u8_small. exact Hr.
  - subst res. cbn [repeat run4016 access4016 fst snd].
    destruct (Read4016_spec s Hs) as [Hbit Hreg]. fold r in Hbit, Hreg.
    specialize (IH (snd (Read4016 s)) (Read4016_sized s Hs)). cbn zeta in IH.
    rewrite Hreg in IH.
    destruct IH as (IH1 & IH2); [unfold u8; apply Z.mod_pos_bound; lia |].
    rewrite IH1, IH2. split.
    + cbn [seq map app]. f_equal.
      * rewrite Hbit. change (7 - Z.of_nat 0) with 7. destruct (Z.testbit r 7); reflexivity.
      * rewrite <- seq_shift, map_map. apply map_ext. intros k.
        rewrite shifted_bit. reflexivity.
    + apply u8_shiftl_step.
Qed.

(** After a write to 0x4016 the buttons come out serially: the [k]-th of
    the following reads (counting from 0) returns bit [7 - k] of the
    snapshot the write polled, so the first eight reads return the eight
    buttons, bit 7 first, and every read after them returns 0; the
    register is then the snapshot shifted left by the number of reads. *)
Theorem Controller_serial_readout (v : Z) (n : nat) (s : CCpu6502) :
  inputs_sized s ->
  let snap := snapshot4016 s in
  let res := run4016 (PortWrite v :: repeat PortRead n) s in
  fst res = map (fun k : nat => Z.b2z (Z.testbit snap (7 - Z.of_nat k))) (seq 0 n) /\
  (forall k, (8 <= k < n)%nat -> fst res !! k = Some 0) /\
  at8 (m_ui8InputsState (snd res)) 0 = u8 (Z.shiftl snap (Z.of_nat n)).
Proof.
  intros Hs snap res.
  destruct (Write4016_spec v s Hs) as (Hreg & _ & _). fold snap in Hreg.
  assert (Hsnap : 0 <= snap < 256).
  { subst snap. unfold snapshot4016. destruct (m_pipPoller s); [| lia].
    unfold u8. apply Z.mod_pos_bound. lia. }
  pose proof (reads_shift_out n (Write4016 v s) (Write4016_sized v s Hs)) as Hrd.
  cbn zeta in Hrd. rewrite Hreg in Hrd. destruct (Hrd Hsnap) as (H1 & H2).
  assert (Hres : fst res =
            map (fun k : nat => Z.b2z (Z.testbit snap (7 - Z.of_nat k))) (seq 0 n)).
  { subst res. cbn [run4016 access4016 fst snd app]. exact H1. }
  split; [exact Hres |]. split.
  - intros k Hk. rewrite Hres. rewrite list_lookup_fmap.
    rewrite lookup_seq_lt by lia. cbn [fmap option_fmap option_map].
    rewrite Z.testbit_neg_r by lia. reflexivity.
  - subst res. cbn [run4016 access4016 fst snd]. exact H2.
Qed.

(** The two controller ports do not disturb each other: an access to
    0x4016 leaves the shift register of controller 2 as it is, and a read
    of 0x4017 or [Write4017] leaves the one of controller 1 as it is.  A
    read of 0x4017 returns bit 7 of the second register and shifts it left
    by one.  [Write4017] loads the second register from
    [m_ui8InputsPoll[1]] and, unlike [Write4016], polls nothing: the
    polled bytes stay as they are. *)
Theorem Ports_independent (v : Z) (s : CCpu6502) :
  inputs_sized s ->
  let reg (i : nat) t := at8 (m_ui8InputsState t) i in
  reg 1%nat (snd (Read4016 s)) = reg 1%nat s /\
  reg 1%nat (Write4016 v s) = reg 1%nat s /\
  reg 0%nat (snd (Read4017 s)) = reg 0%nat s /\
  reg 0%nat (Write4017 v s) = reg 0%nat s /\
  fst (Read4017 s) = Z.b2z (Z.testbit (reg 1%nat s) 7) /\
  reg 1%nat (snd (Read4017 s)) = u8 (Z.shiftl (reg 1%nat s) 1) /\
  reg 1%nat (Write4017 v s) = at8 (m_ui8InputsPoll s) 1 /\
  m_ui8InputsPoll (Write4017 v s) = m_ui8InputsPoll s.
Proof.
  intros (H1 & H2 & H3) reg. subst reg. cbn beta.
  unfold Read4016, Read4017, Write4016, Write4017.
  destruct (m_pipPoller s) eqn:E; cbn; rewrite ?E; cbn;
    rewrite ?at8_insert by lia; rewrite ?at8_insert_ne by lia;
    rewrite ?nonzero_0x80; repeat split;
    destruct (Z.testbit (at8 (m_ui8InputsState s) 1) 7); reflexivity.
Qed.

End PortProps.

(** * More properties of mapper 094 *)

Module Mapper094Banks.
Import Bus Mapper094.

Lemma bank_field (v : Z) : Z.shiftr (Z.land v 0x1C) 2 = (v / 4) mod 8.
Proof.
  rewrite Z.shiftr_land. change (Z.shiftr 0x1C 2) with (Z.ones 3).
  rewrite Z.land_ones by lia. rewrite Z.shiftr_div_pow2 by lia. reflexivity.
Qed.

Lemma read_loop_frame (pf : PfReadFunc) (parm : Z -> Z) (l : list Z) (b : Slots) :
  FloatMasks (foldl (fun acc I => SetReadFunc (u16 I) pf (parm I) acc) b l) = FloatMasks b.
Proof.
  revert b. induction l as [| x l IH]; intros b; [reflexivity |].
  cbn [foldl]. rewrite IH. reflexivity.
Qed.

Lemma write_loop_frame (pf : PfWriteFunc) (parm : Z -> Z) (l : list Z) (b : Slots) :
  FloatMasks (foldl (fun acc I => SetWriteFunc (u16 I) pf (parm I) acc) b l) = FloatMasks b.
Proof.
  revert b. induction l as [| x l IH]; intros b; [reflexivity |].
  cbn [foldl]. rewrite IH. reflexivity.
Qed.

Lemma Ppu_write_loop_frame (pf : PfWriteFunc) (parm : Z -> Z) (l : list Z) (b : CPpuBus) :
  Readers (PpuSlots (foldl (fun acc I => Ppu_SetWriteFunc (u16 I) pf (parm I) acc) b l)) =
    Readers (PpuSlots b) /\
  FloatMasks (PpuSlots (foldl (fun acc I => Ppu_SetWriteFunc (u16 I) pf (parm I) acc) b l)) =
    FloatMasks (PpuSlots b).
Proof.
  revert b. induction l as [| x l IH]; intros b; [split; reflexivity |].
  cbn [foldl]. destruct (IH (Ppu_SetWriteFunc (u16 x) pf (parm x) b)) as [-> ->].
  split; reflexivity.
Qed.

Section Banks.
Variables LSN_PPU_PATTERN_TABLES LSN_PPU_NAMETABLES LSN_PPU_PATTERN_TABLE_SIZE : Z.
Abbreviation ApplyMap :=
  (ApplyMap LSN_PPU_PATTERN_TABLES LSN_PPU_NAMETABLES LSN_PPU_PATTERN_TABLE_SIZE).

(** [SelectBank] looks at bits 2 to 4 of the value written and at nothing
    else: the bank it selects is [(value / 4) % 8 % banks], so a value and
    the same value masked with 0b11100 select the same bank, no bank from
    the ninth on can be selected, and each of the first eight banks the
    ROM has is selected by writing its number times four. *)
Theorem SelectBank_bits_2_to_4 (_ui8Val k : Z) (rom : LSN_ROM) (m0 : CMapper094) :
  0x4000 <= PrgSize rom ->
  let m := InitWithRom rom m0 in
  let banks := PrgSize rom / 0x4000 in
  SelectBank _ui8Val m = SelectBank (Z.land _ui8Val 0x1C) m /\
  (exists m', SelectBank _ui8Val m = Some m' /\
     m_ui8PgmBank m' = (_ui8Val / 4) mod 8 mod banks /\
     0 <= m_ui8PgmBank m' < Z.min banks 8) /\
  (0 <= k < banks -> k < 8 ->
     exists m', SelectBank (k * 4) m = Some m' /\ m_ui8PgmBank m' = k).
Proof.
  intros Hsize m banks.
  assert (Hb : 0 < banks) by (subst banks; apply Z.div_str_pos; lia).
  assert (Hne : (banks =? 0) = false) by (apply Z.eqb_neq; lia).
  assert (Hsel : forall v, SelectBank v m =
            Some (MkMapper rom (m_stFixedOffset m0) ((v / 4) mod 8 mod banks) 0x1C)).
  { intros v. unfold SelectBank. subst m.
    cbn [InitWithRom CMapperBase_InitWithRom m_prRom m_ui8Mask m_stFixedOffset].
    fold banks. rewrite Hne. rewrite bank_field.
    assert (H8 : 0 <= (v / 4) mod 8 < 8) by (apply Z.mod_pos_bound; lia).
    assert (Hm : 0 <= (v / 4) mod 8 mod banks < banks) by (apply Z.mod_pos_bound; lia).
    assert (Hle : (v / 4) mod 8 mod banks <= (v / 4) mod 8) by (apply Z.mod_le; lia).
    rewrite u8_small by lia. reflexivity. }
  split; [| split].
  - rewrite !Hsel. do 3 f_equal.
    rewrite <- !bank_field. f_equal. rewrite <- Z.land_assoc. reflexivity.
  - eexists. split; [apply Hsel |]. cbn [m_ui8PgmBank]. split; [reflexivity |].
    assert (H8 : 0 <= (_ui8Val / 4) mod 8 < 8) by (apply Z.mod_pos_bound; lia).
    assert (Hm : 0 <= (_ui8Val / 4) mod 8 mod banks < banks) by (apply Z.mod_pos_bound; lia).
    assert (Hle : (_ui8Val / 4) mod 8 mod banks <= (_ui8Val / 4) mod 8)
      by (apply Z.mod_le; lia).
    lia.
  - intros Hk Hk8. eexists. split; [apply Hsel |]. cbn [m_ui8PgmBank].
    rewrite Z.div_mul by lia. rewrite (Z.mod_small k 8) by lia.
    apply Z.mod_small. lia.
Qed.

(** What [ApplyMap] leaves alone: on the CPU bus, both accessors of every
    address below 0x8000 (and from 0x10000 on) and every float mask; on
    the PPU bus, every read accessor, every float mask, the memory, and
    the write accessors outside the pattern-table range; in the mapper,
    the ROM, the selected bank and the mask.  The fixed offset it computes
    is never negative: it is 0 for a PRG ROM of at most 0x4000 bytes and
    the size less 0x4000 otherwise. *)
Theorem ApplyMap_leaves_alone (c : Cartridge) :
  let c' := ApplyMap c in
  (forall a, a < 0x8000 \/ 0x10000 <= a ->
     Readers (CpuBus c') a = Readers (CpuBus c) a /\
     Writers (CpuBus c') a = Writers (CpuBus c) a) /\
  FloatMasks (CpuBus c') = FloatMasks (CpuBus c) /\
  Readers (PpuSlots (PpuBus c')) = Readers (PpuSlots (PpuBus c)) /\
  FloatMasks (PpuSlots (PpuBus c')) = FloatMasks (PpuSlots (PpuBus c)) /\
  PpuRam (PpuBus c') = PpuRam (PpuBus c) /\
  (0 <= LSN_PPU_PATTERN_TABLES -> LSN_PPU_NAMETABLES <= 0x10000 ->
   forall a, a < LSN_PPU_PATTERN_TABLES \/ LSN_PPU_NAMETABLES <= a ->
     Writers (PpuSlots (PpuBus c')) a = Writers (PpuSlots (PpuBus c)) a) /\
  m_prRom (Mapper c') = m_prRom (Mapper c) /\
  m_ui8PgmBank (Mapper c') = m_ui8PgmBank (Mapper c) /\
  m_ui8Mask (Mapper c') = m_ui8Mask (Mapper c) /\
  0 <= m_stFixedOffset (Mapper c') /\
  m_stFixedOffset (Mapper c') =
    (if PrgSize (m_prRom (Mapper c)) <=? 0x4000 then 0
     else PrgSize (m_prRom (Mapper c)) - 0x4000).
Proof.
  intros c'. subst c'. unfold Mapper094.ApplyMap, for_range. cbn [CpuBus PpuBus Mapper].
  set (l1 := seqZ 0xC000 (0x10000 - 0xC000)).
  set (l2 := seqZ 0x8000 (0xC000 - 0x8000)).
  set (l3 := seqZ 0x8000 (0x10000 - 0x8000)).
  set (l4 := seqZ LSN_PPU_PATTERN_TABLES (LSN_PPU_NAMETABLES - LSN_PPU_PATTERN_TABLES)).
  assert (R1 : forall I, In I l1 -> u16 I = I)
    by (intros I HI; apply Mapper094Props.In_seqZ in HI; apply Mapper094Props.u16_word; lia).
  assert (R2 : forall I, In I l2 -> u16 I = I)
    by (intros I HI; apply Mapper094Props.In_seqZ in HI; apply Mapper094Props.u16_word; lia).
  assert (R3 : forall I, In I l3 -> u16 I = I)
    by (intros I HI; apply Mapper094Props.In_seqZ in HI; apply Mapper094Props.u16_word; lia).
  split; [| split; [| split; [| split; [| split; [| split]]]]].
  - intros a Ha. split.
    + rewrite (proj2 (Mapper094Props.writers_loop _ _ _ _)).
      rewrite (proj1 (Mapper094Props.readers_loop _ _ _ _)).
      rewrite (proj2 (Mapper094Props.fold_point_update _ l2 _ a R2))
        by (intros HI; apply Mapper094Props.In_seqZ in HI; lia).
      rewrite (proj1 (Mapper094Props.readers_loop _ _ _ _)).
      rewrite (proj2 (Mapper094Props.fold_point_update _ l1 _ a R1))
        by (intros HI; apply Mapper094Props.In_seqZ in HI; lia).
      reflexivity.
    + rewrite (proj1 (Mapper094Props.writers_loop _ (fun _ => 0) _ _)).
      rewrite (proj2 (Mapper094Props.fold_point_update _ l3 _ a R3))
        by (intros HI; apply Mapper094Props.In_seqZ in HI; lia).
      rewrite !(proj2 (Mapper094Props.readers_loop _ _ _ _)). reflexivity.
  - rewrite write_loop_frame, !read_loop_frame. reflexivity.
  - apply (proj1 (Ppu_write_loop_frame _ _ _ _)).
  - apply (proj2 (Ppu_write_loop_frame _ _ _ _)).
  - apply (proj2 (Mapper094Props.Ppu_writers_loop _ _ _ _)).
  - intros Hlo Hhi a Ha.
    assert (R4 : forall I, In I l4 -> u16 I = I)
      by (intros I HI; apply Mapper094Props.In_seqZ in HI;
          apply Mapper094Props.u16_word; lia).
    rewrite (proj1 (Mapper094Props.Ppu_writers_loop _ _ _ _)).
    apply (proj2 (Mapper094Props.fold_point_update _ l4 _ a R4)).
    intros HI. apply Mapper094Props.In_seqZ in HI. lia.
  - cbn [m_prRom m_ui8PgmBank m_ui8Mask m_stFixedOffset]. repeat split; [lia |].
    destruct (Z.leb_spec (PrgSize (m_prRom (Mapper c))) 0x4000); lia.
Qed.

End Banks.

End Mapper094Banks.

(** * Properties of the effective-address and branch steps *)

Section AddressingProps.
Context {ext : Collaborators} {hooks : Hooks}.

(** *** Words and their two bytes *)

Lemma lo8_mod (w : Z) : lo8 w = w mod 256.
Proof. unfold lo8. change 255 with (Z.ones 8). rewrite Z.land_ones by lia. reflexivity. Qed.

Lemma hi8_div (w : Z) : hi8 w = (w / 256) mod 256.
Proof.
  unfold hi8. change 255 with (Z.ones 8). rewrite Z.land_ones by lia.
  rewrite Z.shiftr_div_pow2 by lia. reflexivity.
Qed.

Lemma lor_disjoint (a b : Z) : Z.land a b = 0 -> Z.lor a b = a + b.
Proof. intros H. rewrite <- Z.lxor_lor by exact H. symmetry. apply Z.add_nocarry_lxor, H. Qed.

Lemma testbit_0xFF00 (n : Z) : 0 <= n -> Z.testbit 0xFF00 n = (8 <=? n) && (n <? 16).
Proof.
  intros Hn. change 0xFF00 with (Z.shiftl 255 8). rewrite Z.shiftl_spec by lia.
  destruct (Z.leb_spec 8 n); cbn [andb].
  - rewrite testbit_255 by lia.
    destruct (Z.ltb_spec (n - 8) 8); destruct (Z.ltb_spec n 16); try reflexivity; lia.
  - apply Z.testbit_neg_r. lia.
Qed.

Lemma land_0xFF00 (w : Z) : Z.land w 0xFF00 = 256 * ((w / 256) mod 256).
Proof.
  rewrite <- hi8_div. unfold hi8. rewrite Z.mul_comm, <- (Z.shiftl_mul_pow2 _ 8) by lia.
  apply Z.bits_inj'. intros n Hn.
  rewrite Z.land_spec, testbit_0xFF00, Z.shiftl_spec by lia.
  destruct (Z.leb_spec 8 n); cbn [andb].
  - rewrite Z.land_spec, Z.shiftr_spec, testbit_255 by lia.
    replace (n - 8 + 8) with n by lia.
    destruct (Z.ltb_spec n 16); destruct (Z.ltb_spec (n - 8) 8); try reflexivity; lia.
  - rewrite andb_false_r. symmetry. apply Z.testbit_neg_r. lia.
Qed.

Lemma bytes_disjoint (h l : Z) : Z.land (256 * h) (Z.land l 0xFF) = 0.
Proof.
  apply Z.bits_inj'. intros n Hn. rewrite Z.bits_0, !Z.land_spec, testbit_255 by lia.
  destruct (Z.ltb_spec n 8).
  - rewrite Z.mul_comm. change 256 with (2 ^ 8).
    rewrite Z.mul_pow2_bits_low by lia. reflexivity.
  - rewrite !andb_false_r. reflexivity.
Qed.

Lemma put_lo8_arith (w v : Z) : put_lo8 w v = 256 * ((w / 256) mod 256) + v mod 256.
Proof.
  unfold put_lo8. rewrite land_0xFF00, lor_disjoint by apply bytes_disjoint.
  f_equal. change 0xFF with (Z.ones 8). rewrite Z.land_ones by lia. reflexivity.
Qed.

Lemma put_hi8_arith (w v : Z) : put_hi8 w v = w mod 256 + 256 * (v mod 256).
Proof.
  unfold put_hi8. rewrite Z.shiftl_mul_pow2 by lia. change (2 ^ 8) with 256.
  rewrite (Z.mul_comm _ 256), Z.lor_comm.
  rewrite lor_disjoint by apply bytes_disjoint.
  change 0xFF with (Z.ones 8). rewrite !Z.land_ones by lia.
  change (2 ^ 8) with 256. lia.
Qed.

(** *** Indexing *)

Lemma index_arith (w base idx : Z) :
  0 <= base < 65536 -> 0 <= idx < 256 ->
  let sum := u16 (base + idx) in
  let got := put_hi8 (put_lo8 w (lo8 sum)) (hi8 base) in
  got = 256 * (base / 256) + (base + idx) mod 256 /\
  negb (hi8 base =? hi8 sum) = (255 <? base mod 256 + idx) /\
  ((255 <? base mod 256 + idx) = false -> got = base + idx) /\
  put_hi8 got (hi8 sum) = (base + idx) mod 65536.
Proof.
  intros Hb Hi sum got.
  assert (Hgot : got = 256 * (base / 256) + (base + idx) mod 256).
  { subst got sum. rewrite put_hi8_arith, put_lo8_arith, lo8_mod, hi8_div. unfold u16.
    Z.div_mod_to_equations. lia. }
  split; [exact Hgot |]. split; [| split].
  - rewrite !hi8_div. subst sum. unfold u16.
    destruct (Z.ltb_spec 255 (base mod 256 + idx)).
    + apply negb_true_iff, Z.eqb_neq. Z.div_mod_to_equations. lia.
    + apply negb_false_iff, Z.eqb_eq. Z.div_mod_to_equations. lia.
  - intros Hc. apply Z.ltb_ge in Hc. rewrite Hgot. Z.div_mod_to_equations. lia.
  - rewrite put_hi8_arith, hi8_div, Hgot. subst sum. unfold u16.
    Z.div_mod_to_equations. lia.
Qed.

Lemma hi8_put_hi8 (w v : Z) : hi8 (put_hi8 w v) = v mod 256.
Proof. rewrite hi8_div, put_hi8_arith. Z.div_mod_to_equations. lia. Qed.

Lemma IndexInto_spec (_bToAddr _bCmpDest : bool) (idx : Z) (e : CCpu6502Ex) :
  let base := AddrOrPtr (negb _bToAddr) (m_cpu e) in
  0 <= base < 65536 -> 0 <= idx < 256 ->
  let e1 := IndexInto _bToAddr _bCmpDest idx e in
  let got := AddrOrPtr _bToAddr (m_cpu e1) in
  m_ui16Target e1 = (base + idx) mod 65536 /\
  got = 256 * (base / 256) + (base + idx) mod 256 /\
  AddrOrPtr (negb _bToAddr) (m_cpu e1) = base /\
  m_bBoundaryCrossed (m_cpu e1) = (255 <? base mod 256 + idx) /\
  (m_bBoundaryCrossed (m_cpu e1) = false -> got = base + idx) /\
  put_hi8 got (hi8 (m_ui16Target e1)) = (base + idx) mod 65536.
Proof.
  intros base Hb Hi e1 got.
  destruct (index_arith (AddrOrPtr _bToAddr (m_cpu e)) base idx Hb Hi) as (A1 & A2 & A3 & A4).
  assert (Hgot : got = put_hi8 (put_lo8 (AddrOrPtr _bToAddr (m_cpu e)) (lo8 (u16 (base + idx))))
                         (hi8 base)).
  { subst got e1 base. destruct _bToAddr; reflexivity. }
  assert (Hcross : m_bBoundaryCrossed (m_cpu e1) = negb (hi8 base =? hi8 (u16 (base + idx)))).
  { assert (Hhi : hi8 (put_hi8 (put_lo8 (AddrOrPtr _bToAddr (m_cpu e))
                                    (lo8 (u16 (base + idx)))) (hi8 base)) = hi8 base).
    { rewrite hi8_put_hi8, hi8_div. apply Z.mod_mod. lia. }
    subst e1 base. destruct _bToAddr, _bCmpDest; try reflexivity.
    - etransitivity; [| rewrite <- Hhi; reflexivity]. reflexivity.
    - etransitivity; [| rewrite <- Hhi; reflexivity]. reflexivity. }
  assert (Htarget : m_ui16Target e1 = u16 (base + idx)) by reflexivity.
  rewrite Hgot, Hcross, Htarget.
  split; [reflexivity |]. split; [exact A1 |].
  split; [subst e1 base; destruct _bToAddr; reflexivity |].
  split; [exact A2 |]. split; [rewrite A2; exact A3 | exact A4].
Qed.

Lemma Fix_spec (b : bool) (e : CCpu6502Ex) :
  AddrOrPtr b (m_cpu (Fix_PtrOrAddr_To_AddrOrPtr_H (negb b) e)) =
    put_hi8 (AddrOrPtr b (m_cpu e)) (hi8 (m_ui16Target e)).
Proof. destruct b; reflexivity. Qed.

(** Indexed addressing in two steps: the index step leaves in the
    destination word the source word with the index added to its low byte
    only, keeps the full 16-bit sum in [m_ui16Target], and sets
    [m_bBoundaryCrossed] exactly when the low byte overflowed; when it did
    not, the destination already is the source plus the index; in either
    case [Fix_PtrOrAddr_To_AddrOrPtr_H] afterwards makes the destination
    the source plus the index modulo 65536.  This holds for the index X
    ([Add_XAndPtrOrAddr_To_AddrOrPtr]), for the index Y
    ([Add_YAndPtrOrAddr_To_AddrOrPtr]) and for
    [IndirectYAdd_PtrOrAddr_To_AddrOrPtr], in both directions. *)
Theorem Index_then_fix (_bToAddr _bRead _bIncPc : bool) (e : CCpu6502Ex) :
  let base := AddrOrPtr (negb _bToAddr) (m_cpu e) in
  let X := ui8X (m_rRegs (m_cpu e)) in
  let Y := ui8Y (m_rRegs (m_cpu e)) in
  0 <= base < 65536 -> 0 <= X < 256 -> 0 <= Y < 256 ->
  let indexed idx e1 :=
    let got := AddrOrPtr _bToAddr (m_cpu e1) in
    m_ui16Target e1 = (base + idx) mod 65536 /\
    got = 256 * (base / 256) + (base + idx) mod 256 /\
    AddrOrPtr (negb _bToAddr) (m_cpu e1) = base /\
    m_bBoundaryCrossed (m_cpu e1) = (255 <? base mod 256 + idx) /\
    (m_bBoundaryCrossed (m_cpu e1) = false -> got = base + idx) /\
    AddrOrPtr _bToAddr (m_cpu (Fix_PtrOrAddr_To_AddrOrPtr_H (negb _bToAddr) e1)) =
      (base + idx) mod 65536 in
  indexed X (Add_XAndPtrOrAddr_To_AddrOrPtr _bToAddr _bRead _bIncPc e) /\
  indexed Y (Add_YAndPtrOrAddr_To_AddrOrPtr _bToAddr _bRead _bIncPc e) /\
  indexed Y (IndirectYAdd_PtrOrAddr_To_AddrOrPtr (negb _bToAddr) e).
Proof.
  intros base X Y Hb HX HY indexed.
  assert (Hpre : forall (c : bool) (e0 : CCpu6502Ex),
            AddrOrPtr (negb _bToAddr) (m_cpu e0) = base ->
            forall idx, 0 <= idx < 256 ->
            forall k : CCpu6502 -> CCpu6502,
            (forall t, m_ui16Address (k t) = m_ui16Address t /\
                       m_ui16Pointer (k t) = m_ui16Pointer t /\
                       m_bBoundaryCrossed (k t) = m_bBoundaryCrossed t) ->
            indexed idx (on_cpu k (IndexInto _bToAddr c idx e0))).
  { intros c e0 He0 idx Hidx k Hk.
    pose proof (IndexInto_spec _bToAddr c idx e0) as Hs. cbn zeta in Hs.
    rewrite He0 in Hs. destruct (Hs Hb Hidx) as (S1 & S2 & S3 & S4 & S5 & S6).
    set (e1 := IndexInto _bToAddr c idx e0) in *.
    destruct (Hk (m_cpu e1)) as (KA & KP & KC).
    assert (Hsame : forall b, AddrOrPtr b (m_cpu (on_cpu k e1)) = AddrOrPtr b (m_cpu e1)).
    { intros b. unfold AddrOrPtr, on_cpu. cbn [m_cpu]. destruct b; assumption. }
    subst indexed. cbn beta zeta.
    rewrite !Hsame. cbn [on_cpu m_cpu m_ui16Target]. rewrite KC.
    split; [exact S1 |]. split; [exact S2 |]. split; [exact S3 |].
    split; [exact S4 |]. split; [exact S5 |].
    rewrite Fix_spec, Hsame. exact S6. }
  assert (Hk : forall t, m_ui16Address (LSN_INSTR_END_PHI1 (LSN_NEXT_FUNCTION t)) =
                           m_ui16Address t /\
                         m_ui16Pointer (LSN_INSTR_END_PHI1 (LSN_NEXT_FUNCTION t)) =
                           m_ui16Pointer t /\
                         m_bBoundaryCrossed (LSN_INSTR_END_PHI1 (LSN_NEXT_FUNCTION t)) =
                           m_bBoundaryCrossed t) by (intros t; repeat split).
  assert (Hstart : forall b t,
            AddrOrPtr (negb _bToAddr) (UpdatePcIf b (LSN_INSTR_START_PHI1 _bRead t)) =
              AddrOrPtr (negb _bToAddr) t /\
            ui8X (m_rRegs (UpdatePcIf b (LSN_INSTR_START_PHI1 _bRead t))) = ui8X (m_rRegs t) /\
            ui8Y (m_rRegs (UpdatePcIf b (LSN_INSTR_START_PHI1 _bRead t))) = ui8Y (m_rRegs t)).
  { intros b t. unfold UpdatePcIf, LSN_UPDATE_PC, AddrOrPtr.
    destruct b; [destruct (m_bAllowWritingToPc (LSN_INSTR_START_PHI1 _bRead t)) eqn:E |];
      destruct _bToAddr; cbn; rewrite ?E; repeat split. }
  destruct (Hstart _bIncPc (m_cpu e)) as (HA & HXeq & HYeq).
  split; [| split].
  - unfold Add_XAndPtrOrAddr_To_AddrOrPtr.
    set (e0 := on_cpu (UpdatePcIf _bIncPc) (on_cpu (LSN_INSTR_START_PHI1 _bRead) e)).
    change (ui8X (m_rRegs (m_cpu e0)))
      with (ui8X (m_rRegs (UpdatePcIf _bIncPc (LSN_INSTR_START_PHI1 _bRead (m_cpu e))))).
    rewrite HXeq. fold X.
    apply (Hpre false e0 HA X HX (fun t => LSN_INSTR_END_PHI1 (LSN_NEXT_FUNCTION t)) Hk).
  - unfold Add_YAndPtrOrAddr_To_AddrOrPtr.
    set (e0 := on_cpu (UpdatePcIf _bIncPc) (on_cpu (LSN_INSTR_START_PHI1 _bRead) e)).
    change (ui8Y (m_rRegs (m_cpu e0)))
      with (ui8Y (m_rRegs (UpdatePcIf _bIncPc (LSN_INSTR_START_PHI1 _bRead (m_cpu e))))).
    rewrite HYeq. fold Y.
    apply (Hpre false e0 HA Y HY (fun t => LSN_INSTR_END_PHI1 (LSN_NEXT_FUNCTION t)) Hk).
  - unfold IndirectYAdd_PtrOrAddr_To_AddrOrPtr. rewrite negb_involutive.
    set (e0 := on_cpu (LSN_INSTR_START_PHI1 true) e).
    change (ui8Y (m_rRegs (m_cpu e0))) with Y.
    apply (Hpre true e0 eq_refl Y HY (fun t => LSN_INSTR_END_PHI1 (LSN_NEXT_FUNCTION t)) Hk).
Qed.

End AddressingProps.

(** *** Branches *)

Section BranchProps.
Context {ext : Collaborators} {hooks : Hooks}.
Variable LSN_CHECK_INTERRUPTS : CCpu6502 -> CCpu6502.

(** The calls of a branch into code this file does not define: the bus
    read, [LSN_FINISH_INST] and [LSN_CHECK_INTERRUPTS] are taken to leave
    the registers, the scratch address, the page-crossing flag and the
    pending PC increment alone; [BeginInst], after which only the
    registers and the scratch address are used, to leave those two alone. *)
Hypothesis read_keeps : forall a, keeps_branch_view (fun t => snd (bus_Read a t)).
Hypothesis finish_keeps : forall b, keeps_branch_view (LSN_FINISH_INST b).
Hypothesis begin_keeps : forall t,
  m_rRegs (BeginInst t) = m_rRegs t /\ m_ui16Address (BeginInst t) = m_ui16Address t.
Hypothesis check_keeps : keeps_branch_view LSN_CHECK_INTERRUPTS.

Lemma keeps_fields (f : CCpu6502 -> CCpu6502) (t : CCpu6502) :
  keeps_branch_view f ->
  m_rRegs (f t) = m_rRegs t /\ m_ui16Address (f t) = m_ui16Address t /\
  m_bBoundaryCrossed (f t) = m_bBoundaryCrossed t /\
  m_ui16PcModify (f t) = m_ui16PcModify t /\
  m_bAllowWritingToPc (f t) = m_bAllowWritingToPc t.
Proof.
  intros H. specialize (H t). unfold branch_view in H.
  injection H as H1 H2 H3 H4 H5. repeat split; assumption.
Qed.

Lemma i8_range (v : Z) : -128 <= i8 v <= 127.
Proof.
  unfold i8, u8.
  assert (0 <= v mod 256 < 256) by (apply Z.mod_pos_bound; lia).
  destruct (Z.ltb_spec (v mod 256) 128); lia.
Qed.

Lemma i16_i8 (v : Z) : i16 (i8 v) = i8 v.
Proof.
  pose proof (i8_range v) as Hr. unfold i16, u16.
  set (x := i8 v) in *.
  destruct (Z.ltb_spec (x mod 65536) 32768); Z.div_mod_to_equations; lia.
Qed.

Lemma read_fields (a : Z) (t : CCpu6502) :
  let t' := snd (LSN_INSTR_START_PHI2_READ a t) in
  m_rRegs t' = m_rRegs t /\ m_ui16Address t' = m_ui16Address t /\
  m_bBoundaryCrossed t' = m_bBoundaryCrossed t /\
  m_ui16PcModify t' = m_ui16PcModify t /\
  m_bAllowWritingToPc t' = m_bAllowWritingToPc t.
Proof.
  apply (keeps_fields (fun t => snd (bus_Read (u16 a) t)) t (read_keeps (u16 a))).
Qed.

Lemma kept (f : CCpu6502 -> CCpu6502) (H : keeps_branch_view f) :
  (forall t, m_rRegs (f t) = m_rRegs t) /\
  (forall t, m_ui16Address (f t) = m_ui16Address t) /\
  (forall t, m_bBoundaryCrossed (f t) = m_bBoundaryCrossed t) /\
  (forall t, m_ui16PcModify (f t) = m_ui16PcModify t) /\
  (forall t, m_bAllowWritingToPc (f t) = m_bAllowWritingToPc t).
Proof. repeat split; intros t; apply (keeps_fields f t H). Qed.

Lemma begin_regs (t : CCpu6502) : m_rRegs (BeginInst t) = m_rRegs t.
Proof. apply begin_keeps. Qed.

Lemma begin_address (t : CCpu6502) : m_ui16Address (BeginInst t) = m_ui16Address t.
Proof. apply begin_keeps. Qed.

Ltac keep f H :=
  let K1 := fresh "K" in let K2 := fresh "K" in let K3 := fresh "K" in
  let K4 := fresh "K" in let K5 := fresh "K" in
  destruct (kept f H) as (K1 & K2 & K3 & K4 & K5);
  rewrite ?K1, ?K2, ?K3, ?K4, ?K5; clear K1 K2 K3 K4 K5.

Ltac branch_cbn := cbn -[u16 u8 i16 i8 hi8 lo8 put_lo8 put_hi8 Z.add Z.eqb].

Tactic Notation "keep_all" :=
  keep LSN_CHECK_INTERRUPTS check_keeps;
  keep (LSN_FINISH_INST true) (finish_keeps true);
  keep (LSN_FINISH_INST false) (finish_keeps false).

Lemma Branch_Cycle1_Phi2_taken (e : CCpu6502Ex) :
  m_bTakeJump e = true ->
  let pc0 := ui16Pc (m_rRegs (m_cpu e)) in
  let op := fst (LSN_INSTR_START_PHI2_READ pc0 (m_cpu e)) in
  let target := u16 (i16 (i8 op) + u16 (pc0 + 1)) in
  let e1 := Branch_Cycle1_Phi2 LSN_CHECK_INTERRUPTS e in
  m_bTakeJump e1 = true /\
  branch_view (m_cpu e1) =
    (set_ui16Pc (u16 (pc0 + 1)) (m_rRegs (m_cpu e)), target,
     negb (hi8 target =? hi8 (u16 (pc0 + 1))), 0, m_bAllowWritingToPc (m_cpu e)).
Proof.
  intros Htake pc0 op target e1. destruct e as [s tg tk].
  cbn [m_cpu m_bTakeJump] in *. subst tk.
  destruct (read_fields pc0 s) as (R1 & R2 & R3 & R4 & R5).
  set (r := LSN_INSTR_START_PHI2_READ pc0 s) in *.
  subst e1. unfold Branch_Cycle1_Phi2, branch_view.
  change (LSN_INSTR_START_PHI2_READ _ _) with r. clearbody r.
  branch_cbn. rewrite R1. fold pc0. fold op. fold target.
  destruct (hi8 target =? hi8 (u16 (pc0 + 1))) eqn:E; cbn [negb]; branch_cbn; keep_all;
    branch_cbn; rewrite ?R1, ?R5; fold pc0; fold op; fold target; rewrite ?E;
    (split; reflexivity).
Qed.

Lemma Branch_Cycle1_Phi2_not_taken (e : CCpu6502Ex) :
  m_bTakeJump e = false ->
  let e1 := Branch_Cycle1_Phi2 LSN_CHECK_INTERRUPTS e in
  m_bTakeJump e1 = false /\
  branch_view (m_cpu e1) =
    (m_rRegs (m_cpu e), m_ui16Address (m_cpu e), m_bBoundaryCrossed (m_cpu e), 1,
     m_bAllowWritingToPc (m_cpu e)).
Proof.
  intros Htake e1. destruct e as [s tg tk].
  cbn [m_cpu m_bTakeJump] in *. subst tk.
  destruct (read_fields (ui16Pc (m_rRegs s)) s) as (R1 & R2 & R3 & R4 & R5).
  set (r := LSN_INSTR_START_PHI2_READ (ui16Pc (m_rRegs s)) s) in *.
  subst e1. unfold Branch_Cycle1_Phi2, branch_view.
  change (LSN_INSTR_START_PHI2_READ _ _) with r. clearbody r.
  branch_cbn. keep_all. branch_cbn.
  rewrite R1, R2, R3, R5. split; reflexivity.
Qed.

(** The steps after the first. *)
Lemma Branch_Cycle2_view (e : CCpu6502Ex) :
  let e1 := Branch_Cycle2 e in
  m_bTakeJump e1 = m_bTakeJump e /\
  m_rRegs (m_cpu e1) = m_rRegs (LSN_UPDATE_PC (m_cpu e)) /\
  (m_bTakeJump e = true ->
   branch_view (m_cpu e1) = branch_view (LSN_UPDATE_PC (m_cpu e))).
Proof.
  intros e1. destruct e as [s tg tk]. subst e1. cbn [m_cpu m_bTakeJump].
  set (t := LSN_UPDATE_PC s). unfold Branch_Cycle2, branch_view.
  change (on_cpu LSN_UPDATE_PC _) with (MkEx t tg tk). clearbody t.
  destruct tk; branch_cbn.
  - repeat split; reflexivity.
  - rewrite begin_regs. repeat split; try reflexivity. discriminate.
Qed.

Lemma Branch_Cycle2_Phi2_view (e : CCpu6502Ex) :
  let e1 := Branch_Cycle2_Phi2 e in
  m_bTakeJump e1 = m_bTakeJump e /\
  branch_view (m_cpu e1) = branch_view (m_cpu e).
Proof.
  intros e1. destruct e as [s tg tk]. subst e1. cbn [m_cpu m_bTakeJump].
  destruct (read_fields (ui16Pc (m_rRegs s)) s) as (R1 & R2 & R3 & R4 & R5).
  set (r := LSN_INSTR_START_PHI2_READ (ui16Pc (m_rRegs s)) s) in *.
  unfold Branch_Cycle2_Phi2, branch_view.
  change (LSN_INSTR_START_PHI2_READ _ _) with r. clearbody r.
  branch_cbn.
  destruct (m_bBoundaryCrossed (snd r)) eqn:E; branch_cbn.
  - rewrite ?E, R1, R2, R4, R5, <- R3. split; reflexivity.
  - keep_all. rewrite ?E, R1, R2, R4, R5, <- R3. split; reflexivity.
Qed.

Lemma Branch_Cycle3_view (e : CCpu6502Ex) :
  let s := m_cpu e in
  let e1 := Branch_Cycle3 e in
  m_rRegs (m_cpu e1) =
    set_ui16Pc (put_lo8 (ui16Pc (m_rRegs s)) (lo8 (m_ui16Address s))) (m_rRegs s) /\
  m_ui16Address (m_cpu e1) = m_ui16Address s.
Proof.
  intros s. destruct e as [s0 tg tk]. subst s. cbn [m_cpu].
  unfold Branch_Cycle3. branch_cbn.
  destruct (m_bBoundaryCrossed s0) eqn:E; branch_cbn.
  - split; reflexivity.
  - rewrite begin_regs, begin_address. branch_cbn. split; reflexivity.
Qed.

Lemma Branch_Cycle3_Phi2_view (e : CCpu6502Ex) :
  branch_view (m_cpu (Branch_Cycle3_Phi2 e)) = branch_view (m_cpu e).
Proof.
  destruct e as [s tg tk]. cbn [m_cpu].
  destruct (read_fields (ui16Pc (m_rRegs s)) s) as (R1 & R2 & R3 & R4 & R5).
  set (r := LSN_INSTR_START_PHI2_READ (ui16Pc (m_rRegs s)) s) in *.
  unfold Branch_Cycle3_Phi2, branch_view.
  change (LSN_INSTR_START_PHI2_READ _ _) with r. clearbody r.
  branch_cbn. keep_all. rewrite R1, R2, R3, R4, R5. reflexivity.
Qed.

Lemma Branch_Cycle4_view (e : CCpu6502Ex) :
  let s := m_cpu e in
  m_rRegs (m_cpu (Branch_Cycle4 e)) =
    set_ui16Pc (put_hi8 (ui16Pc (m_rRegs s)) (hi8 (m_ui16Address s))) (m_rRegs s).
Proof.
  intros s. destruct e as [s0 tg tk]. subst s. cbn [m_cpu].
  unfold Branch_Cycle4. branch_cbn. rewrite begin_regs, begin_address. reflexivity.
Qed.

Lemma LSN_UPDATE_PC_view (t : CCpu6502) :
  m_ui16PcModify t = 0 ->
  0 <= ui16Pc (m_rRegs t) < 65536 ->
  ui16Pc (m_rRegs (LSN_UPDATE_PC t)) = ui16Pc (m_rRegs t) /\
  set_ui16Pc 0 (m_rRegs (LSN_UPDATE_PC t)) = set_ui16Pc 0 (m_rRegs t) /\
  m_ui16Address (LSN_UPDATE_PC t) = m_ui16Address t /\
  m_bBoundaryCrossed (LSN_UPDATE_PC t) = m_bBoundaryCrossed t.
Proof.
  intros Hm Hpc. unfold LSN_UPDATE_PC.
  destruct (m_bAllowWritingToPc t) eqn:E; cbn -[u16 Z.add];
    rewrite ?Hm, ?Z.add_0_r; unfold u16; rewrite ?Z.mod_small by lia;
    repeat split; reflexivity.
Qed.

Lemma view_fields (t : CCpu6502) r a c m g :
  branch_view t = (r, a, c, m, g) ->
  m_rRegs t = r /\ m_ui16Address t = a /\ m_bBoundaryCrossed t = c /\
  m_ui16PcModify t = m /\ m_bAllowWritingToPc t = g.
Proof. unfold branch_view. intros H. injection H as H1 H2 H3 H4 H5. auto. Qed.

Lemma view_eq_fields (t t' : CCpu6502) :
  branch_view t = branch_view t' ->
  m_rRegs t = m_rRegs t' /\ m_ui16Address t = m_ui16Address t' /\
  m_bBoundaryCrossed t = m_bBoundaryCrossed t' /\
  m_ui16PcModify t = m_ui16PcModify t' /\ m_bAllowWritingToPc t = m_bAllowWritingToPc t'.
Proof. apply view_fields. Qed.

Lemma u16_range (z : Z) : 0 <= u16 z < 65536.
Proof. unfold u16. apply Z.mod_pos_bound. lia. Qed.

Lemma set_ui16Pc_frame (r r' : LSN_REGISTERS) (v : Z) :
  set_ui16Pc 0 r = set_ui16Pc 0 r' -> set_ui16Pc v r = set_ui16Pc v r'.
Proof.
  intros H. change (set_ui16Pc v (set_ui16Pc 0 r) = set_ui16Pc v (set_ui16Pc 0 r')).
  rewrite H. reflexivity.
Qed.

Lemma word_bytes (p t : Z) :
  0 <= t < 65536 ->
  put_hi8 (put_lo8 p (lo8 t)) (hi8 t) = t /\
  (hi8 t = hi8 p -> put_lo8 p (lo8 t) = t).
Proof.
  intros Ht. rewrite put_hi8_arith, !put_lo8_arith, !hi8_div, !lo8_mod. split.
  - Z.div_mod_to_equations. lia.
  - intros H. rewrite <- H. Z.div_mod_to_equations. lia.
Qed.

Lemma branch_target (pc0 op : Z) :
  u16 (i16 (i8 op) + u16 (pc0 + 1)) = (pc0 + 1 + i8 op) mod 65536.
Proof.
  rewrite i16_i8. unfold u16. rewrite Z.add_mod_idemp_r by lia. f_equal. lia.
Qed.

Lemma Branch_run_lands (e : CCpu6502Ex) :
  let pc0 := ui16Pc (m_rRegs (m_cpu e)) in
  let op := fst (LSN_INSTR_START_PHI2_READ pc0 (m_cpu e)) in
  let e' := Branch_run LSN_CHECK_INTERRUPTS e in
  (m_bTakeJump e = true ->
   m_rRegs (m_cpu e') = set_ui16Pc ((pc0 + 1 + i8 op) mod 65536) (m_rRegs (m_cpu e))) /\
  (m_bTakeJump e = false -> m_bAllowWritingToPc (m_cpu e) = true ->
   m_rRegs (m_cpu e') = set_ui16Pc ((pc0 + 1) mod 65536) (m_rRegs (m_cpu e))).
Proof.
  intros pc0 op e'. split.
  - intros Htake.
    pose proof (Branch_Cycle1_Phi2_taken e Htake) as [T1 V1].
    cbv zeta in T1, V1. fold pc0 in V1. fold op in V1.
    subst e'. unfold Branch_run.
    set (e1 := Branch_Cycle1_Phi2 LSN_CHECK_INTERRUPTS e) in *.
    cbv zeta. rewrite T1. cbn [negb].
    apply view_fields in V1. destruct V1 as (A1 & A2 & A3 & A4 & A5).
    set (p1 := u16 (pc0 + 1)) in *.
    set (target := u16 (i16 (i8 op) + p1)) in *.
    assert (Hp1 : ui16Pc (m_rRegs (m_cpu e1)) = p1) by (rewrite A1; reflexivity).
    destruct (LSN_UPDATE_PC_view (m_cpu e1) A4) as (U1 & U2 & U3 & U4).
    { rewrite Hp1. apply u16_range. }
    pose proof (Branch_Cycle2_view e1) as (T2 & _ & V2). cbv zeta in T2, V2.
    specialize (V2 T1). apply view_eq_fields in V2. destruct V2 as (B1 & B2 & B3 & _).
    set (e2 := Branch_Cycle2 e1) in *.
    pose proof (Branch_Cycle2_Phi2_view e2) as (T3 & V3). cbv zeta in T3, V3.
    apply view_eq_fields in V3. destruct V3 as (C1 & C2 & C3 & _).
    set (e3 := Branch_Cycle2_Phi2 e2) in *.
    pose proof (Branch_Cycle3_view e3) as (D1 & D2). cbv zeta in D1, D2.
    set (e4 := Branch_Cycle3 e3) in *.
    assert (Hpc3 : ui16Pc (m_rRegs (m_cpu e3)) = p1) by congruence.
    assert (Had3 : m_ui16Address (m_cpu e3) = target) by congruence.
    assert (Hcr3 : m_bBoundaryCrossed (m_cpu e3) =
                   negb (hi8 target =? hi8 p1)) by congruence.
    assert (Hfr : set_ui16Pc 0 (m_rRegs (m_cpu e3)) = set_ui16Pc 0 (m_rRegs (m_cpu e))).
    { rewrite C1, B1, U2, A1. reflexivity. }
    assert (Ht : 0 <= target < 65536) by apply u16_range.
    destruct (word_bytes p1 target Ht) as [W2 W1].
    assert (Htg : target = (pc0 + 1 + i8 op) mod 65536) by apply branch_target.
    rewrite Hcr3, negb_involutive.
    destruct (Z.eqb_spec (hi8 target) (hi8 p1)) as [Hsame | Hcross].
    + rewrite D1, Hpc3, Had3, (W1 Hsame), <- Htg. apply set_ui16Pc_frame, Hfr.
    + pose proof (Branch_Cycle3_Phi2_view e4) as V5.
      apply view_eq_fields in V5. destruct V5 as (E1 & E2 & _).
      rewrite Branch_Cycle4_view. cbv zeta.
      rewrite E1, E2, D1, D2, Hpc3, Had3.
      change (ui16Pc (set_ui16Pc ?v _)) with v. cbn [ui16Pc set_ui16Pc].
      rewrite W2, <- Htg. apply (set_ui16Pc_frame _ _ target) in Hfr. exact Hfr.
  - intros Htake Hgate.
    pose proof (Branch_Cycle1_Phi2_not_taken e Htake) as [T1 V1].
    cbv zeta in T1, V1.
    subst e'. unfold Branch_run.
    set (e1 := Branch_Cycle1_Phi2 LSN_CHECK_INTERRUPTS e) in *.
    cbv zeta. rewrite T1. cbn [negb].
    apply view_fields in V1. destruct V1 as (A1 & A2 & A3 & A4 & A5).
    pose proof (Branch_Cycle2_view e1) as (_ & B1 & _). cbv zeta in B1.
    rewrite B1. unfold LSN_UPDATE_PC. rewrite A5, Hgate, A4, A1. reflexivity.
Qed.

Lemma Branch_Cycle1_view (_uBit _uVal : Z) (e : CCpu6502Ex) :
  let s := m_cpu e in
  let e0 := Branch_Cycle1 _uBit _uVal e in
  m_bTakeJump e0 = (Z.land (ui8Status (m_rRegs s)) _uBit =? _uVal * _uBit) /\
  (m_bAllowWritingToPc s = true ->
   m_rRegs (m_cpu e0) =
     set_ui16Pc (u16 (ui16Pc (m_rRegs s) + m_ui16PcModify s)) (m_rRegs s) /\
   m_bAllowWritingToPc (m_cpu e0) = true).
Proof.
  intros s e0. destruct e as [s0 tg tk]. subst s e0. cbn [m_cpu].
  unfold Branch_Cycle1, LSN_UPDATE_PC. branch_cbn. split; [reflexivity |].
  intros Hg. rewrite Hg. branch_cbn. split; [reflexivity | exact Hg].
Qed.

(** A branch instruction, from the cycle after its opcode fetch on.  The
    branch is taken when the status bits under the mask equal the mask
    times the wanted value.  Taken, it leaves in PC the address after the
    offset byte plus the offset read as a signed byte, modulo 2^16,
    whether or not that sum leaves the page (then the high byte of PC is
    fixed one cycle later); not taken, it leaves the address after the
    offset byte.  No other register changes. *)
Theorem Branch_on_flag (_uBit _uVal : Z) (e : CCpu6502Ex) :
  let s := m_cpu e in
  let taken := Z.land (ui8Status (m_rRegs s)) _uBit =? _uVal * _uBit in
  let pc0 := u16 (ui16Pc (m_rRegs s) + m_ui16PcModify s) in
  let e0 := Branch_Cycle1 _uBit _uVal e in
  let op := fst (LSN_INSTR_START_PHI2_READ pc0 (m_cpu e0)) in
  m_bAllowWritingToPc s = true ->
  m_rRegs (m_cpu (Branch_run LSN_CHECK_INTERRUPTS e0)) =
    set_ui16Pc (if taken then (pc0 + 1 + i8 op) mod 65536 else (pc0 + 1) mod 65536)
      (m_rRegs s).
Proof.
  intros s taken pc0 e0 op Hgate.
  destruct (Branch_Cycle1_view _uBit _uVal e) as [T0 V0]. cbv zeta in T0, V0.
  fold s in T0, V0. fold taken in T0. fold pc0 in V0. fold e0 in T0, V0.
  destruct (V0 Hgate) as [R0 G0]. clear V0.
  destruct (Branch_run_lands e0) as [Ltaken Lnot]. rewrite R0 in Ltaken, Lnot.
  change (ui16Pc (set_ui16Pc pc0 (m_rRegs s))) with pc0 in Ltaken, Lnot.
  fold op in Ltaken.
  change (set_ui16Pc ?v (set_ui16Pc pc0 (m_rRegs s)))
    with (set_ui16Pc v (m_rRegs s)) in Ltaken, Lnot.
  destruct taken.
  - apply Ltaken, T0.
  - apply Lnot; [exact T0 | exact G0].
Qed.

End BranchProps.

(** *** Reads through a pointer and through a vector *)

Section WordReadProps.
Context {ext : Collaborators} {hooks : Hooks}.

(** The step of the first half of the cycle that the instruction runs
    between the two reads. *)
Variable mid : CCpu6502 -> CCpu6502.

(** The bus read, [LSN_FINISH_INST] and the step between the two reads
    are taken to leave the two scratch words and the selected vector
    alone, [BeginInst] to leave [m_ui16Address] alone. *)
Hypothesis read_keeps : forall a, keeps_word_view (fun t => snd (bus_Read a t)).
Hypothesis finish_keeps : forall b, keeps_word_view (LSN_FINISH_INST b).
Hypothesis mid_keeps : keeps_word_view mid.
Hypothesis begin_keeps : forall t, m_ui16Address (BeginInst t) = m_ui16Address t.

Lemma word_kept (f : CCpu6502 -> CCpu6502) (H : keeps_word_view f) :
  (forall t, m_ui16Address (f t) = m_ui16Address t) /\
  (forall t, m_ui16Pointer (f t) = m_ui16Pointer t) /\
  (forall t, m_vBrkVector (f t) = m_vBrkVector t).
Proof.
  repeat split; intros t; specialize (H t); unfold word_view in H;
    injection H as H1 H2 H3; assumption.
Qed.

Lemma read_words (a : Z) (t : CCpu6502) :
  let r := LSN_INSTR_START_PHI2_READ a t in
  0 <= fst r < 256 /\
  m_ui16Address (snd r) = m_ui16Address t /\ m_ui16Pointer (snd r) = m_ui16Pointer t /\
  m_vBrkVector (snd r) = m_vBrkVector t.
Proof.
  destruct (word_kept _ (read_keeps (u16 a))) as (K1 & K2 & K3).
  cbv zeta. unfold LSN_INSTR_START_PHI2_READ. cbn [fst snd].
  split; [unfold u8; apply Z.mod_pos_bound; lia |].
  split; [apply K1 | split; [apply K2 | apply K3]].
Qed.

Lemma two_bytes (w lo hi : Z) :
  0 <= lo < 256 -> 0 <= hi < 256 ->
  put_hi8 lo hi = lo + 256 * hi /\ put_hi8 (put_lo8 w lo) hi = lo + 256 * hi.
Proof.
  intros Hlo Hhi. rewrite !put_hi8_arith, put_lo8_arith.
  split; Z.div_mod_to_equations; lia.
Qed.

Lemma SamePage_address_arith (w : Z) :
  0 <= w < 65536 ->
  u16 (SamePage_address w) = 256 * (w / 256) + (w + 1) mod 256.
Proof.
  intros Hw. unfold SamePage_address.
  rewrite Z.shiftl_mul_pow2 by lia. change (2 ^ 8) with 256.
  rewrite hi8_div, lo8_mod. unfold u8, u16.
  rewrite Z.add_mod_idemp_l by lia.
  rewrite (Z.mod_small (w / 256)) by (Z.div_mod_to_equations; lia).
  assert (Hb : 0 <= (w + 1) mod 256 < 256) by (apply Z.mod_pos_bound; lia).
  set (b := (w + 1) mod 256) in *.
  assert (Hd : Z.land (256 * (w / 256)) (Z.land b 0xFF) = 0) by apply bytes_disjoint.
  rewrite byte_land_255 in Hd by lia.
  rewrite (Z.mul_comm _ 256), lor_disjoint by exact Hd.
  apply Z.mod_small. Z.div_mod_to_equations. lia.
Qed.

Ltac word_cbn := cbn -[u16 u8 hi8 lo8 put_lo8 put_hi8 Z.add Z.mul SamePage_address].

Ltac keep_words f H :=
  let K1 := fresh "K" in let K2 := fresh "K" in let K3 := fresh "K" in
  destruct (word_kept f H) as (K1 & K2 & K3);
  rewrite ?K1, ?K2, ?K3; clear K1 K2 K3.

(** A 16-bit value read through a pointer in two reads, as JMP (ind)
    does: the low byte comes from the pointer and the high byte from the
    address with the same high byte as the pointer and its low byte plus
    one modulo 256, so the page is never left: for a pointer at the end
    of a page the high byte is read from the start of the same page and
    not from the next page.  The destination word, and PC after
    [Jmp_BeginInst], is the little-endian word of the two bytes read. *)
Theorem Pointer_read_stays_in_page (_bFromAddr _bEndInstr : bool) (s : CCpu6502) :
  let w := AddrOrPtr _bFromAddr s in
  0 <= w < 65536 ->
  let a := 256 * (w / 256) + (w + 1) mod 256 in
  let lo := fst (LSN_INSTR_START_PHI2_READ w s) in
  let s1 := mid (Read_PtrOrAddr_To_AddrOrPtr_L_Phi2 _bFromAddr s) in
  let hi := fst (LSN_INSTR_START_PHI2_READ a s1) in
  let s2 := Read_PtrOrAddr_To_AddrOrPtr_H_SamePage_Phi2 _bFromAddr _bEndInstr s1 in
  a / 256 = w / 256 /\
  (w mod 256 = 255 -> a = w - 255) /\
  (w mod 256 <> 255 -> a = w + 1) /\
  AddrOrPtr _bFromAddr s2 = w /\
  AddrOrPtr (negb _bFromAddr) s2 = lo + 256 * hi /\
  (_bFromAddr = false ->
   ui16Pc (m_rRegs (Jmp_BeginInst s2)) = lo + 256 * hi /\
   m_ui16PcModify (Jmp_BeginInst s2) = 0).
Proof.
  intros w Hw a lo s1 hi s2.
  split; [subst a; Z.div_mod_to_equations; lia |].
  split; [intros H; subst a; Z.div_mod_to_equations; lia |].
  split; [intros H; subst a; Z.div_mod_to_equations; lia |].
  destruct (read_words w s) as (Hlo & R1 & R2 & _). cbv zeta in Hlo, R1, R2. fold lo in Hlo.
  set (r := LSN_INSTR_START_PHI2_READ w s) in *.
  assert (Hsrc : AddrOrPtr _bFromAddr s1 = w).
  { subst s1. unfold Read_PtrOrAddr_To_AddrOrPtr_L_Phi2. fold w. fold r.
    destruct _bFromAddr; word_cbn; keep_words mid mid_keeps; word_cbn; assumption. }
  assert (Hdst : AddrOrPtr (negb _bFromAddr) s1 = lo).
  { subst s1. unfold Read_PtrOrAddr_To_AddrOrPtr_L_Phi2. fold w. fold r.
    destruct _bFromAddr; word_cbn; keep_words mid mid_keeps; word_cbn; reflexivity. }
  clearbody s1 r.
  assert (Ha : LSN_INSTR_START_PHI2_READ (SamePage_address (AddrOrPtr _bFromAddr s1)) s1 =
               LSN_INSTR_START_PHI2_READ a s1).
  { unfold LSN_INSTR_START_PHI2_READ. rewrite Hsrc, (SamePage_address_arith w Hw).
    fold a. replace (u16 a) with a; [reflexivity |].
    symmetry. apply Z.mod_small. subst a. Z.div_mod_to_equations. lia. }
  destruct (read_words a s1) as (Hhi & Q1 & Q2 & _). cbv zeta in Hhi, Q1, Q2. fold hi in Hhi.
  subst s2. unfold Read_PtrOrAddr_To_AddrOrPtr_H_SamePage_Phi2. rewrite Ha.
  set (q := LSN_INSTR_START_PHI2_READ a s1) in *.
  destruct (two_bytes 0 lo hi Hlo Hhi) as [B1 _].
  assert (Hsrc' : AddrOrPtr _bFromAddr (snd q) = w).
  { rewrite <- Hsrc. destruct _bFromAddr; word_cbn; assumption. }
  assert (Hdst' : AddrOrPtr (negb _bFromAddr) (snd q) = lo).
  { rewrite <- Hdst. destruct _bFromAddr; word_cbn; assumption. }
  fold hi. clearbody q hi. word_cbn. rewrite Hdst', B1.
  set (q2 := snd q) in *. clearbody q2.
  split; [| split; [| intros Hf; split; [| reflexivity]]].
  - rewrite <- Hsrc'.
    destruct _bFromAddr, _bEndInstr; word_cbn;
      try keep_words (LSN_FINISH_INST true) (finish_keeps true); reflexivity.
  - destruct _bFromAddr, _bEndInstr; word_cbn;
      try keep_words (LSN_FINISH_INST true) (finish_keeps true); reflexivity.
  - unfold Jmp_BeginInst. word_cbn. rewrite begin_keeps.
    destruct _bFromAddr; [discriminate |].
    destruct _bEndInstr; word_cbn;
      try keep_words (LSN_FINISH_INST true) (finish_keeps true); reflexivity.
Qed.

(** The last steps of BRK and of an interrupt or reset: the two reads
    through the selected vector and [Brk_BeginInst] leave in PC the
    little-endian word stored at the vector address and the address
    after it: 0xFFFA and 0xFFFB for NMI, 0xFFFC and 0xFFFD for reset,
    0xFFFE and 0xFFFF for IRQ and BRK. *)
Theorem Vector_to_Pc (_bEndInstr : bool) (s : CCpu6502) :
  let v := vector_address (m_vBrkVector s) in
  let lo := fst (LSN_INSTR_START_PHI2_READ v s) in
  let s1 := mid (CopyVectorToPc_L_Phi2 s) in
  let hi := fst (LSN_INSTR_START_PHI2_READ (v + 1) s1) in
  let s2 := Brk_BeginInst (CopyVectorToPc_H_Phi2 _bEndInstr s1) in
  ui16Pc (m_rRegs s2) = lo + 256 * hi /\
  0 <= lo < 256 /\ 0 <= hi < 256 /\
  0xFFFA <= v <= 0xFFFE /\
  v = match m_vBrkVector s with
      | LSN_V_NMI => 0xFFFA | LSN_V_RESET => 0xFFFC | LSN_V_IRQ_BRK => 0xFFFE
      end.
Proof.
  intros v lo s1 hi s2.
  destruct (read_words v s) as (Hlo & R1 & _ & R3). cbv zeta in Hlo, R1, R3. fold lo in Hlo.
  set (r := LSN_INSTR_START_PHI2_READ v s) in *.
  assert (Hvec : m_vBrkVector s1 = m_vBrkVector s).
  { subst s1. unfold CopyVectorToPc_L_Phi2. fold v. fold r.
    keep_words mid mid_keeps. word_cbn. assumption. }
  assert (Hadr : m_ui16Address s1 = put_lo8 (m_ui16Address s) lo).
  { subst s1. unfold CopyVectorToPc_L_Phi2. fold v. fold r.
    keep_words mid mid_keeps. word_cbn. f_equal. exact R1. }
  clearbody s1 r.
  destruct (read_words (v + 1) s1) as (Hhi & Q1 & _). cbv zeta in Hhi, Q1. fold hi in Hhi.
  subst s2. unfold Brk_BeginInst, CopyVectorToPc_H_Phi2. rewrite Hvec. fold v.
  set (q := LSN_INSTR_START_PHI2_READ (v + 1) s1) in *. fold hi.
  destruct (two_bytes (m_ui16Address s) lo hi Hlo Hhi) as [_ B2].
  clearbody q hi. word_cbn. rewrite begin_keeps.
  split; [| split; [exact Hlo | split; [exact Hhi |]]].
  - destruct _bEndInstr; word_cbn;
      try keep_words (LSN_FINISH_INST true) (finish_keeps true);
      word_cbn; rewrite Q1, Hadr, B2; reflexivity.
  - subst v. destruct (m_vBrkVector s); cbn; repeat split; first [reflexivity | lia].
Qed.

End WordReadProps.

(** *** The interrupt lines *)

Section LineProps.
Context {ext : Collaborators} {hooks : Hooks}.

(** What the sampling at the end of [TickPhi2] works on. *)
Lemma SampleLines_fields (s : CCpu6502) :
  m_bDetectedNmi (SampleLines s) =
    (m_bDetectedNmi s || (negb (m_bLastNmiStatusLine s) && m_bNmiStatusLine s)) /\
  m_bLastNmiStatusLine (SampleLines s) = m_bNmiStatusLine s /\
  m_bNmiStatusLine (SampleLines s) = m_bNmiStatusLine s /\
  m_bIrqSeenLowPhi2 (SampleLines s) = (m_bIrqSeenLowPhi2 s || m_bIrqStatusLine s) /\
  m_bIrqStatusLine (SampleLines s) = m_bIrqStatusLine s.
Proof. repeat split; reflexivity. Qed.

Lemma SampleLines_held (n : nat) (s : CCpu6502) :
  m_bNmiStatusLine s = true -> m_bLastNmiStatusLine s = true ->
  let t := Nat.iter n SampleLines s in
  m_bDetectedNmi t = m_bDetectedNmi s /\ m_bNmiStatusLine t = true /\
  m_bLastNmiStatusLine t = true.
Proof.
  intros Hl Hp t. subst t. induction n as [| n IH].
  - cbn [Nat.iter nat_rect]. auto.
  - destruct IH as (I1 & I2 & I3). rewrite Nat.iter_succ.
    destruct (SampleLines_fields (Nat.iter n SampleLines s)) as (F1 & F2 & F3 & _).
    rewrite F1, F2, F3, I1, I2, I3. cbn [negb andb]. rewrite orb_false_r. auto.
Qed.

(** NMI is edge-triggered and IRQ is level-sensitive.  With the NMI line
    raised by [Nmi], the first sampling detects an NMI exactly when the
    line was low at the sampling before, and any number of further
    samplings with the line held high detect nothing more; a line raised
    and lowered again between two samplings is not seen; after the line
    has been sampled low, raising it is detected again.  The IRQ line is
    seen at every sampling while it is high, and lowering it with
    [ClearIrq] before the sampling leaves nothing to be seen. *)
Theorem Nmi_edge_Irq_level (n : nat) (s : CCpu6502) :
  let held := Nat.iter n SampleLines (SampleLines (Nmi s)) in
  m_bDetectedNmi (SampleLines (Nmi s)) = (m_bDetectedNmi s || negb (m_bLastNmiStatusLine s)) /\
  m_bDetectedNmi held = m_bDetectedNmi (SampleLines (Nmi s)) /\
  m_bDetectedNmi (SampleLines (ClearNmi (Nmi s))) = m_bDetectedNmi s /\
  m_bDetectedNmi (SampleLines (Nmi (SampleLines (ClearNmi held)))) = true /\
  m_bIrqSeenLowPhi2 (SampleLines (Irq s)) = true /\
  m_bIrqSeenLowPhi2 (SampleLines (ClearIrq (Irq s))) = m_bIrqSeenLowPhi2 s.
Proof.
  intros held.
  assert (H1 : m_bDetectedNmi (SampleLines (Nmi s)) =
               (m_bDetectedNmi s || negb (m_bLastNmiStatusLine s))).
  { cbn. rewrite andb_true_r. reflexivity. }
  split; [exact H1 |].
  split; [apply (SampleLines_held n (SampleLines (Nmi s))); reflexivity |].
  split; [cbn; rewrite andb_false_r, orb_false_r; reflexivity |].
  split; [cbn; apply orb_true_r |].
  split; [cbn; apply orb_true_r |].
  cbn. apply orb_false_r.
Qed.

End LineProps.

(** * The further properties on the small machine *)

Module MoreExamples.
Import Demo MoreDemo Bus Mapper094.

#[local] Existing Instance demo_ext.
#[local] Existing Instance emulator_hooks.

(** The demo's [BeginInst] only notes the event and rewinds the
    sequencer. *)
Lemma demo_BeginInst_view (t : CCpu6502) : alu_view (BeginInst t) = alu_view t.
Proof. destruct t. reflexivity. Qed.

Lemma demo_BeginInst_keeps (t : CCpu6502) :
  m_rRegs (BeginInst t) = m_rRegs t /\ m_ui16Address (BeginInst t) = m_ui16Address t.
Proof. destruct t. split; reflexivity. Qed.

(** The demo's bus read touches the bus log and, at 0x4016, the shift
    register of the first controller. *)
Lemma demo_read_keeps_branch (a : Z) : keeps_branch_view (fun t => snd (bus_Read a t)).
Proof.
  intros t. destruct t. unfold branch_view. cbn.
  destruct (a =? 0x4016); reflexivity.
Qed.

Lemma demo_read_keeps_words (a : Z) : keeps_word_view (fun t => snd (bus_Read a t)).
Proof.
  intros t. destruct t. unfold word_view. cbn.
  destruct (a =? 0x4016); reflexivity.
Qed.

Lemma demo_finish_keeps_branch (b : bool) : keeps_branch_view (LSN_FINISH_INST b).
Proof. intros t. destruct t. reflexivity. Qed.

Lemma demo_finish_keeps_words (b : bool) : keeps_word_view (LSN_FINISH_INST b).
Proof. intros t. destruct t. reflexivity. Qed.

(** 0x50 + 0x50 in a signed byte overflows: V and N are set, Z is not. *)
Lemma Adc_adds_witness :
  let st' := ui8Status (m_rRegs (snd (Adc 0x50 0x50 cpu0))) in
  0 <= 0x50 < 256 /\
  Z.testbit st' 1 = false /\ Z.testbit st' 7 = true /\ Z.testbit st' 6 = true /\
  snd (Adc 0x50 0x50 cpu0) = put_Status 0xE4 cpu0.
Proof.
  intros st'. assert (H : 0 <= 0x50 < 256) by lia.
  destruct (Adc_adds 0x50 0x50 cpu0 H H) as (_ & _ & Hz & Hn & Hv & _ & _ & Hs).
  split; [exact H |]. split; [exact Hz |]. split; [exact Hn |]. split; [exact Hv | exact Hs].
Defined.

(** 0x50 - 0xB0 with the carry set: a borrow is needed and the signed
    difference 80 + 80 does not fit. *)
Lemma Sbc_subtracts_witness :
  let st' := ui8Status (m_rRegs (snd (Sbc 0x50 0xB0 cpu_carry))) in
  0 <= 0x50 < 256 /\ 0 <= 0xB0 < 256 /\
  Z.testbit st' 0 = false /\ Z.testbit st' 7 = true /\ Z.testbit st' 6 = true.
Proof.
  intros st'. assert (Ha : 0 <= 0x50 < 256) by lia. assert (Hm : 0 <= 0xB0 < 256) by lia.
  destruct (Sbc_subtracts 0x50 0xB0 cpu_carry Ha Hm) as (_ & _ & Hc & _ & Hn & Hv & _).
  split; [exact Ha |]. split; [exact Hm |]. split; [exact Hc |]. split; [exact Hn | exact Hv].
Defined.

(** Subtracting 0xB0 is adding 0x4F. *)
Lemma Sbc_is_Adc_of_complement_witness :
  0 <= 0x50 < 256 /\ 0 <= 0xB0 < 256 /\
  Sbc 0x50 0xB0 cpu0 = Adc 0x50 0x4F cpu0.
Proof.
  assert (Ha : 0 <= 0x50 < 256) by lia. assert (Hm : 0 <= 0xB0 < 256) by lia.
  split; [exact Ha |]. split; [exact Hm |].
  exact (proj2 (Sbc_is_Adc_of_complement 0x50 0xB0 cpu0 Ha Hm)).
Defined.

(** 0x10 compared with 0x20: below, so C and Z are clear and N is bit 7
    of 0xF0. *)
Lemma Cmp_orders_witness :
  let st' := ui8Status (m_rRegs (Cmp 0x10 0x20 cpu0)) in
  0 <= 0x10 < 256 /\ 0 <= 0x20 < 256 /\
  Z.testbit st' 0 = false /\ Z.testbit st' 1 = false /\ Z.testbit st' 7 = true /\
  Cmp 0x10 0x20 cpu0 = put_Status 0xA4 cpu0.
Proof.
  intros st'. assert (Hr : 0 <= 0x10 < 256) by lia. assert (Ho : 0 <= 0x20 < 256) by lia.
  destruct (Cmp_orders 0x10 0x20 cpu0 Hr Ho) as (Hc & Hz & Hn & _ & _ & _ & _ & Hs).
  split; [exact Hr |]. split; [exact Ho |]. split; [exact Hc |]. split; [exact Hz |].
  split; [exact Hn | exact Hs].
Defined.

(** The byte 0x81 shifted: [Asl] and [Rol] give 0x02 with the carry
    set, [Lsr] and [Ror] give 0x40 with the carry set. *)
Lemma Shifts_keep_every_bit_witness :
  0 <= m_ui8Operand cpu_81 < 256 /\
  2 * 0x81 = 256 * Z.b2z (Z.testbit (ui8Status (m_rRegs (Asl cpu_81))) 0) +
             m_ui8Operand (Asl cpu_81) /\
  Z.testbit (ui8Status (m_rRegs (Asl cpu_81))) 1 = false /\
  0x81 = 2 * m_ui8Operand (Lsr cpu_81) +
         Z.b2z (Z.testbit (ui8Status (m_rRegs (Lsr cpu_81))) 0) /\
  m_ui8Operand (Lsr cpu_81) < 128.
Proof.
  assert (H : 0 <= m_ui8Operand cpu_81 < 256) by (cbn; lia).
  destruct (Shifts_keep_every_bit (hooks := emulator_hooks) cpu_81 H)
    as ((A1 & A2 & _) & (L1 & _ & L3) & _).
  split; [exact H |]. split; [exact A1 |]. split; [exact A2 |]. split; [exact L1 | exact L3].
Defined.

(** 0x81 rotated left and back, and right and back. *)
Lemma Rol_Ror_round_trip_witness :
  0 <= m_ui8Operand cpu_81 < 256 /\
  m_ui8Operand (Ror (Rol cpu_81)) = 0x81 /\
  m_ui8Operand (Rol (Ror cpu_81)) = 0x81 /\
  Z.testbit (ui8Status (m_rRegs (Ror (Rol cpu_81)))) 7 = true.
Proof.
  assert (H : 0 <= m_ui8Operand cpu_81 < 256) by (cbn; lia).
  destruct (Rol_Ror_round_trip (hooks := emulator_hooks) cpu_81 H)
    as ((A1 & _ & _ & A4 & _) & (B1 & _)).
  split; [exact H |]. split; [exact A1 |]. split; [exact B1 | exact A4].
Defined.

(** 0xFF increments to 0, which sets Z, and comes back. *)
Lemma Inc_Dec_inverse_witness :
  let s := cpu_at 0x02 1 regs0 0xFF 0x12FE false false false false 0 in
  0 <= m_ui8Operand s < 256 /\
  m_ui8Operand (Inc s) = 0 /\
  Z.testbit (ui8Status (m_rRegs (Inc s))) 1 = true /\
  m_ui8Operand (Dec (Inc s)) = 0xFF.
Proof.
  intros s. assert (H : 0 <= m_ui8Operand s < 256) by (cbn; lia).
  destruct (Inc_Dec_inverse (hooks := emulator_hooks) s H) as (I1 & _ & I3 & _ & (R1 & _) & _).
  split; [exact H |]. split; [exact I1 |]. split; [exact I3 | exact R1].
Defined.

(** SLO and ISB on the operand 0x81. *)
Lemma Combined_steps_compose_witness :
  (forall t : CCpu6502, alu_view (BeginInst t) = alu_view t) /\
  alu_view (Slo cpu_81) = alu_view (Ora_BeginInst false (Asl cpu_81)) /\
  ui8A (m_rRegs (Slo cpu_81)) = 0x5A /\
  alu_view (Isb cpu_81) = alu_view (Sbc_BeginInst false (Inc cpu_81)).
Proof.
  destruct (Combined_steps_compose (hooks := emulator_hooks) demo_BeginInst_view cpu_81)
    as (H1 & _ & _ & _ & _ & H6).
  split; [exact demo_BeginInst_view |]. split; [exact H1 |].
  split; [| exact H6].
  change (ui8A (fst (alu_view (Slo cpu_81))) = 0x5A). rewrite H1. reflexivity.
Defined.

(** ARR with A = 0x5A, the operand 0xFF and the carry set: the new A is
    0xAD, so C is clear and V set. *)
Lemma Arr_flags_from_result_witness :
  let s := SetStatusBit SF.C true (cpu_at 0x6B 3 regs0 0xFF 0 false false false false 0) in
  0 <= ui8A (m_rRegs s) < 256 /\ 0 <= m_ui8Operand s < 256 /\
  ui8A (m_rRegs (Arr_BeginInst true s)) = 0xAD /\
  Z.testbit (ui8Status (m_rRegs (Arr_BeginInst true s))) 0 = false /\
  Z.testbit (ui8Status (m_rRegs (Arr_BeginInst true s))) 6 = true.
Proof.
  intros s.
  assert (HA : 0 <= ui8A (m_rRegs s) < 256) by (cbn; lia).
  assert (HM : 0 <= m_ui8Operand s < 256) by (cbn; lia).
  destruct (Arr_flags_from_result (hooks := emulator_hooks) demo_BeginInst_view true s HA HM)
    as (R1 & R2 & R3 & _).
  split; [exact HA |]. split; [exact HM |]. split; [exact R1 |]. split; [exact R2 | exact R3].
Defined.

(** SBX with A = 0x5A, X = 0xF0 and the operand 0x3C: A AND X is 0x50,
    X becomes 0x14 and no borrow was needed. *)
Lemma Sbx_compares_witness :
  let s := cpu_at 0xCB 3 regs0 0x3C 0 false false false false 0 in
  0 <= ui8X (m_rRegs s) < 256 /\ 0 <= m_ui8Operand s < 256 /\
  ui8X (m_rRegs (Sbx_IncPc_BeginInst s)) = 0x14 /\
  Z.testbit (ui8Status (m_rRegs (Sbx_IncPc_BeginInst s))) 0 = true /\
  ui8A (m_rRegs (Sbx_IncPc_BeginInst s)) = 0x5A.
Proof.
  intros s.
  assert (HX : 0 <= ui8X (m_rRegs s) < 256) by (cbn; lia).
  assert (HM : 0 <= m_ui8Operand s < 256) by (cbn; lia).
  destruct (Sbx_compares (hooks := emulator_hooks) demo_BeginInst_view s HX HM)
    as (R1 & _ & R3 & R4 & _).
  split; [exact HX |]. split; [exact HM |]. split; [exact R1 |]. split; [exact R3 | exact R4].
Defined.

(** The status 0x24 is pushed as 0x34 and comes back as 0x24. *)
Lemma Php_image_round_trip_witness :
  0 <= ui8Status (m_rRegs cpu0) < 256 /\
  m_ui8Operand (Php cpu0) = 0x34 /\
  ui8Status (m_rRegs (Plp_BeginInst (Php cpu0))) = 0x24 /\
  ui8Status (m_rRegs (CopyOperandToStatusWithoutB (Php cpu0))) = 0x24.
Proof.
  assert (H : 0 <= ui8Status (m_rRegs cpu0) < 256) by (cbn; lia).
  destruct (Php_image_round_trip (hooks := emulator_hooks) demo_BeginInst_view cpu0 H)
    as (R1 & _ & R3 & _ & R5).
  split; [exact H |]. split; [exact R1 |]. split; [exact R3 | exact R5].
Defined.

(** The NES layout: 2 KiB of RAM mirrored through 0x0000-0x1FFF.  The
    address 0x1805 reaches the cell 0x0005, as 0x0005 itself does. *)
Lemma ApplyMemoryMap_mirrors_ram_witness :
  let b' := ApplyMemoryMap 0 0x2000 0x800 0x10000 blank_slots in
  0 <= 0 /\ 0 + 0x2000 <= 0x4000 /\ 0 < 0x800 /\ 0x10000 <= 0x10000 /\
  Readers b' 0x1805 = MkAccessor PfStdRead 0x0005 /\
  Writers b' 0x1805 = MkAccessor PfStdWrite 0x0005 /\
  Readers b' (0x0005 + 3 * 0x800) = Readers b' 0x0005 /\
  Readers b' 0x5000 = MkAccessor PfNoRead 0x5000.
Proof.
  intros b'.
  assert (H1 : 0 <= 0) by lia. assert (H2 : 0 + 0x2000 <= 0x4000) by lia.
  assert (H3 : 0 < 0x800) by lia. assert (H4 : 0x10000 <= 0x10000) by lia.
  destruct (MemoryMapProps.ApplyMemoryMap_mirrors_ram 0 0x2000 0x800 0x10000 H1 H2 H3 H4
              blank_slots) as (M1 & M2 & M3).
  assert (Ha : 0 <= 0x1805 < 0 + 0x2000) by lia.
  assert (Hb : 0 <= 0x0005 < 0 + 0x2000) by lia.
  assert (Hc : 0 <= 0x0005 + 3 * 0x800 < 0 + 0x2000) by lia.
  assert (Hd : 0x4000 <= 0x5000 < 0x4014 \/ 0x4018 <= 0x5000 < 0x10000) by lia.
  destruct (M1 0x1805 Ha) as (R & W & _).
  split; [exact H1 |]. split; [exact H2 |]. split; [exact H3 |]. split; [exact H4 |].
  split; [exact R |]. split; [exact W |].
  split; [exact (proj1 (M2 0x0005 3 Hb Hc)) | exact (proj1 (M3 0x5000 Hd))].
Defined.

(** In the NES layout the handlers of 0x4015 and of 0x2000 stay the
    foreign ones the bus started with. *)
Lemma ApplyMemoryMap_leaves_alone_witness :
  let b' := ApplyMemoryMap 0 0x2000 0x800 0x10000 blank_slots in
  0 <= 0 /\ 0 <= 0x2000 /\ 0 + 0x2000 <= 0x4000 /\ 0x10000 <= 0x10000 /\
  Readers b' 0x4015 = Readers blank_slots 0x4015 /\
  Writers b' 0x4017 = Writers blank_slots 0x4017 /\
  Readers b' 0x2000 = Readers blank_slots 0x2000 /\
  FloatMasks b' 0x4015 = 0x00.
Proof.
  intros b'.
  assert (H1 : 0 <= 0) by lia. assert (H2 : 0 <= 0x2000) by lia.
  assert (H3 : 0 + 0x2000 <= 0x4000) by lia. assert (H4 : 0x10000 <= 0x10000) by lia.
  destruct (MemoryMapProps.ApplyMemoryMap_leaves_alone 0 0x2000 0x800 0x10000 H1 H2 H3 H4
              blank_slots) as (L1 & _ & L3 & L4 & L5).
  assert (Ha : 0x2000 < 0 \/ 0 + 0x2000 <= 0x2000 < 0x4000 \/
               (0x10000 <= 0x2000 /\ 0x4018 <= 0x2000)) by lia.
  split; [exact H1 |]. split; [exact H2 |]. split; [exact H3 |]. split; [exact H4 |].
  split; [exact L1 |]. split; [exact L3 |].
  split; [exact (proj1 (L4 0x2000 Ha)) | exact (L5 0x4015)].
Defined.

(** The snapshot 0xA5 read back: the first three reads after a write
    return 1, 0, 1. *)
Lemma Controller_serial_readout_witness :
  inputs_sized cpu0 /\
  fst (run4016 (PortWrite 1 :: repeat PortRead 3) cpu0) = [1; 0; 1] /\
  at8 (m_ui8InputsState (snd (run4016 (PortWrite 1 :: repeat PortRead 3) cpu0))) 0 = 0x28.
Proof.
  assert (Hs : inputs_sized cpu0) by (repeat split).
  destruct (Controller_serial_readout (hooks := emulator_hooks) 1 3 cpu0 Hs) as (R1 & _ & R3).
  split; [exact Hs |]. split; [exact R1 | exact R3].
Defined.

(** A write to 0x4016 leaves the second shift register alone, and a read
    of 0x4017 the first. *)
Lemma Ports_independent_witness :
  let s := cpu_at 0x02 1 regs0 0 0 false false false false 0xC0 in
  inputs_sized s /\
  at8 (m_ui8InputsState (Write4016 1 s)) 1 = at8 (m_ui8InputsState s) 1 /\
  at8 (m_ui8InputsState (snd (Read4017 s))) 0 = 0xC0 /\
  fst (Read4017 s) = 0.
Proof.
  intros s. assert (Hs : inputs_sized s) by (repeat split).
  destruct (Ports_independent (hooks := emulator_hooks) 1 s Hs) as (_ & R2 & R3 & _ & R5 & _).
  split; [exact Hs |]. split; [exact R2 |]. split; [exact R3 | exact R5].
Defined.

(** A ROM of two banks: 0xFF selects what 0x1C selects, and 4 selects
    bank 1. *)
Lemma SelectBank_bits_2_to_4_witness :
  0x4000 <= PrgSize rom2 /\
  SelectBank 0xFF (InitWithRom rom2 blank_mapper) =
    SelectBank 0x1C (InitWithRom rom2 blank_mapper) /\
  (exists m', SelectBank (1 * 4) (InitWithRom rom2 blank_mapper) = Some m' /\
              m_ui8PgmBank m' = 1).
Proof.
  assert (Hsize : 0x4000 <= PrgSize rom2) by (vm_compute; discriminate).
  destruct (Mapper094Banks.SelectBank_bits_2_to_4 0xFF 1 rom2 blank_mapper Hsize)
    as (R1 & _ & R3).
  split; [exact Hsize |]. split; [exact R1 |].
  apply R3; [vm_compute; split; [discriminate | reflexivity] | lia].
Defined.

(** The pointer 0x34FF indexed by X = 0xF0: the index step leaves
    0x34EF and reports the crossing, the fix gives 0x35EF. *)
Lemma Index_then_fix_witness :
  let e := MkEx cpu0 0 false in
  let e1 := Add_XAndPtrOrAddr_To_AddrOrPtr true true false e in
  0 <= m_ui16Pointer cpu0 < 65536 /\ 0 <= ui8X (m_rRegs cpu0) < 256 /\
  0 <= ui8Y (m_rRegs cpu0) < 256 /\
  m_ui16Target e1 = 0x35EF /\
  m_ui16Address (m_cpu e1) = 0x34EF /\
  m_bBoundaryCrossed (m_cpu e1) = true /\
  m_ui16Address (m_cpu (Fix_PtrOrAddr_To_AddrOrPtr_H false e1)) = 0x35EF.
Proof.
  intros e e1.
  assert (HB : 0 <= m_ui16Pointer cpu0 < 65536) by (cbn; lia).
  assert (HX : 0 <= ui8X (m_rRegs cpu0) < 256) by (cbn; lia).
  assert (HY : 0 <= ui8Y (m_rRegs cpu0) < 256) by (cbn; lia).
  destruct (Index_then_fix (hooks := emulator_hooks) true true false e HB HX HY)
    as ((R1 & R2 & _ & R4 & _ & R6) & _).
  split; [exact HB |]. split; [exact HX |]. split; [exact HY |].
  split; [exact R1 |]. split; [exact R2 |]. split; [exact R4 | exact R6].
Defined.

(** BNE at 0x8000 with Z clear and the offset 0xEA, which is -22: the
    branch is taken across the page boundary to 0x7FEC; BEQ in the same
    state falls through to 0x8002. *)
Lemma Branch_on_flag_witness :
  let e := MkEx cpu0 0 false in
  let chk := fun s : CCpu6502 => s in
  (forall a, keeps_branch_view (fun t => snd (bus_Read a t))) /\
  (forall b, keeps_branch_view (LSN_FINISH_INST b)) /\
  (forall t : CCpu6502,
     m_rRegs (BeginInst t) = m_rRegs t /\ m_ui16Address (BeginInst t) = m_ui16Address t) /\
  keeps_branch_view chk /\
  m_bAllowWritingToPc cpu0 = true /\
  m_rRegs (m_cpu (Branch_run chk (Branch_Cycle1 SF.Z_ 0 e))) = set_ui16Pc 0x7FEC regs0 /\
  m_rRegs (m_cpu (Branch_run chk (Branch_Cycle1 SF.Z_ 1 e))) = set_ui16Pc 0x8002 regs0.
Proof.
  intros e chk.
  assert (Hc : keeps_branch_view chk) by (intros t; reflexivity).
  assert (Hg : m_bAllowWritingToPc cpu0 = true) by reflexivity.
  split; [exact demo_read_keeps_branch |]. split; [exact demo_finish_keeps_branch |].
  split; [exact demo_BeginInst_keeps |]. split; [exact Hc |]. split; [exact Hg |].
  split.
  - exact (Branch_on_flag (hooks := emulator_hooks) chk demo_read_keeps_branch
             demo_finish_keeps_branch demo_BeginInst_keeps Hc SF.Z_ 0 e Hg).
  - exact (Branch_on_flag (hooks := emulator_hooks) chk demo_read_keeps_branch
             demo_finish_keeps_branch demo_BeginInst_keeps Hc SF.Z_ 1 e Hg).
Defined.

(** JMP (0x34FF) with 0x10 stored at 0x34FF, 0x80 at 0x3400 and 0x90 at
    0x3500: the high byte is read at 0x3400 and PC becomes 0x8010. *)
Lemma Pointer_read_stays_in_page_witness :
  let s := poke 0x3500 0x90 (poke 0x3400 0x80 (poke 0x34FF 0x10 cpu0)) in
  let mid := fun t : CCpu6502 => LSN_NEXT_FUNCTION t in
  let s2 := Read_PtrOrAddr_To_AddrOrPtr_H_SamePage_Phi2 false true
              (mid (Read_PtrOrAddr_To_AddrOrPtr_L_Phi2 false s)) in
  (forall a, keeps_word_view (fun t => snd (bus_Read a t))) /\
  (forall b, keeps_word_view (LSN_FINISH_INST b)) /\
  keeps_word_view mid /\
  (forall t : CCpu6502, m_ui16Address (BeginInst t) = m_ui16Address t) /\
  0 <= AddrOrPtr false s < 65536 /\
  m_ui16Address s2 = 0x8010 /\
  ui16Pc (m_rRegs (Jmp_BeginInst s2)) = 0x8010.
Proof.
  intros s mid s2.
  assert (Hm : keeps_word_view mid) by (intros t; destruct t; reflexivity).
  assert (Hb : forall t : CCpu6502, m_ui16Address (BeginInst t) = m_ui16Address t)
    by (intros t; apply demo_BeginInst_keeps).
  assert (Hw : 0 <= AddrOrPtr false s < 65536) by (cbn; lia).
  destruct (Pointer_read_stays_in_page (hooks := emulator_hooks) mid demo_read_keeps_words
              demo_finish_keeps_words Hm Hb false true s Hw) as (_ & _ & _ & _ & R5 & R6).
  split; [exact demo_read_keeps_words |]. split; [exact demo_finish_keeps_words |].
  split; [exact Hm |]. split; [exact Hb |]. split; [exact Hw |].
  split; [exact R5 | exact (proj1 (R6 eq_refl))].
Defined.

(** The IRQ/BRK vector holding 0x1234: after the two reads, with
    [SetBrkFlags] between them, and [Brk_BeginInst], PC is 0x1234. *)
Lemma Vector_to_Pc_witness :
  let s := poke 0xFFFF 0x12 (poke 0xFFFE 0x34 cpu0) in
  (forall a, keeps_word_view (fun t => snd (bus_Read a t))) /\
  (forall b, keeps_word_view (LSN_FINISH_INST b)) /\
  keeps_word_view SetBrkFlags /\
  (forall t : CCpu6502, m_ui16Address (BeginInst t) = m_ui16Address t) /\
  ui16Pc (m_rRegs (Brk_BeginInst
                     (CopyVectorToPc_H_Phi2 true (SetBrkFlags (CopyVectorToPc_L_Phi2 s))))) =
    0x1234.
Proof.
  intros s.
  assert (Hm : keeps_word_view SetBrkFlags) by (intros t; destruct t; reflexivity).
  assert (Hb : forall t : CCpu6502, m_ui16Address (BeginInst t) = m_ui16Address t)
    by (intros t; apply demo_BeginInst_keeps).
  split; [exact demo_read_keeps_words |]. split; [exact demo_finish_keeps_words |].
  split; [exact Hm |]. split; [exact Hb |].
  exact (proj1 (Vector_to_Pc (hooks := emulator_hooks) SetBrkFlags demo_read_keeps_words
                  demo_finish_keeps_words Hm Hb true s)).
Defined.

End MoreExamples.
